(** * Apache Beam operators of the Airflow provider

    A shallow embedding of [airflow/providers/apache/beam/operators/beam.py]:
    the option merge of [BeamBasePipelineOperator._init_pipeline_options],
    the Dataflow mixin, and the [__init__], [execute] and [on_kill] methods of
    the Python, Java and Go pipeline operators.

    Python dictionaries are objects of a store: a dictionary is an
    insertion-ordered association list held in a heap cell, and a value that
    is itself a dictionary is a reference to another cell, so that aliasing
    between the caller's dictionaries and the operator's is visible.  Calls to
    the hooks (Beam, Dataflow, GCS) are recorded in a trace of events and
    answered by an explicit description of the outside world. *)

From Stdlib Require Import String Ascii List Bool Arith Lia.
From stdpp Require Import base list.
Import ListNotations.
Local Open Scope string_scope.
Local Open Scope list_scope.

(** ** Strings *)

Definition ascii_lower (c : ascii) : ascii :=
  let n := nat_of_ascii c in
  if ((65 <=? n) && (n <=? 90))%nat then ascii_of_nat (n + 32) else c.

(** [str.lower()] *)
Fixpoint lower (s : string) : string :=
  match s with
  | EmptyString => EmptyString
  | String c s' => String (ascii_lower c) (lower s')
  end.

(** [str.startswith(p)] *)
Definition startswith (p s : string) : bool := String.prefix p s.

(** [str.replace(a, b)] for one-character [a] and [b]. *)
Fixpoint replace (a b : ascii) (s : string) : string :=
  match s with
  | EmptyString => EmptyString
  | String c s' => String (if Ascii.eqb c a then b else c) (replace a b s')
  end.

(** [sep.join(xs)] *)
Definition join (sep : string) (xs : list string) : string := String.concat sep xs.

(** Truth value of an [Optional[str]]: [None] and the empty string are false. *)
Definition truthy (o : option string) : bool :=
  match o with
  | Some s => negb (String.eqb s "")
  | None => false
  end.

(** ** Values, dictionaries and the heap *)

(** Locations of dictionary objects. *)
Abbreviation loc := nat.

(** The values a pipeline option can take.  Strings, booleans, [None] and
    lists of strings are never mutated by the operators and are held by value;
    a nested dictionary is a reference to its heap cell. *)
Inductive value :=
| VNone
| VBool (b : bool)
| VStr (s : string)
| VList (xs : list string)
| VRef (l : loc).

(** A dictionary in insertion order.  A Python [dict] has each key once. *)
Definition dict := list (string * value).

Definition dict_keys (d : dict) : list string := map fst d.

(** [d.get(k)], also the truth of [k in d]. *)
Fixpoint dict_get (k : string) (d : dict) : option value :=
  match d with
  | [] => None
  | (k', v) :: d' => if String.eqb k' k then Some v else dict_get k d'
  end.

(** [d[k] = v]: an existing key keeps its place, a new key goes last. *)
Fixpoint dict_set (k : string) (v : value) (d : dict) : dict :=
  match d with
  | [] => [(k, v)]
  | (k', v') :: d' =>
      if String.eqb k' k then (k, v) :: d' else (k', v') :: dict_set k v d'
  end.

(** [d.update(src)]: the items of [src] are assigned in [src]'s order. *)
Definition dict_update (d src : dict) : dict :=
  fold_left (fun acc kv => dict_set (fst kv) (snd kv) acc) src d.

(** [{f(key): d[key] for key in d}] *)
Definition dict_comprehension (f : string -> string) (d : dict) : dict :=
  fold_left
    (fun acc key =>
       match dict_get key d with
       | Some v => dict_set (f key) v acc
       | None => acc
       end)
    (dict_keys d) [].

(** The value that the last key of [d], in iteration order, that [f] sends to
    [k'] is bound to. *)
Fixpoint last_writer (f : string -> string) (k' : string) (d : dict) : option value :=
  match d with
  | [] => None
  | (k, v) :: d' =>
      match last_writer f k' d' with
      | Some v' => Some v'
      | None => if String.eqb (f k) k' then Some v else None
      end
  end.

Abbreviation heap := (list dict).

(** The dictionary held at [l]. *)
Definition heap_get (h : heap) (l : loc) : dict :=
  match h !! l with
  | Some d => d
  | None => []
  end.

(** Every dictionary of the heap has each key once, as Python's have. *)
Definition heap_wf (h : heap) : Prop := Forall (fun d => List.NoDup (dict_keys d)) h.

(** [copy.deepcopy]: every dictionary reachable from the argument gets a fresh
    twin, and the references between twins mirror those between the originals
    (the memo table of [deepcopy]).  The model gives a twin, [length h] cells
    further, to every cell of the heap; the twins of cells that the argument
    does not reach are garbage. *)
Definition twin_value (n : nat) (v : value) : value :=
  match v with
  | VRef l => if (l <? n)%nat then VRef (l + n) else VRef l
  | _ => v
  end.

Definition twin_dict (n : nat) (d : dict) : dict :=
  map (fun kv => (fst kv, twin_value n (snd kv))) d.

Definition heap_deepcopy (h : heap) : heap := h ++ map (twin_dict (length h)) h.

(** ** The Dataflow configuration and the hooks *)

Inductive CheckJobRunning := IgnoreJob | FinishIfRunning | WaitForRun.

Definition CheckJobRunning_eqb (a b : CheckJobRunning) : bool :=
  match a, b with
  | IgnoreJob, IgnoreJob | FinishIfRunning, FinishIfRunning | WaitForRun, WaitForRun => true
  | _, _ => false
  end.

(** [impersonation_chain]: one account or a list of accounts. *)
Inductive impersonation :=
| ChainStr (s : string)
| ChainList (xs : list string).

Definition truthy_chain (o : option impersonation) : bool :=
  match o with
  | Some (ChainStr s) => negb (String.eqb s "")
  | Some (ChainList xs) => match xs with [] => false | _ => true end
  | None => false
  end.

(** Modelled from the spec: the class [DataflowConfiguration] of the Google
    provider (the spec's RemoteJobConfig), with the attributes the operators
    read. *)
Record DataflowConfiguration := mkDataflowConfiguration {
  job_name : string;
  append_job_name : bool;
  project_id : option string;
  location : option string;
  config_gcp_conn_id : option string;
  config_delegate_to : option string;
  poll_sleep : nat;
  impersonation_chain : option impersonation;
  drain_pipeline : bool;
  cancel_timeout : option nat;
  wait_until_finished : option bool;
  multiple_jobs : option bool;
  check_if_running : CheckJobRunning;
  service_account : option string
}.

Definition set_project_id (p : option string) (c : DataflowConfiguration) : DataflowConfiguration :=
  mkDataflowConfiguration (job_name c) (append_job_name c) p (location c)
    (config_gcp_conn_id c) (config_delegate_to c) (poll_sleep c) (impersonation_chain c)
    (drain_pipeline c) (cancel_timeout c) (wait_until_finished c) (multiple_jobs c)
    (check_if_running c) (service_account c).

(** The arguments a [DataflowHook] is built with. *)
Record DataflowHook := mkDataflowHook {
  hook_gcp_conn_id : string;
  hook_delegate_to : option string;
  hook_poll_sleep : nat;
  hook_impersonation_chain : option impersonation;
  hook_drain_pipeline : bool;
  hook_cancel_timeout : option nat;
  hook_wait_until_finished : option bool
}.

Record BeamHook := mkBeamHook { beam_runner : string }.

(** Modelled from the spec: [BeamRunnerType.DataflowRunner], the fixed
    identifier of the managed remote runner, matched without regard to case. *)
Definition DataflowRunner : string := "DataflowRunner".

(** ** The operator object *)

(** The attributes of [self]; one record serves the three operators, each of
    which uses the attributes of its own language. *)
Record operator := mkOperator {
  runner : string;
  default_pipeline_options : loc;
  pipeline_options : loc;
  gcp_conn_id : string;
  delegate_to : option string;
  dataflow_config : DataflowConfiguration;
  beam_hook : option BeamHook;
  dataflow_hook : option DataflowHook;
  dataflow_job_id : option string;
  dataflow_support_impersonation : bool;
  py_file : string;
  py_options : list string;
  py_interpreter : string;
  py_requirements : option (list string);
  py_system_site_packages : bool;
  jar : string;
  job_class : option string;
  go_file : string;
  should_init_go_module : bool
}.

Definition set_dataflow_config (c : DataflowConfiguration) (o : operator) : operator :=
  mkOperator (runner o) (default_pipeline_options o) (pipeline_options o) (gcp_conn_id o)
    (delegate_to o) c (beam_hook o) (dataflow_hook o) (dataflow_job_id o)
    (dataflow_support_impersonation o) (py_file o) (py_options o) (py_interpreter o)
    (py_requirements o) (py_system_site_packages o) (jar o) (job_class o) (go_file o)
    (should_init_go_module o).

Definition set_beam_hook (b : option BeamHook) (o : operator) : operator :=
  mkOperator (runner o) (default_pipeline_options o) (pipeline_options o) (gcp_conn_id o)
    (delegate_to o) (dataflow_config o) b (dataflow_hook o) (dataflow_job_id o)
    (dataflow_support_impersonation o) (py_file o) (py_options o) (py_interpreter o)
    (py_requirements o) (py_system_site_packages o) (jar o) (job_class o) (go_file o)
    (should_init_go_module o).

Definition set_dataflow_hook (k : option DataflowHook) (o : operator) : operator :=
  mkOperator (runner o) (default_pipeline_options o) (pipeline_options o) (gcp_conn_id o)
    (delegate_to o) (dataflow_config o) (beam_hook o) k (dataflow_job_id o)
    (dataflow_support_impersonation o) (py_file o) (py_options o) (py_interpreter o)
    (py_requirements o) (py_system_site_packages o) (jar o) (job_class o) (go_file o)
    (should_init_go_module o).

Definition set_dataflow_job_id (j : option string) (o : operator) : operator :=
  mkOperator (runner o) (default_pipeline_options o) (pipeline_options o) (gcp_conn_id o)
    (delegate_to o) (dataflow_config o) (beam_hook o) (dataflow_hook o) j
    (dataflow_support_impersonation o) (py_file o) (py_options o) (py_interpreter o)
    (py_requirements o) (py_system_site_packages o) (jar o) (job_class o) (go_file o)
    (should_init_go_module o).

Definition set_py_file (f : string) (o : operator) : operator :=
  mkOperator (runner o) (default_pipeline_options o) (pipeline_options o) (gcp_conn_id o)
    (delegate_to o) (dataflow_config o) (beam_hook o) (dataflow_hook o) (dataflow_job_id o)
    (dataflow_support_impersonation o) f (py_options o) (py_interpreter o)
    (py_requirements o) (py_system_site_packages o) (jar o) (job_class o) (go_file o)
    (should_init_go_module o).

Definition set_jar (f : string) (o : operator) : operator :=
  mkOperator (runner o) (default_pipeline_options o) (pipeline_options o) (gcp_conn_id o)
    (delegate_to o) (dataflow_config o) (beam_hook o) (dataflow_hook o) (dataflow_job_id o)
    (dataflow_support_impersonation o) (py_file o) (py_options o) (py_interpreter o)
    (py_requirements o) (py_system_site_packages o) f (job_class o) (go_file o)
    (should_init_go_module o).

Definition set_go_file (f : string) (init : bool) (o : operator) : operator :=
  mkOperator (runner o) (default_pipeline_options o) (pipeline_options o) (gcp_conn_id o)
    (delegate_to o) (dataflow_config o) (beam_hook o) (dataflow_hook o) (dataflow_job_id o)
    (dataflow_support_impersonation o) (py_file o) (py_options o) (py_interpreter o)
    (py_requirements o) (py_system_site_packages o) (jar o) (job_class o) f init.

Definition set_python (f : string) (opts : list string) (interp : string)
    (reqs : option (list string)) (site : bool) (o : operator) : operator :=
  mkOperator (runner o) (default_pipeline_options o) (pipeline_options o) (gcp_conn_id o)
    (delegate_to o) (dataflow_config o) (beam_hook o) (dataflow_hook o) (dataflow_job_id o)
    (dataflow_support_impersonation o) f opts interp reqs site (jar o) (job_class o)
    (go_file o) (should_init_go_module o).

Definition set_java (f : string) (class : option string) (o : operator) : operator :=
  mkOperator (runner o) (default_pipeline_options o) (pipeline_options o) (gcp_conn_id o)
    (delegate_to o) (dataflow_config o) (beam_hook o) (dataflow_hook o) (dataflow_job_id o)
    (dataflow_support_impersonation o) (py_file o) (py_options o) (py_interpreter o)
    (py_requirements o) (py_system_site_packages o) f class (go_file o)
    (should_init_go_module o).

Definition set_dataflow_support_impersonation (b : bool) (o : operator) : operator :=
  mkOperator (runner o) (default_pipeline_options o) (pipeline_options o) (gcp_conn_id o)
    (delegate_to o) (dataflow_config o) (beam_hook o) (dataflow_hook o) (dataflow_job_id o)
    b (py_file o) (py_options o) (py_interpreter o)
    (py_requirements o) (py_system_site_packages o) (jar o) (job_class o) (go_file o)
    (should_init_go_module o).

(** [self.dataflow_config], where an argument of the same name is in scope. *)
Definition self_dataflow_config (o : operator) : DataflowConfiguration := dataflow_config o.

(** ** Events, the outside world and the state *)

(** Calls that leave the operator: to the log, the Dataflow hook, the Beam
    hook, the GCS hook and the temporary file system.  A launch records the
    dictionary it is given as [variables]. *)
Inductive event :=
| Log (msg : string)
| IsJobDataflowRunning (name : string) (variables : dict)
| AuthorizedGcloudEnter
| AuthorizedGcloudExit
| StartPythonPipeline (variables : dict) (file : string) (options : list string)
    (interpreter : string) (requirements : option (list string))
    (system_site_packages : bool) (callback : bool)
| StartJavaPipeline (variables : dict) (file : string) (class : option string)
    (callback : bool)
| StartGoPipeline (variables : dict) (file : string) (callback : bool)
    (should_init_module : bool)
| PersistLink (project : option string) (region : option string) (job_id : option string)
| WaitForDone (name : string) (region : option string) (job_id : option string)
    (multiple : bool) (project : option string)
| CancelJob (job_id : string) (project : option string)
| TemporaryDirectoryEnter (dir : string)
| TemporaryDirectoryExit (dir : string)
| ProvideFileEnter (url : string) (dir : option string) (name : string)
| ProvideFileExit (name : string).

(** What the operator's collaborators answer, and the parts of the repository
    that the operators import from other modules. *)
Record World := mkWorld {
  (** [airflow.utils.helpers.convert_camel_to_snake] *)
  convert_camel_to_snake : string -> string;
  (** [airflow.version.version] *)
  version : string;
  (** [DataflowConfiguration()] *)
  default_dataflow_config : DataflowConfiguration;
  (** [DataflowHook.build_dataflow_job_name] *)
  build_dataflow_job_name : string -> bool -> string;
  (** [DataflowHook.project_id] *)
  hook_project_id : option string;
  (** the answer to the i-th call of [is_job_dataflow_running] *)
  running_answers : nat -> bool;
  (** the job ids that the line callback finds in the launched process's
      output, in order, and whether the process exits with status zero *)
  launch_job_ids : list string;
  launch_succeeds : bool;
  (** whether [wait_for_done] finds the job in a successful terminal state *)
  wait_succeeds : bool;
  (** the names [tempfile] gives the directory and [provide_file] the file *)
  temporary_directory : string;
  temporary_file : string -> option string -> string
}.

Record state := mkState {
  st_heap : heap;
  st_self : operator;
  st_trace : list event;
  (** the callbacks registered on the [ExitStack]: the files to remove *)
  st_exit_stack : list string;
  (** the temporary files and directories that exist *)
  st_files : list string;
  (** how many times [is_job_dataflow_running] was called *)
  st_polls : nat
}.

Definition set_heap (h : heap) (s : state) : state :=
  mkState h (st_self s) (st_trace s) (st_exit_stack s) (st_files s) (st_polls s).
Definition set_self (o : operator) (s : state) : state :=
  mkState (st_heap s) o (st_trace s) (st_exit_stack s) (st_files s) (st_polls s).
Definition set_trace (t : list event) (s : state) : state :=
  mkState (st_heap s) (st_self s) t (st_exit_stack s) (st_files s) (st_polls s).
Definition set_exit_stack (k : list string) (s : state) : state :=
  mkState (st_heap s) (st_self s) (st_trace s) k (st_files s) (st_polls s).
Definition set_files (f : list string) (s : state) : state :=
  mkState (st_heap s) (st_self s) (st_trace s) (st_exit_stack s) f (st_polls s).
Definition set_polls (n : nat) (s : state) : state :=
  mkState (st_heap s) (st_self s) (st_trace s) (st_exit_stack s) (st_files s) n.

(** ** The monad of operator code: state, exceptions, divergence *)

Inductive exn :=
| AttributeError
| FileNotFoundError
| AirflowException (msg : string).

(** [Diverge]: the fuel of a loop ran out while its condition still held. *)
Inductive result (A : Type) :=
| Ok (a : A)
| Raise (e : exn)
| Diverge.
Arguments Ok {A} a.
Arguments Raise {A} e.
Arguments Diverge {A}.

Definition M (A : Type) : Type := state -> state * result A.

Definition ret {A} (a : A) : M A := fun s => (s, Ok a).

Definition bind {A B} (m : M A) (k : A -> M B) : M B :=
  fun s =>
    match m s with
    | (s', Ok a) => k a s'
    | (s', Raise e) => (s', Raise e)
    | (s', Diverge) => (s', Diverge)
    end.

Notation "'let*' x ':=' m 'in' k" := (bind m (fun x => k))
  (at level 10, x pattern, m at level 100, k at level 200).
Notation "m ';;' k" := (bind m (fun _ => k))
  (at level 100, k at level 200, right associativity).

Definition raise {A} (e : exn) : M A := fun s => (s, Raise e).
Definition diverge {A} : M A := fun s => (s, Diverge).
Definition get_self : M operator := fun s => (s, Ok (st_self s)).
Definition put_self (o : operator) : M unit := fun s => (set_self o s, Ok tt).
Definition emit (e : event) : M unit := fun s => (set_trace (st_trace s ++ [e]) s, Ok tt).

(** [try: body finally: fin]; a body that never ends never reaches [fin]. *)
Definition try_finally {A} (body : M A) (fin : M unit) : M A :=
  fun s =>
    match body s with
    | (s', Ok a) =>
        match fin s' with
        | (s'', Ok _) => (s'', Ok a)
        | (s'', Raise e) => (s'', Raise e)
        | (s'', Diverge) => (s'', Diverge)
        end
    | (s', Raise e) =>
        match fin s' with
        | (s'', Ok _) => (s'', Raise e)
        | (s'', Raise e') => (s'', Raise e')
        | (s'', Diverge) => (s'', Diverge)
        end
    | (s', Diverge) => (s', Diverge)
    end.

(** *** The heap *)

Definition load (l : loc) : M dict := fun s => (s, Ok (heap_get (st_heap s) l)).
Definition store (l : loc) (d : dict) : M unit :=
  fun s => (set_heap (<[l := d]> (st_heap s)) s, Ok tt).
(** A new dictionary object. *)
Definition alloc (d : dict) : M loc :=
  fun s => (set_heap (st_heap s ++ [d]) s, Ok (length (st_heap s))).

(** [d.copy()] *)
Definition dict_copy (l : loc) : M loc :=
  let* d := load l in alloc d.

(** [copy.deepcopy(d)] *)
Definition deepcopy (l : loc) : M loc :=
  fun s =>
    let n := length (st_heap s) in
    if (l <? n)%nat then (set_heap (heap_deepcopy (st_heap s)) s, Ok (l + n))
    else alloc [] s.

(** [d[k] = v] *)
Definition setitem (l : loc) (k : string) (v : value) : M unit :=
  let* d := load l in store l (dict_set k v d).

(** [d.setdefault(k, v)] *)
Definition setdefault (l : loc) (k : string) (v : value) : M value :=
  let* d := load l in
  match dict_get k d with
  | Some v' => ret v'
  | None => store l (dict_set k v d) ;; ret v
  end.

(** [d.update(src)] for a dictionary object [src] *)
Definition update (l src : loc) : M unit :=
  let* items := load src in
  let* d := load l in
  store l (dict_update d items).

(** [v.update(src)] on the result of an expression: only a dictionary has the
    method. *)
Definition value_update (v : value) (src : loc) : M unit :=
  match v with
  | VRef l => update l src
  | _ => raise AttributeError
  end.

(** [x or {}] for [x : Optional[dict]] *)
Definition or_empty_dict (x : option loc) : M loc :=
  match x with
  | None => alloc []
  | Some l =>
      let* d := load l in
      match d with
      | [] => alloc []
      | _ => ret l
      end
  end.

(** [a or b] on optional strings *)
Definition or_else (a b : option string) : option string := if truthy a then a else b.

(** An [Optional[str]] as an option value. *)
Definition opt_value (o : option string) : value :=
  match o with
  | Some s => VStr s
  | None => VNone
  end.

(** What [execute] returns: [None], or the dictionary
    [{"dataflow_job_id": self.dataflow_job_id}]. *)
Inductive returned :=
| Nothing
| JobId (id : option string).

(** *** The collaborators *)

Section Collaborators.
Variable w : World.

(** [{"airflow-version": "v" + version.replace(".", "-").replace("+", "-")}] *)
Definition airflow_version_label : dict :=
  [("airflow-version", VStr ("v" ++ replace "+" "-" (replace "." "-" (version w)))%string)].

(** [DataflowHook.is_job_dataflow_running(name, variables)] *)
Definition is_job_dataflow_running (name : string) (variables : loc) : M bool :=
  let* d := load variables in
  emit (IsJobDataflowRunning name d) ;;
  fun s => (set_polls (S (st_polls s)) s, Ok (running_answers w (st_polls s))).

(** The line callback of [__get_dataflow_process_callback], run on each job
    id found in the output: [self.dataflow_job_id = job_id]. *)
Fixpoint process_lines (ids : list string) : M unit :=
  match ids with
  | [] => ret tt
  | id :: ids' =>
      let* self := get_self in
      put_self (set_dataflow_job_id (Some id) self) ;;
      process_lines ids'
  end.

(** [BeamHook.start_*_pipeline]: the call [e], the output read line by line,
    then the exit status. *)
Definition start_pipeline (e : event) (callback : bool) : M unit :=
  emit e ;;
  (if callback then process_lines (launch_job_ids w) else ret tt) ;;
  if launch_succeeds w then ret tt
  else raise (AirflowException "Apache Beam process failed").

(** [with self.dataflow_hook.provide_authorized_gcloud(): body] *)
Definition provide_authorized_gcloud {A} (body : M A) : M A :=
  emit AuthorizedGcloudEnter ;;
  try_finally body (emit AuthorizedGcloudExit).

(** [DataflowHook.wait_for_done] *)
Definition wait_for_done (name : string) (region : option string) (job_id : option string)
    (multiple : bool) (project : option string) : M unit :=
  emit (WaitForDone name region job_id multiple project) ;;
  if wait_succeeds w then ret tt
  else raise (AirflowException "Dataflow job did not succeed").

(** [DataflowJobLink.persist] *)
Definition persist (project region job_id : option string) : M unit :=
  emit (PersistLink project region job_id).

(** [DataflowHook.cancel_job] *)
Definition cancel_job (job_id : string) (project : option string) : M unit :=
  emit (CancelJob job_id project).

(** Entering [GCSHook.provide_file(object_url, dir)]: the object is
    downloaded to a new temporary file, in [dir] when one is given. *)
Definition provide_file_enter (url : string) (dir : option string) : M string :=
  let name :=
    match dir with
    | Some d => (d ++ "/" ++ temporary_file w url dir)%string
    | None => temporary_file w url dir
    end in
  emit (ProvideFileEnter url dir name) ;;
  (fun s => (set_files (name :: st_files s) s, Ok tt)) ;;
  ret name.

(** Leaving it: the temporary file is removed; a file that is no longer
    there cannot be removed, and leaving the context raises. *)
Definition provide_file_exit (name : string) : M unit :=
  emit (ProvideFileExit name) ;;
  fun s =>
    if existsb (String.eqb name) (st_files s)
    then (set_files (List.filter (fun f => negb (String.eqb f name)) (st_files s)) s, Ok tt)
    else (s, Raise FileNotFoundError).

(** [exit_stack.enter_context(gcs_hook.provide_file(...))] *)
Definition enter_context_provide_file (url : string) (dir : option string) : M string :=
  let* name := provide_file_enter url dir in
  (fun s => (set_exit_stack (name :: st_exit_stack s) s, Ok tt)) ;;
  ret name.

(** Leaving [with ExitStack()]: the registered contexts are left, last
    entered first. *)
Fixpoint close_contexts (names : list string) : M unit :=
  match names with
  | [] => ret tt
  | name :: names' => try_finally (provide_file_exit name) (close_contexts names')
  end.

Definition exit_stack_close : M unit :=
  fun s => close_contexts (st_exit_stack s) (set_exit_stack [] s).

(** [with ExitStack() as exit_stack: body] *)
Definition with_exit_stack {A} (body : M A) : M A :=
  (fun s => (set_exit_stack [] s, Ok tt)) ;;
  try_finally body exit_stack_close.

(** [with tempfile.TemporaryDirectory(prefix=...) as tmp_dir: body]: the
    directory and all it contains are removed when the block is left. *)
Definition with_temporary_directory {A} (body : string -> M A) : M A :=
  let d := temporary_directory w in
  emit (TemporaryDirectoryEnter d) ;;
  (fun s => (set_files (d :: st_files s) s, Ok tt)) ;;
  try_finally (body d)
    (emit (TemporaryDirectoryExit d) ;;
     fun s =>
       (set_files
          (List.filter
             (fun f => negb (String.eqb f d || startswith (d ++ "/")%string f))
             (st_files s)) s,
        Ok tt)).
End Collaborators.

(** ** [BeamDataflowMixin] *)

Module BeamDataflowMixin.
Section Methods.
Variable w : World.

Definition __set_dataflow_hook : M DataflowHook :=
  let* self := get_self in
  let config := dataflow_config self in
  let hook :=
    mkDataflowHook
      (match or_else (config_gcp_conn_id config) (Some (gcp_conn_id self)) with
       | Some c => c
       | None => gcp_conn_id self
       end)
      (or_else (config_delegate_to config) (delegate_to self))
      (poll_sleep config)
      (impersonation_chain config)
      (drain_pipeline config)
      (cancel_timeout config)
      (wait_until_finished config) in
  put_self (set_dataflow_hook (Some hook) self) ;;
  ret hook.

Definition __get_dataflow_job_name : M string :=
  let* self := get_self in
  ret (build_dataflow_job_name w (job_name (dataflow_config self))
         (append_job_name (dataflow_config self))).

Definition __get_dataflow_pipeline_options (pipeline_options : loc) (job_name : string)
    (job_name_key : option string) : M loc :=
  let* pipeline_options := deepcopy pipeline_options in
  match job_name_key with
  | Some key => setitem pipeline_options key (VStr job_name)
  | None => ret tt
  end ;;
  let* self := get_self in
  let config := dataflow_config self in
  (if truthy (service_account config)
   then setitem pipeline_options "serviceAccount" (opt_value (service_account config))
   else ret tt) ;;
  (if dataflow_support_impersonation self && truthy_chain (impersonation_chain config)
   then
     match impersonation_chain config with
     | Some (ChainList chain) =>
         setitem pipeline_options "impersonateServiceAccount" (VStr (join "," chain))
     | Some (ChainStr chain) =>
         setitem pipeline_options "impersonateServiceAccount" (VStr chain)
     | None => ret tt
     end
   else ret tt) ;;
  setitem pipeline_options "project" (opt_value (project_id config)) ;;
  setitem pipeline_options "region" (opt_value (location config)) ;;
  let* empty := alloc [] in
  let* labels := setdefault pipeline_options "labels" (VRef empty) in
  let* label := alloc (airflow_version_label w) in
  value_update labels label ;;
  ret pipeline_options.

(** The callback always exists on this path; [true] stands for it. *)
Definition __get_dataflow_process_callback : M bool := ret true.

Definition _set_dataflow (pipeline_options : loc) (job_name_variable_key : option string)
    : M (string * loc * bool) :=
  let* hook := __set_dataflow_hook in
  let* self := get_self in
  put_self (set_dataflow_hook (Some hook) self) ;;
  let* self := get_self in
  put_self
    (set_dataflow_config
       (set_project_id (or_else (project_id (dataflow_config self)) (hook_project_id w))
          (dataflow_config self))
       self) ;;
  let* dataflow_job_name := __get_dataflow_job_name in
  let* pipeline_options :=
    __get_dataflow_pipeline_options pipeline_options dataflow_job_name job_name_variable_key in
  let* process_line_callback := __get_dataflow_process_callback in
  ret (dataflow_job_name, pipeline_options, process_line_callback).
End Methods.
End BeamDataflowMixin.

(** ** [BeamBasePipelineOperator] *)

Module BeamBasePipelineOperator.
Section Methods.
Variable w : World.

(** The attributes of the subclasses are set by their own [__init__]. *)
Definition __init__ (runner : string) (default_pipeline_options pipeline_options : option loc)
    (gcp_conn_id : string) (delegate_to : option string)
    (dataflow_config : option DataflowConfiguration) : M unit :=
  let* default_pipeline_options := or_empty_dict default_pipeline_options in
  let* pipeline_options := or_empty_dict pipeline_options in
  let config :=
    match dataflow_config with
    | Some c => c
    | None => default_dataflow_config w
    end in
  put_self
    (mkOperator runner default_pipeline_options pipeline_options gcp_conn_id delegate_to
       config None None None true "" [] "" None false "" None "" false) ;;
  if negb (String.eqb (lower runner) (lower DataflowRunner))
  then emit (Log "dataflow_config is defined but runner is different than DataflowRunner")
  else ret tt.

Definition _init_pipeline_options (format_pipeline_options : bool)
    (job_name_variable_key : option string)
    : M (bool * option string * loc * bool) :=
  let* self := get_self in
  put_self (set_beam_hook (Some (mkBeamHook (runner self))) self) ;;
  let* options := dict_copy (default_pipeline_options self) in
  let is_dataflow := String.eqb (lower (runner self)) (lower DataflowRunner) in
  let* (dataflow_job_name, options, process_line_callback) :=
    (if is_dataflow then
       let* (name, options, callback) :=
         BeamDataflowMixin._set_dataflow w options job_name_variable_key in
       emit (Log "pipeline_options") ;;
       ret (Some name, options, callback)
     else ret (None, options, false)) in
  let* self := get_self in
  update options (pipeline_options self) ;;
  if format_pipeline_options then
    let* merged := load options in
    let* snake_case_pipeline_options :=
      alloc (dict_comprehension (convert_camel_to_snake w) merged) in
    ret (is_dataflow, dataflow_job_name, snake_case_pipeline_options, process_line_callback)
  else ret (is_dataflow, dataflow_job_name, options, process_line_callback).
End Methods.
End BeamBasePipelineOperator.

(** ** [BeamRunPythonPipelineOperator] *)

Module BeamRunPythonPipelineOperator.
Section Methods.
Variable w : World.

(** The arguments [default_pipeline_options] and [pipeline_options] are the
    caller's dictionaries, or [None]. *)
Definition __init__ (py_file runner : string)
    (caller_default_pipeline_options caller_pipeline_options : option loc)
    (py_interpreter : string) (py_options py_requirements : option (list string))
    (py_system_site_packages : bool) (gcp_conn_id : string) (delegate_to : option string)
    (dataflow_config : option DataflowConfiguration) : M unit :=
  BeamBasePipelineOperator.__init__ w runner caller_default_pipeline_options
    caller_pipeline_options gcp_conn_id delegate_to dataflow_config ;;
  let* self := get_self in
  put_self
    (set_python py_file (default [] py_options) py_interpreter py_requirements
       py_system_site_packages self) ;;
  let* self := get_self in
  let* empty := alloc [] in
  let* labels := setdefault (pipeline_options self) "labels" (VRef empty) in
  let* label := alloc (airflow_version_label w) in
  value_update labels label.

Definition execute : M returned :=
  let* (is_dataflow, dataflow_job_name, snake_case_pipeline_options, process_line_callback) :=
    BeamBasePipelineOperator._init_pipeline_options w true (Some "job_name") in
  let* self := get_self in
  match beam_hook self with
  | None => raise (AirflowException "Beam hook is not defined.")
  | Some _ =>
      with_exit_stack
        (let* self := get_self in
         (if startswith "gs://" (lower (py_file self)) then
            let* tmp_gcs_file := enter_context_provide_file w (py_file self) None in
            let* self := get_self in
            put_self (set_py_file tmp_gcs_file self)
          else ret tt) ;;
         let* self := get_self in
         let start :=
           let* variables := load snake_case_pipeline_options in
           start_pipeline w
             (StartPythonPipeline variables (py_file self) (py_options self)
                (py_interpreter self) (py_requirements self) (py_system_site_packages self)
                process_line_callback)
             process_line_callback in
         match (if is_dataflow then dataflow_hook self else None) with
         | Some hook =>
             provide_authorized_gcloud start ;;
             let* self := get_self in
             let config := dataflow_config self in
             persist (project_id config) (location config) (dataflow_job_id self) ;;
             match dataflow_job_name with
             | Some name =>
                 if negb (String.eqb name "") && truthy (location config) then
                   wait_for_done w name (location config) (dataflow_job_id self) false
                     (project_id config)
                 else ret tt
             | None => ret tt
             end ;;
             let* self := get_self in
             ret (JobId (dataflow_job_id self))
         | None =>
             start ;;
             ret Nothing
         end)
  end.

Definition on_kill : M unit :=
  let* self := get_self in
  match dataflow_hook self with
  | Some hook =>
      if truthy (dataflow_job_id self) then
        match dataflow_job_id self with
        | Some job_id =>
            emit (Log "Dataflow job was requested to be cancelled.") ;;
            cancel_job job_id (project_id (dataflow_config self))
        | None => ret tt
        end
      else ret tt
  | None => ret tt
  end.
End Methods.
End BeamRunPythonPipelineOperator.

(** ** [BeamRunJavaPipelineOperator] *)

Module BeamRunJavaPipelineOperator.
Section Methods.
Variable w : World.

Definition __init__ (jar runner : string) (job_class : option string)
    (caller_default_pipeline_options caller_pipeline_options : option loc)
    (gcp_conn_id : string) (delegate_to : option string)
    (dataflow_config : option DataflowConfiguration) : M unit :=
  BeamBasePipelineOperator.__init__ w runner caller_default_pipeline_options
    caller_pipeline_options gcp_conn_id delegate_to dataflow_config ;;
  let* self := get_self in
  put_self (set_java jar job_class self).

(** [while is_running and check_if_running == WaitForRun:] with [fuel]
    bounding the number of turns. *)
Fixpoint wait_for_run (fuel : nat) (options : loc) (is_running : bool) : M bool :=
  let* self := get_self in
  if is_running
     && CheckJobRunning_eqb (check_if_running (dataflow_config self)) WaitForRun
  then
    match fuel with
    | O => diverge
    | S fuel' =>
        let* is_running :=
          is_job_dataflow_running w (job_name (dataflow_config self)) options in
        wait_for_run fuel' options is_running
    end
  else ret is_running.

Definition execute (fuel : nat) : M returned :=
  let* (is_dataflow, dataflow_job_name, options, process_line_callback) :=
    BeamBasePipelineOperator._init_pipeline_options w false None in
  let* self := get_self in
  match beam_hook self with
  | None => raise (AirflowException "Beam hook is not defined.")
  | Some _ =>
      with_exit_stack
        (let* self := get_self in
         (if startswith "gs://" (lower (jar self)) then
            let* tmp_gcs_file := enter_context_provide_file w (jar self) None in
            let* self := get_self in
            put_self (set_jar tmp_gcs_file self)
          else ret tt) ;;
         let* self := get_self in
         let start :=
           let* variables := load options in
           start_pipeline w
             (StartJavaPipeline variables (jar self) (job_class self) process_line_callback)
             process_line_callback in
         match (if is_dataflow then dataflow_hook self else None) with
         | Some hook =>
             let config := dataflow_config self in
             let* is_running :=
               (if negb (CheckJobRunning_eqb (check_if_running config) IgnoreJob) then
                  let* is_running := is_job_dataflow_running w (job_name config) options in
                  wait_for_run fuel options is_running
                else ret false) in
             (if negb is_running then
                setitem options "jobName" (opt_value dataflow_job_name) ;;
                provide_authorized_gcloud start ;;
                match dataflow_job_name with
                | Some name =>
                    if negb (String.eqb name "") && truthy (location config) then
                      let multiple_jobs :=
                        match multiple_jobs config with
                        | Some true => true
                        | _ => false
                        end in
                      let* self := get_self in
                      persist (project_id config) (location config) (dataflow_job_id self) ;;
                      wait_for_done w name (location config) (dataflow_job_id self)
                        multiple_jobs (project_id config)
                    else ret tt
                | None => ret tt
                end
              else ret tt) ;;
             let* self := get_self in
             ret (JobId (dataflow_job_id self))
         | None =>
             start ;;
             ret Nothing
         end)
  end.

Definition on_kill : M unit :=
  let* self := get_self in
  match dataflow_hook self with
  | Some hook =>
      if truthy (dataflow_job_id self) then
        match dataflow_job_id self with
        | Some job_id =>
            emit (Log "Dataflow job was requested to be cancelled.") ;;
            cancel_job job_id (project_id (dataflow_config self))
        | None => ret tt
        end
      else ret tt
  | None => ret tt
  end.
End Methods.
End BeamRunJavaPipelineOperator.

(** ** [BeamRunGoPipelineOperator] *)

Module BeamRunGoPipelineOperator.
Section Methods.
Variable w : World.

Definition __init__ (go_file runner : string)
    (caller_default_pipeline_options caller_pipeline_options : option loc)
    (gcp_conn_id : string) (delegate_to : option string)
    (dataflow_config : option DataflowConfiguration) : M unit :=
  BeamBasePipelineOperator.__init__ w runner caller_default_pipeline_options
    caller_pipeline_options gcp_conn_id delegate_to dataflow_config ;;
  let* self := get_self in
  (if truthy_chain (impersonation_chain (self_dataflow_config self)) then
     emit (Log "Impersonation chain parameter is not supported for Apache Beam GO SDK and will be skipped in the execution")
   else ret tt) ;;
  put_self (set_dataflow_support_impersonation false self) ;;
  let* self := get_self in
  put_self (set_go_file go_file false self) ;;
  let* self := get_self in
  let* empty := alloc [] in
  let* labels := setdefault (pipeline_options self) "labels" (VRef empty) in
  let* label := alloc (airflow_version_label w) in
  value_update labels label.

Definition execute : M returned :=
  let* (is_dataflow, dataflow_job_name, snake_case_pipeline_options, process_line_callback) :=
    BeamBasePipelineOperator._init_pipeline_options w true (Some "job_name") in
  let* self := get_self in
  match beam_hook self with
  | None => raise (AirflowException "Beam hook is not defined.")
  | Some _ =>
      with_exit_stack
        (let* self := get_self in
         (if startswith "gs://" (lower (go_file self)) then
            with_temporary_directory w
              (fun tmp_dir =>
                 let* tmp_gcs_file :=
                   enter_context_provide_file w (go_file self) (Some tmp_dir) in
                 let* self := get_self in
                 put_self (set_go_file tmp_gcs_file true self))
          else ret tt) ;;
         let* self := get_self in
         let start :=
           let* variables := load snake_case_pipeline_options in
           start_pipeline w
             (StartGoPipeline variables (go_file self) process_line_callback
                (should_init_go_module self))
             process_line_callback in
         match (if is_dataflow then dataflow_hook self else None) with
         | Some hook =>
             provide_authorized_gcloud start ;;
             let* self := get_self in
             let config := dataflow_config self in
             persist (project_id config) (location config) (dataflow_job_id self) ;;
             match dataflow_job_name with
             | Some name =>
                 if negb (String.eqb name "") && truthy (location config) then
                   wait_for_done w name (location config) (dataflow_job_id self) false
                     (project_id config)
                 else ret tt
             | None => ret tt
             end ;;
             let* self := get_self in
             ret (JobId (dataflow_job_id self))
         | None =>
             start ;;
             ret Nothing
         end)
  end.

Definition on_kill : M unit :=
  let* self := get_self in
  match dataflow_hook self with
  | Some hook =>
      if truthy (dataflow_job_id self) then
        match dataflow_job_id self with
        | Some job_id =>
            emit (Log "Dataflow job was requested to be cancelled.") ;;
            cancel_job job_id (project_id (dataflow_config self))
        | None => ret tt
        end
      else ret tt
  | None => ret tt
  end.
End Methods.
End BeamRunGoPipelineOperator.

(** * Specification vocabulary *)

(** The notions in which the properties below are stated: heaps that extend
    one another, the outcome of operator code, the events a run is expected
    to leave, and the worlds and states of the examples. *)

(** [h'] has every object of [h], unchanged. *)
Definition extends (h h' : heap) : Prop :=
  forall l d, h !! l = Some d -> h' !! l = Some d.

(** [wp m s Q]: running [m] from [s] ends in a state and a result that
    satisfy [Q]. *)
Definition wp {A} (m : M A) (s : state) (Q : state -> result A -> Prop) : Prop :=
  Q (fst (m s)) (snd (m s)).

(** A dictionary that the running code has made itself: it lies beyond the
    heap [h0] the code started from, and so does every dictionary it refers
    to. *)
Definition refs_beyond (n : nat) (d : dict) : Prop :=
  forall k l, dict_get k d = Some (VRef l) -> n <= l.

(** The dictionary at [l] is one that the code has made since [h0]. *)
Record owned (h0 h : heap) (l : loc) : Prop := {
  owned_extends : extends h0 h;
  owned_wf : heap_wf h0 -> heap_wf h;
  owned_beyond : length h0 <= l;
  owned_valid : l < length h;
  owned_refs : refs_beyond (length h0) (heap_get h l)
}.

(** The "labels" entry of a dictionary, if there is one, is a dictionary:
    the label can be added to it. *)
Definition labels_ok (d : dict) : Prop :=
  dict_get "labels" d = None \/ exists l, dict_get "labels" d = Some (VRef l).

(** The state of [__get_dataflow_pipeline_options] between two statements:
    the copy [out] is owned, and its "labels" entry is a dictionary or absent
    when that of the original was. *)
Record assembling (h0 : heap) (P : Prop) (h : heap) (out : loc) : Prop := {
  assembling_owned : owned h0 h out;
  assembling_labels : P -> labels_ok (heap_get h out)
}.

(** [self.runner.lower() == BeamRunnerType.DataflowRunner.lower()] *)
Definition is_dataflow_runner (r : string) : bool :=
  String.eqb (lower r) (lower DataflowRunner).

(** The hook that [__set_dataflow_hook] builds. *)
Definition dataflow_hook_of (self : operator) : DataflowHook :=
  mkDataflowHook
    (match or_else (config_gcp_conn_id (dataflow_config self)) (Some (gcp_conn_id self)) with
     | Some c => c
     | None => gcp_conn_id self
     end)
    (or_else (config_delegate_to (dataflow_config self)) (delegate_to self))
    (poll_sleep (dataflow_config self))
    (impersonation_chain (dataflow_config self))
    (drain_pipeline (dataflow_config self))
    (cancel_timeout (dataflow_config self))
    (wait_until_finished (dataflow_config self)).

(** [self] after [_set_dataflow]: the hook is set and the project id
    backfilled from the hook's. *)
Definition dataflow_self (w : World) (self : operator) : operator :=
  set_dataflow_config
    (set_project_id (or_else (project_id (dataflow_config self)) (hook_project_id w))
       (dataflow_config self))
    (set_dataflow_hook (Some (dataflow_hook_of self))
       (set_dataflow_hook (Some (dataflow_hook_of self)) self)).

(** [self] after [_init_pipeline_options]. *)
Definition init_self (w : World) (self : operator) : operator :=
  let self' := set_beam_hook (Some (mkBeamHook (runner self))) self in
  if is_dataflow_runner (runner self) then dataflow_self w self' else self'.

(** The job name that [_init_pipeline_options] returns. *)
Definition init_job_name (w : World) (self : operator) : option string :=
  if is_dataflow_runner (runner self)
  then Some (build_dataflow_job_name w (job_name (dataflow_config self))
               (append_job_name (dataflow_config self)))
  else None.

(** What [_init_pipeline_options] logs. *)
Definition init_trace (self : operator) : list event :=
  if is_dataflow_runner (runner self) then [Log "pipeline_options"] else [].

(** What [_init_pipeline_options] leaves and returns, from the heap [h] and
    the operator [self]. *)
Record init_outcome (w : World) (format : bool) (key : option string) (h : heap)
    (self : operator) (h' : heap) (r : result (bool * option string * loc * bool)) : Prop := {
  init_extends : extends h h';
  init_wf : heap_wf h -> heap_wf h';
  init_result :
    r = Raise AttributeError \/
    exists out,
      r = Ok (is_dataflow_runner (runner self), init_job_name w self, out,
              is_dataflow_runner (runner self))
      /\ length h <= out /\ out < length h'
      /\ (pipeline_options self < length h ->
          heap_wf h ->
          exists merged,
            (forall k v,
               dict_get k (heap_get h (pipeline_options self)) = Some v ->
               dict_get k merged = Some v)
            /\ List.NoDup (dict_keys merged)
            /\ heap_get h' out =
                 if format then dict_comprehension (convert_camel_to_snake w) merged
                 else merged);
  init_succeeds :
    (is_dataflow_runner (runner self) = true ->
     key <> Some "labels" /\ labels_ok (heap_get h (default_pipeline_options self))) ->
    r <> Raise AttributeError
}.

(** Kinds of events. *)
Definition is_query (e : event) : bool :=
  match e with IsJobDataflowRunning _ _ => true | _ => false end.

Definition is_launch (e : event) : bool :=
  match e with
  | StartPythonPipeline _ _ _ _ _ _ _ | StartJavaPipeline _ _ _ _ | StartGoPipeline _ _ _ _ => true
  | _ => false
  end.

Definition is_wait (e : event) : bool :=
  match e with WaitForDone _ _ _ _ _ => true | _ => false end.

Definition is_cancel (e : event) : bool :=
  match e with CancelJob _ _ => true | _ => false end.

(** How many events of a trace are of a kind. *)
Definition count (p : event -> bool) (t : list event) : nat := length (List.filter p t).

(** [self] after the output of the launched process was read. *)
Definition process_self (w : World) (callback : bool) (self : operator) : operator :=
  if callback
  then fold_left (fun o id => set_dataflow_job_id (Some id) o) (launch_job_ids w) self
  else self.

(** The duplicate check of the Java operator: how many times the job was
    looked for, and with what outcome. *)
Definition duplicate_check_outcome (w : World) (policy : CheckJobRunning) (fuel polls n : nat)
    (r : result bool) : Prop :=
  match policy with
  | IgnoreJob => n = 0 /\ r = Ok false
  | FinishIfRunning => n = 1 /\ r = Ok (running_answers w polls)
  | WaitForRun =>
      (exists m, n = S m /\ m <= fuel /\ r = Ok false
                 /\ running_answers w (polls + m) = false
                 /\ forall i, i < m -> running_answers w (polls + i) = true)
      \/ (n = S fuel /\ r = Diverge
          /\ forall i, i <= fuel -> running_answers w (polls + i) = true)
  end.

(** The Dataflow job is awaited when it has a name and a location. *)
Definition awaited (name : string) (config : DataflowConfiguration) : bool :=
  negb (String.eqb name "") && truthy (location config).

Definition java_multiple_jobs (config : DataflowConfiguration) : bool :=
  match multiple_jobs config with
  | Some true => true
  | _ => false
  end.

(** The job id after the output of the launched process was read. *)
Definition discovered_job_id (w : World) (before : option string) : option string :=
  fold_left (fun _ id => Some id) (launch_job_ids w) before.

(** What the Java operator does on Dataflow once the options are assembled
    in [variables] and the artifact is at [file], when the job was looked for
    [n] times with outcome [check]. *)
Definition java_dataflow_events (w : World) (self : operator) (variables : dict)
    (file : string) (n : nat) (check : result bool) : list event :=
  let config := dataflow_config self in
  let name := build_dataflow_job_name w (job_name config) (append_job_name config) in
  let project := or_else (project_id config) (hook_project_id w) in
  let job_id := discovered_job_id w (dataflow_job_id self) in
  repeat (IsJobDataflowRunning (job_name config) variables) n ++
  match check with
  | Ok false =>
      [AuthorizedGcloudEnter;
       StartJavaPipeline (dict_set "jobName" (VStr name) variables) file (job_class self) true;
       AuthorizedGcloudExit]
      ++ (if launch_succeeds w && awaited name config
          then [PersistLink project (location config) job_id;
                WaitForDone name (location config) job_id (java_multiple_jobs config) project]
          else [])
  | _ => []
  end.

Definition java_dataflow_result (w : World) (self : operator) (check : result bool)
    : result returned :=
  let config := dataflow_config self in
  let name := build_dataflow_job_name w (job_name config) (append_job_name config) in
  match check with
  | Ok false =>
      if launch_succeeds w then
        if awaited name config && negb (wait_succeeds w)
        then Raise (AirflowException "Dataflow job did not succeed")
        else Ok (JobId (discovered_job_id w (dataflow_job_id self)))
      else Raise (AirflowException "Apache Beam process failed")
  | Ok true => Ok (JobId (dataflow_job_id self))
  | Raise e => Raise e
  | Diverge => Diverge
  end.

(** The user's options as found in the merged dictionary. *)
Definition overrides_applied (h : heap) (self : operator) (merged : dict) : Prop :=
  (forall k v,
     dict_get k (heap_get h (pipeline_options self)) = Some v -> dict_get k merged = Some v)
  /\ List.NoDup (dict_keys merged).

(** Entering and leaving [provide_file] for an artifact on GCS. *)
Definition is_gcs (file : string) : bool := startswith "gs://" (lower file).

Definition local_file (w : World) (file : string) (dir : option string) : string :=
  if is_gcs file then
    match dir with
    | Some d => (d ++ "/" ++ temporary_file w file dir)%string
    | None => temporary_file w file dir
    end
  else file.

Definition download_events (w : World) (file : string) : list event :=
  if is_gcs file then [ProvideFileEnter file None (local_file w file None)] else [].

Definition cleanup_events (w : World) (file : string) : list event :=
  if is_gcs file then [ProvideFileExit (local_file w file None)] else [].

(** What the three operators do once the options are assembled in
    [variables] and the artifact is at [file]: the launch, and on Dataflow
    the link and the wait. *)
Definition after_launch_events (w : World) (self : operator) (persist_always : bool)
    (multiple : bool) : list event :=
  let config := dataflow_config self in
  let name := build_dataflow_job_name w (job_name config) (append_job_name config) in
  let project := or_else (project_id config) (hook_project_id w) in
  let job_id := discovered_job_id w (dataflow_job_id self) in
  if launch_succeeds w then
    if awaited name config
    then [PersistLink project (location config) job_id;
          WaitForDone name (location config) job_id multiple project]
    else if persist_always then [PersistLink project (location config) job_id] else []
  else [].

Definition launch_events (w : World) (self : operator) (start : bool -> event) : list event :=
  if is_dataflow_runner (runner self)
  then [AuthorizedGcloudEnter; start true; AuthorizedGcloudExit]
       ++ after_launch_events w self true false
  else [start false].

Definition launch_result (w : World) (self : operator) : result returned :=
  let config := dataflow_config self in
  let name := build_dataflow_job_name w (job_name config) (append_job_name config) in
  if launch_succeeds w then
    if is_dataflow_runner (runner self) then
      if awaited name config && negb (wait_succeeds w)
      then Raise (AirflowException "Dataflow job did not succeed")
      else Ok (JobId (discovered_job_id w (dataflow_job_id self)))
    else Ok Nothing
  else Raise (AirflowException "Apache Beam process failed").

(** The options that the Python and Go operators hand to the launch: the
    merged options with normalized keys. *)
Definition normalized_overrides (w : World) (h : heap) (self : operator) (variables : dict)
    : Prop :=
  exists merged,
    overrides_applied h self merged
    /\ variables = dict_comprehension (convert_camel_to_snake w) merged.

(** The Go operator downloads into a temporary directory, which it leaves at
    once. *)
Definition go_download_events (w : World) (file : string) : list event :=
  if is_gcs file
  then [TemporaryDirectoryEnter (temporary_directory w);
        ProvideFileEnter file (Some (temporary_directory w))
          (local_file w file (Some (temporary_directory w)));
        TemporaryDirectoryExit (temporary_directory w)]
  else [].

Definition go_cleanup_events (w : World) (file : string) : list event :=
  if is_gcs file
  then [ProvideFileExit (local_file w file (Some (temporary_directory w)))]
  else [].

(** The label that records the version of Airflow. *)
Definition version_label (w : World) : value :=
  VStr ("v" ++ replace "+" "-" (replace "." "-" (version w)))%string.

(** The operator that [BeamBasePipelineOperator.__init__] leaves. *)
Definition base_operator (w : World) (runner : string) (defaults options : loc)
    (gcp_conn_id : string) (delegate_to : option string)
    (config : option DataflowConfiguration) : operator :=
  mkOperator runner defaults options gcp_conn_id delegate_to
    (match config with Some c => c | None => default_dataflow_config w end)
    None None None true "" [] "" None false "" None "" false.

(** How the constructor takes the caller's [pipeline_options]: the caller's
    own dictionary when it is not empty, a new one otherwise. *)
Definition options_taken (h h1 : heap) (caller : option loc) (options : loc) : Prop :=
  (caller = Some options /\ heap_get h options <> [])
  \/ ((caller = None \/ exists p, caller = Some p /\ heap_get h p = [])
      /\ length h <= options /\ options < length h1 /\ heap_get h1 options = []).

(** What the constructors of the Python and Go operators do to the caller's
    [pipeline_options]. *)
Definition labelled_in_place (w : World) (h : heap) (caller : option loc) (s' : state)
    (r : result unit) : Prop :=
  (forall p,
     caller = Some p ->
     heap_get h p <> [] ->
     (dict_get "labels" (heap_get h p) = None
      \/ exists l, dict_get "labels" (heap_get h p) = Some (VRef l) /\ l < length h) ->
     r = Ok tt
     /\ pipeline_options (st_self s') = p
     /\ exists l,
          dict_get "labels" (heap_get (st_heap s') p) = Some (VRef l)
          /\ dict_get "airflow-version" (heap_get (st_heap s') l) = Some (version_label w))
  /\ ((caller = None \/ exists p, caller = Some p /\ heap_get h p = []) ->
      r = Ok tt
      /\ extends h (st_heap s')
      /\ length h <= pipeline_options (st_self s')).

Definition is_upper (c : ascii) : bool :=
  let n := nat_of_ascii c in ((65 <=? n) && (n <=? 90))%nat.

(** Modelled from the spec: [airflow.utils.helpers.convert_camel_to_snake],
    which is not among the sources, rewrites a key from camel-case to
    snake-case: an underscore goes before each run of capitals that does not
    start the key, and the key is put in lower case. *)
Fixpoint camel_to_snake_from (first in_run : bool) (s : string) : string :=
  match s with
  | EmptyString => EmptyString
  | String c s' =>
      let rest :=
        String (ascii_lower c) (camel_to_snake_from false (is_upper c && negb first) s') in
      if is_upper c && negb first && negb in_run then String "_" rest else rest
  end.

Definition camel_to_snake (s : string) : string := camel_to_snake_from true false s.

Definition example_config (policy : CheckJobRunning) : DataflowConfiguration :=
  mkDataflowConfiguration "etl-job" false None (Some "us-central1")
    (Some "google_cloud_default") None 10 None false (Some 300) None None policy None.

(** A world in which the job is found running [busy] times. *)
Definition example_world (busy : nat) : World :=
  mkWorld camel_to_snake "2.3.0" (example_config WaitForRun)
    (fun base append => if append then (base ++ "-0a1b2c3d")%string else base)
    (Some "example-project")
    (fun i => (i <? busy)%nat)
    ["2024-01-01_00_00_00-123"] true true
    "/tmp/apache-beam-go0" (fun _ _ => "tmp-artifact").

(** The state in which a constructor is called: the caller's dictionaries
    are in the heap, and there is no operator yet. *)
Definition no_operator : operator :=
  mkOperator "" 0 0 "" None (example_config WaitForRun) None None None true
    "" [] "" None false "" None "" false.

Definition caller_state (h : heap) : state := mkState h no_operator [] [] [] 0.

(** The caller's dictionaries of the examples: the defaults at 0, the
    options at 1. *)
Definition example_heap : heap :=
  [[("tempLocation", VStr "gs://bucket/tmp")]; [("jobName", VStr "mine")]].

Fixpoint distinct (l : list string) : bool :=
  match l with
  | [] => true
  | x :: l' => negb (existsb (String.eqb x) l') && distinct l'
  end.

Definition launch_variables (e : event) : list dict :=
  match e with
  | StartPythonPipeline variables _ _ _ _ _ _ => [variables]
  | StartJavaPipeline variables _ _ _ => [variables]
  | StartGoPipeline variables _ _ _ => [variables]
  | _ => []
  end.

(** The [variables] of the launches of a trace, in order. *)
Definition launched (t : list event) : list dict := flat_map launch_variables t.

(** The caller's dictionaries of the examples, taken by the constructor of
    the Java operator for Dataflow, with the policy [IgnoreJob]. *)
Definition example_java_operator : state :=
  fst (BeamRunJavaPipelineOperator.__init__ (example_world 0) "app.jar" "DataflowRunner" None
         (Some 0) (Some 1) "google_cloud_default" None (Some (example_config IgnoreJob))
         (caller_state example_heap)).

Definition example_python_operator : state :=
  fst (BeamRunPythonPipelineOperator.__init__ (example_world 0) "pipeline.py" "DirectRunner"
         (Some 0) (Some 1) "python3" None None false "google_cloud_default" None None
         (caller_state example_heap)).

Definition example_go_operator : state :=
  fst (BeamRunGoPipelineOperator.__init__ (example_world 0) "gs://bucket/main.go"
         "DirectRunner" (Some 0) None "google_cloud_default" None None
         (caller_state example_heap)).

(** The operator after the artifact was fetched: an artifact on GCS is
    rebound to the temporary file. *)
Definition fetched (w : World) (file : string) (dir : option string)
    (rebind : string -> operator -> operator) (o : operator) : operator :=
  if is_gcs file then rebind (local_file w file dir) o else o.

(** The files that are left when the temporary file [name] is removed. *)
Definition without_file (name : string) (files : list string) : list string :=
  List.filter (fun f => negb (String.eqb f name)) files.

(** The files that are left when the directory [d] is removed with all it
    contains. *)
Definition without_directory (d : string) (files : list string) : list string :=
  List.filter (fun f => negb (String.eqb f d || startswith (d ++ "/")%string f)) files.

(** What [execute] of the Go operator ends with once the options are
    assembled: a source fetched from GCS is no longer there when the exit
    stack is left. *)
Definition go_launch_result (w : World) (self : operator) : result returned :=
  if is_gcs (go_file self) then Raise FileNotFoundError else launch_result w self.

(** A key with a capital letter in it. *)
Definition has_capital (s : string) : bool := existsb is_upper (list_ascii_of_string s).

(** An operator whose defaults and options hold two keys with the same
    snake-case form. *)
Definition example_colliding_operator : state :=
  mkState
    [[("job_name", VStr "from-defaults-1"); ("jobName", VStr "from-defaults-2")];
     [("maxNumWorkers", VStr "5"); ("labels", VRef 2)]; []]
    (mkOperator "DirectRunner" 0 1 "google_cloud_default" None
       (example_config IgnoreJob) None None None true
       "pipeline.py" [] "python3" None false "" None "main.go" false) [] [] [] 0.

(** The duplicate check of the Java operator ends with the job not found
    running, the loop given [fuel] turns: the policy is [IgnoreJob], or the
    policy is [FinishIfRunning] and the job is not found running, or the
    policy is [WaitForRun] and the job is found not running after at most
    [fuel] turns. *)
Definition not_found_running (w : World) (policy : CheckJobRunning) (fuel polls : nat)
    : Prop :=
  match policy with
  | IgnoreJob => True
  | FinishIfRunning => running_answers w polls = false
  | WaitForRun =>
      exists m,
        m <= fuel
        /\ running_answers w (polls + m) = false
        /\ forall i, i < m -> running_answers w (polls + i) = true
  end.

Definition is_artifact (e : event) : bool :=
  match e with
  | TemporaryDirectoryEnter _ | TemporaryDirectoryExit _
  | ProvideFileEnter _ _ _ | ProvideFileExit _ => true
  | _ => false
  end.


Definition is_persist (e : event) : bool :=
  match e with PersistLink _ _ _ => true | _ => false end.

(** The file that a launch is given. *)
Definition launch_file (e : event) : option string :=
  match e with
  | StartPythonPipeline _ file _ _ _ _ _ => Some file
  | StartJavaPipeline _ file _ _ => Some file
  | StartGoPipeline _ file _ _ => Some file
  | _ => None
  end.

(** An operator on Dataflow, as the examples use it: the artifacts of the
    Python and Java operators are on GCS. *)
Definition example_dataflow_operator (policy : CheckJobRunning) : state :=
  mkState example_heap
    (mkOperator "DataflowRunner" 0 1 "google_cloud_default" None (example_config policy)
       None None None true "gs://bucket/pipeline.py" [] "python3" None false
       "gs://bucket/app.jar" None "main.go" false)
    [] [] [] 0.

(** The entries that [__get_dataflow_pipeline_options] writes into the copy
    [d] before the labels, in the order of the statements: the job name
    under its key, the service account, the impersonation chain, the project
    and the region. *)
Definition injected (name : string) (key : option string) (self : operator) (d : dict)
    : dict :=
  let config := dataflow_config self in
  let d1 := match key with
            | Some k => dict_set k (VStr name) d
            | None => d
            end in
  let d2 := if truthy (service_account config)
            then dict_set "serviceAccount" (opt_value (service_account config)) d1
            else d1 in
  let d3 := if dataflow_support_impersonation self
               && truthy_chain (impersonation_chain config)
            then
              match impersonation_chain config with
              | Some (ChainList chain) =>
                  dict_set "impersonateServiceAccount" (VStr (join "," chain)) d2
              | Some (ChainStr chain) =>
                  dict_set "impersonateServiceAccount" (VStr chain) d2
              | None => d2
              end
            else d2 in
  dict_set "region" (opt_value (location config))
    (dict_set "project" (opt_value (project_id config)) d3).

(** The heap and the location that [copy.deepcopy(pipeline_options)] gives. *)
Definition deepcopy_heap (h : heap) (po : loc) : heap :=
  if (po <? length h)%nat then heap_deepcopy h else h ++ [[]].

Definition deepcopy_loc (h : heap) (po : loc) : loc :=
  if (po <? length h)%nat then po + length h else length h.

(** The value that [__get_dataflow_pipeline_options] gives the key [k],
    when one of its assignments of lines 93 to 104 is to [k]: the last of
    them counts, so the region and the project come before the
    impersonation chain, the service account and the job name. *)
Definition engine_option (name : string) (key : option string) (self : operator)
    (k : string) : option value :=
  let config := dataflow_config self in
  if String.eqb k "region" then Some (opt_value (location config))
  else if String.eqb k "project" then Some (opt_value (project_id config))
  else
    let chain :=
      if String.eqb k "impersonateServiceAccount"
         && (dataflow_support_impersonation self
             && truthy_chain (impersonation_chain config))
      then
        match impersonation_chain config with
        | Some (ChainList chain) => Some (VStr (join "," chain))
        | Some (ChainStr chain) => Some (VStr chain)
        | None => None
        end
      else None in
    match chain with
    | Some v => Some v
    | None =>
        if String.eqb k "serviceAccount" && truthy (service_account config)
        then Some (opt_value (service_account config))
        else
          match key with
          | Some k0 => if String.eqb k0 k then Some (VStr name) else None
          | None => None
          end
    end.



(** * Properties *)

(** ** Dictionaries *)

Lemma dict_get_set_eq (k : string) (v : value) (d : dict) :
  dict_get k (dict_set k v d) = Some v.
Proof.
  induction d as [|[k' v'] d IH]; simpl.
  - now rewrite String.eqb_refl.
  - destruct (String.eqb k' k) eqn:E; simpl.
    + now rewrite String.eqb_refl.
    + now rewrite E.
Qed.

Lemma dict_get_set_ne (k k' : string) (v : value) (d : dict) :
  k <> k' -> dict_get k' (dict_set k v d) = dict_get k' d.
Proof.
  intros Hne. induction d as [|[k0 v0] d IH]; simpl.
  - apply String.eqb_neq in Hne. now rewrite Hne.
  - destruct (String.eqb k0 k) eqn:E; simpl.
    + apply String.eqb_eq in E. subst k0.
      apply String.eqb_neq in Hne. now rewrite Hne.
    + now rewrite IH.
Qed.

Lemma dict_get_None (k : string) (d : dict) :
  dict_get k d = None <-> ~ In k (dict_keys d).
Proof.
  induction d as [|[k0 v0] d IH]; simpl.
  - tauto.
  - destruct (String.eqb k0 k) eqn:E.
    + apply String.eqb_eq in E. split; [discriminate | tauto].
    + apply String.eqb_neq in E. rewrite IH. tauto.
Qed.

Lemma dict_get_In (k : string) (v : value) (d : dict) :
  dict_get k d = Some v -> In (k, v) d.
Proof.
  induction d as [|[k0 v0] d IH]; simpl; [discriminate|].
  destruct (String.eqb k0 k) eqn:E.
  - apply String.eqb_eq in E. intros [= ->]. subst. now left.
  - auto.
Qed.

Lemma dict_keys_set (k : string) (v : value) (d : dict) :
  forall k', In k' (dict_keys (dict_set k v d)) <-> k' = k \/ In k' (dict_keys d).
Proof.
  intros k'. induction d as [|[k0 v0] d IH]; simpl.
  - intuition.
  - destruct (String.eqb k0 k) eqn:E; simpl.
    + apply String.eqb_eq in E. subst k0. intuition.
    + rewrite IH. intuition.
Qed.

Lemma dict_set_NoDup (k : string) (v : value) (d : dict) :
  List.NoDup (dict_keys d) -> List.NoDup (dict_keys (dict_set k v d)).
Proof.
  induction d as [|[k0 v0] d IH]; simpl; intros Hd.
  - constructor; [intros [] | constructor].
  - inversion Hd as [|? ? Hnot Hd']; subst.
    destruct (String.eqb k0 k) eqn:E; simpl.
    + apply String.eqb_eq in E. subst k0. now constructor.
    + apply String.eqb_neq in E. constructor; [|now apply IH].
      rewrite dict_keys_set. intros [Heq | Hin]; [now apply E | now apply Hnot].
Qed.

(** After [d.update(u)] a key of [u] has [u]'s value, another key keeps [d]'s. *)
Lemma dict_get_update (k : string) (d u : dict) :
  List.NoDup (dict_keys u) ->
  dict_get k (dict_update d u) =
    match dict_get k u with
    | Some v => Some v
    | None => dict_get k d
    end.
Proof.
  unfold dict_update. revert d.
  induction u as [|[k1 v1] u IH]; intros d Hu; simpl; [reflexivity|].
  inversion Hu as [|? ? Hnot Hu']; subst.
  rewrite IH by assumption.
  destruct (String.eqb k1 k) eqn:E.
  - apply String.eqb_eq in E. subst k1.
    apply dict_get_None in Hnot. rewrite Hnot. apply dict_get_set_eq.
  - apply String.eqb_neq in E.
    destruct (dict_get k u); [reflexivity|]. now apply dict_get_set_ne.
Qed.

Lemma dict_update_NoDup (d u : dict) :
  List.NoDup (dict_keys d) -> List.NoDup (dict_keys (dict_update d u)).
Proof.
  unfold dict_update. revert d.
  induction u as [|[k1 v1] u IH]; intros d Hd; simpl; [assumption|].
  apply IH. now apply dict_set_NoDup.
Qed.

(** Reading [d[key]] for each key of [d] is going through the items of [d]. *)
Lemma dict_get_middle (k : string) (v : value) (d0 d1 : dict) :
  ~ In k (dict_keys d0) -> dict_get k (d0 ++ (k, v) :: d1) = Some v.
Proof.
  induction d0 as [|[k0 v0] d0 IH]; simpl; intros Hnot.
  - now rewrite String.eqb_refl.
  - destruct (String.eqb k0 k) eqn:E.
    + apply String.eqb_eq in E. tauto.
    + apply IH. tauto.
Qed.

Lemma comprehension_items_from (f : string -> string) (d0 d1 acc : dict) :
  List.NoDup (dict_keys (d0 ++ d1)) ->
  fold_left
    (fun acc key =>
       match dict_get key (d0 ++ d1) with
       | Some v => dict_set (f key) v acc
       | None => acc
       end)
    (dict_keys d1) acc
  = fold_left (fun acc kv => dict_set (f (fst kv)) (snd kv) acc) d1 acc.
Proof.
  revert d0 acc.
  induction d1 as [|[k v] d1 IH]; intros d0 acc Hnd; simpl; [reflexivity|].
  assert (Hk : ~ In k (dict_keys d0)).
  { unfold dict_keys in *. rewrite map_app in Hnd. simpl in Hnd.
    apply NoDup_remove_2 in Hnd. rewrite in_app_iff in Hnd. tauto. }
  rewrite (dict_get_middle k v d0 d1 Hk).
  replace (d0 ++ (k, v) :: d1) with ((d0 ++ [(k, v)]) ++ d1)
    by (rewrite <- app_assoc; reflexivity).
  apply IH. rewrite <- app_assoc. exact Hnd.
Qed.

Lemma dict_comprehension_items (f : string -> string) (d : dict) :
  List.NoDup (dict_keys d) ->
  dict_comprehension f d
  = fold_left (fun acc kv => dict_set (f (fst kv)) (snd kv) acc) d [].
Proof.
  intros Hnd. unfold dict_comprehension.
  exact (comprehension_items_from f [] d [] Hnd).
Qed.

Lemma fold_set_get (f : string -> string) (k' : string) (d acc : dict) :
  dict_get k' (fold_left (fun acc kv => dict_set (f (fst kv)) (snd kv) acc) d acc)
  = match last_writer f k' d with
    | Some v => Some v
    | None => dict_get k' acc
    end.
Proof.
  revert acc. induction d as [|[k v] d IH]; intros acc; simpl; [reflexivity|].
  rewrite IH. destruct (last_writer f k' d); [reflexivity|].
  destruct (String.eqb (f k) k') eqn:E.
  - apply String.eqb_eq in E. subst k'. apply dict_get_set_eq.
  - apply String.eqb_neq in E. now apply dict_get_set_ne.
Qed.

Lemma fold_set_keys (f : string -> string) (k' : string) (d acc : dict) :
  In k' (dict_keys (fold_left (fun acc kv => dict_set (f (fst kv)) (snd kv) acc) d acc))
  <-> In k' (dict_keys acc) \/ exists k, In k (dict_keys d) /\ k' = f k.
Proof.
  revert acc. induction d as [|[k v] d IH]; intros acc; simpl.
  - split; [tauto | intros [H | [k [[] _]]]; exact H].
  - rewrite IH, dict_keys_set. split.
    + intros [[-> | H] | [k0 [H1 H2]]]; eauto.
    + intros [H | [k0 [[<- | H1] H2]]]; eauto.
Qed.

Lemma last_writer_In (f : string -> string) (k' : string) (v : value) (d : dict) :
  last_writer f k' d = Some v -> exists k, In (k, v) d /\ f k = k'.
Proof.
  induction d as [|[k0 v0] d IH]; simpl; [discriminate|].
  destruct (last_writer f k' d) as [v'|].
  - intros [= ->]. destruct (IH eq_refl) as [k [H1 H2]]. eauto.
  - destruct (String.eqb (f k0) k') eqn:E; [|discriminate].
    apply String.eqb_eq in E. intros [= ->]. eauto.
Qed.

(** Without a collision on [k], the last writer of [f k] is [k] itself. *)
Lemma last_writer_alone (f : string -> string) (k : string) (v : value) (d : dict) :
  dict_get k d = Some v ->
  List.NoDup (dict_keys d) ->
  (forall k2, In k2 (dict_keys d) -> f k2 = f k -> k2 = k) ->
  last_writer f (f k) d = Some v.
Proof.
  induction d as [|[k0 v0] d IH]; simpl; [discriminate|].
  intros Hget Hnd Hinj. inversion Hnd as [|? ? Hnot Hnd']; subst.
  destruct (String.eqb k0 k) eqn:E.
  - apply String.eqb_eq in E. subst k0. injection Hget as ->.
    destruct (last_writer f (f k) d) as [v'|] eqn:L.
    + apply last_writer_In in L. destruct L as [k2 [Hin Hf]].
      assert (k2 = k) by (apply Hinj; [right; apply (in_map fst _ _ Hin) | exact Hf]).
      subst k2. exfalso. apply Hnot. apply (in_map fst _ _ Hin).
    + now rewrite String.eqb_refl.
  - rewrite IH; auto.
Qed.

(** ** The heap *)

Lemma extends_refl (h : heap) : extends h h.
Proof. intros l d H. exact H. Qed.

Lemma extends_trans (h1 h2 h3 : heap) : extends h1 h2 -> extends h2 h3 -> extends h1 h3.
Proof. intros H12 H23 l d H. apply H23, H12, H. Qed.

Lemma extends_length (h h' : heap) : extends h h' -> length h <= length h'.
Proof.
  intros He. destruct (Nat.le_gt_cases (length h) (length h')) as [Hle|Hgt]; [exact Hle|].
  destruct (lookup_lt_is_Some_2 h (length h')) as [d Hd]; [lia|].
  apply He in Hd. apply lookup_lt_Some in Hd. lia.
Qed.

Lemma extends_app (h0 h x : heap) : extends h0 h -> extends h0 (h ++ x).
Proof. intros He l d H. apply lookup_app_l_Some. apply He, H. Qed.

Lemma extends_insert (h0 h : heap) (l : loc) (d : dict) :
  extends h0 h -> length h0 <= l -> extends h0 (<[l := d]> h).
Proof.
  intros He Hl l' d' H. rewrite list_lookup_insert_ne.
  - apply He, H.
  - apply lookup_lt_Some in H. lia.
Qed.

Lemma extends_deepcopy (h0 h : heap) : extends h0 h -> extends h0 (heap_deepcopy h).
Proof. intros He. unfold heap_deepcopy. now apply extends_app. Qed.

Lemma extends_get (h h' : heap) (l : loc) :
  extends h h' -> l < length h -> heap_get h' l = heap_get h l.
Proof.
  intros He Hl. unfold heap_get.
  destruct (lookup_lt_is_Some_2 h l Hl) as [d Hd].
  now rewrite (He l d Hd), Hd.
Qed.

Lemma heap_get_app_l (h x : heap) (l : loc) :
  l < length h -> heap_get (h ++ x) l = heap_get h l.
Proof. intros Hl. unfold heap_get. now rewrite lookup_app_l. Qed.

Lemma heap_get_app_new (h : heap) (d : dict) : heap_get (h ++ [d]) (length h) = d.
Proof. unfold heap_get. rewrite lookup_app_r by lia. now rewrite Nat.sub_diag. Qed.

Lemma heap_get_insert_eq (h : heap) (l : loc) (d : dict) :
  l < length h -> heap_get (<[l := d]> h) l = d.
Proof. intros Hl. unfold heap_get. now rewrite list_lookup_insert_eq. Qed.

Lemma heap_get_insert_ne (h : heap) (l l' : loc) (d : dict) :
  l <> l' -> heap_get (<[l := d]> h) l' = heap_get h l'.
Proof. intros Hl. unfold heap_get. now rewrite list_lookup_insert_ne. Qed.

Lemma heap_get_deepcopy (h : heap) (l : loc) :
  l < length h -> heap_get (heap_deepcopy h) (l + length h) = twin_dict (length h) (heap_get h l).
Proof.
  intros Hl. unfold heap_get, heap_deepcopy.
  rewrite lookup_app_r by lia.
  replace (l + length h - length h) with l by lia.
  rewrite list_lookup_fmap.
  destruct (lookup_lt_is_Some_2 h l Hl) as [d Hd]. now rewrite Hd.
Qed.

Lemma heap_get_wf (h : heap) (l : loc) : heap_wf h -> List.NoDup (dict_keys (heap_get h l)).
Proof.
  intros Hwf. unfold heap_get. destruct (h !! l) as [d|] eqn:E; simpl.
  - unfold heap_wf in Hwf. rewrite Forall_lookup in Hwf. exact (Hwf l d E).
  - constructor.
Qed.

Lemma heap_wf_app (h : heap) (d : dict) :
  heap_wf h -> List.NoDup (dict_keys d) -> heap_wf (h ++ [d]).
Proof. intros Hh Hd. apply Forall_app. split; [exact Hh | now constructor]. Qed.

Lemma heap_wf_insert (h : heap) (l : loc) (d : dict) :
  heap_wf h -> List.NoDup (dict_keys d) -> heap_wf (<[l := d]> h).
Proof. intros Hh Hd. now apply Forall_insert. Qed.

Lemma twin_dict_keys (n : nat) (d : dict) : dict_keys (twin_dict n d) = dict_keys d.
Proof. unfold dict_keys, twin_dict. rewrite map_map. reflexivity. Qed.

Lemma heap_wf_deepcopy (h : heap) : heap_wf h -> heap_wf (heap_deepcopy h).
Proof.
  intros Hh. unfold heap_deepcopy. apply Forall_app. split; [exact Hh|].
  apply Forall_fmap. eapply Forall_impl; [exact Hh|].
  intros d Hd. simpl. now rewrite twin_dict_keys.
Qed.

Lemma dict_get_twin (n : nat) (k : string) (d : dict) :
  dict_get k (twin_dict n d) = option_map (twin_value n) (dict_get k d).
Proof.
  induction d as [|[k0 v0] d IH]; simpl; [reflexivity|].
  destruct (String.eqb k0 k); [reflexivity | exact IH].
Qed.

(** ** Reasoning about operator code *)

Lemma wp_bind {A B} (m : M A) (k : A -> M B) (s : state) (Q : state -> result B -> Prop) :
  wp m s (fun s' r =>
            match r with
            | Ok a => wp (k a) s' Q
            | Raise e => Q s' (Raise e)
            | Diverge => Q s' Diverge
            end) ->
  wp (bind m k) s Q.
Proof. unfold wp, bind. destruct (m s) as [s' [a|e|]]; simpl; auto. Qed.

Lemma wp_mono {A} (m : M A) (s : state) (Q Q' : state -> result A -> Prop) :
  wp m s Q -> (forall s' r, Q s' r -> Q' s' r) -> wp m s Q'.
Proof. unfold wp. auto. Qed.

Lemma wp_eq {A} (m : M A) (s : state) (Q : state -> result A -> Prop) :
  wp m s Q -> forall s' r, m s = (s', r) -> Q s' r.
Proof. unfold wp. intros H s' r E. now rewrite E in H. Qed.

Lemma wp_try_finally {A} (body : M A) (fin : M unit) (s : state)
    (Q : state -> result A -> Prop) :
  wp body s (fun s' r =>
               match r with
               | Diverge => Q s' Diverge
               | _ =>
                   wp fin s' (fun s'' r' =>
                                match r' with
                                | Ok _ => Q s'' r
                                | Raise e => Q s'' (Raise e)
                                | Diverge => Q s'' Diverge
                                end)
               end) ->
  wp (try_finally body fin) s Q.
Proof.
  unfold wp, try_finally.
  destruct (body s) as [s' [a|e|]]; simpl; auto;
    destruct (fin s') as [s'' [[]|e'|]]; simpl; auto.
Qed.

Lemma refs_beyond_set (n : nat) (k : string) (v : value) (d : dict) :
  refs_beyond n d ->
  (forall l, v = VRef l -> n <= l) ->
  refs_beyond n (dict_set k v d).
Proof.
  intros Hd Hv k' l. destruct (String.eqb_spec k k') as [->|Hne].
  - rewrite dict_get_set_eq. intros [= ->]. now apply Hv.
  - rewrite dict_get_set_ne by assumption. apply Hd.
Qed.

Lemma owned_setitem (h0 h : heap) (l : loc) (k : string) (v : value) :
  owned h0 h l ->
  (forall l', v = VRef l' -> length h0 <= l') ->
  owned h0 (<[l := dict_set k v (heap_get h l)]> h) l.
Proof.
  intros [He Hwf Hb Hv Hr] Hval. split.
  - now apply extends_insert.
  - intros H0. apply heap_wf_insert; [now apply Hwf|].
    apply dict_set_NoDup, heap_get_wf. now apply Hwf.
  - exact Hb.
  - now rewrite length_insert.
  - rewrite heap_get_insert_eq by assumption. now apply refs_beyond_set.
Qed.

Lemma owned_alloc (h0 h : heap) (l : loc) (d : dict) :
  owned h0 h l -> List.NoDup (dict_keys d) -> owned h0 (h ++ [d]) l.
Proof.
  intros [He Hwf Hb Hv Hr] Hd. split.
  - now apply extends_app.
  - intros H0. apply heap_wf_app; [now apply Hwf | exact Hd].
  - exact Hb.
  - rewrite length_app. lia.
  - now rewrite heap_get_app_l.
Qed.

Lemma refs_beyond_twin (n : nat) (d : dict) : refs_beyond n (twin_dict n d).
Proof.
  intros k l. rewrite dict_get_twin.
  destruct (dict_get k d) as [[| | | |l0]|]; simpl; try discriminate.
  destruct (l0 <? n)%nat eqn:E; intros [= <-].
  - lia.
  - apply Nat.ltb_ge in E. exact E.
Qed.

Arguments wp : simpl never.
Arguments heap_get : simpl never.
Arguments dict_set : simpl never.
Arguments dict_get : simpl never.
Arguments dict_update : simpl never.
Arguments dict_comprehension : simpl never.
Arguments heap_deepcopy : simpl never.
Arguments twin_dict : simpl never.
Arguments String.eqb : simpl never.
Arguments lower : simpl never.
Arguments startswith : simpl never.
Arguments truthy : simpl never.
Arguments truthy_chain : simpl never.
Arguments or_else : simpl never.
Arguments airflow_version_label : simpl never.

(** One step of a primitive: unfold it, and hand its outcome to the
    continuation. *)
Ltac wp_prim :=
  unfold wp at 1; simpl;
  unfold set_heap, set_self, set_trace, set_exit_stack, set_files, set_polls; simpl.

Ltac heap_length :=
  repeat (rewrite length_insert || rewrite length_app || rewrite length_map);
  simpl; lia.

Ltac wp_step :=
  lazymatch goal with
  | |- wp (bind _ _) _ _ => apply wp_bind
  | |- wp (try_finally _ _) _ _ => apply wp_try_finally
  | |- wp (setitem _ _ _) _ _ => unfold setitem
  | |- wp (setdefault _ _ _) _ _ => unfold setdefault
  | |- wp (update _ _) _ _ => unfold update
  | |- wp (dict_copy _) _ _ => unfold dict_copy
  | |- wp (ret _) _ _ => wp_prim
  | |- wp (raise _) _ _ => wp_prim
  | |- wp diverge _ _ => wp_prim
  | |- wp get_self _ _ => wp_prim
  | |- wp (put_self _) _ _ => wp_prim
  | |- wp (emit _) _ _ => wp_prim
  | |- wp (load _) _ _ => wp_prim
  | |- wp (store _ _) _ _ => wp_prim
  | |- wp (alloc _) _ _ => wp_prim
  end.

Ltac wp_run := repeat wp_step.

Lemma wp_deepcopy (l : loc) (h : heap) self tr stk files polls Q :
  (forall h' out,
     owned h h' out ->
     heap_get h' out = (if (l <? length h)%nat then twin_dict (length h) (heap_get h l) else []) ->
     Q (mkState h' self tr stk files polls) (Ok out)) ->
  wp (deepcopy l) (mkState h self tr stk files polls) Q.
Proof.
  intros HQ. unfold wp, deepcopy. simpl.
  destruct (l <? length h)%nat eqn:E; simpl.
  - apply Nat.ltb_lt in E. apply HQ.
    + split.
      * apply extends_deepcopy, extends_refl.
      * apply heap_wf_deepcopy.
      * lia.
      * unfold heap_deepcopy. rewrite length_app, length_map. lia.
      * rewrite heap_get_deepcopy by assumption. apply refs_beyond_twin.
    + now apply heap_get_deepcopy.
  - apply HQ.
    + split.
      * apply extends_app, extends_refl.
      * intros H0. apply heap_wf_app; [exact H0 | constructor].
      * lia.
      * rewrite length_app. simpl. lia.
      * rewrite heap_get_app_new. intros k l0. discriminate.
    + apply heap_get_app_new.
Qed.

Lemma labels_ok_set (k : string) (v : value) (d : dict) :
  k <> "labels" -> labels_ok d -> labels_ok (dict_set k v d).
Proof. intros Hk. unfold labels_ok. now rewrite dict_get_set_ne. Qed.

Lemma labels_ok_twin (n : nat) (d : dict) : labels_ok d -> labels_ok (twin_dict n d).
Proof.
  unfold labels_ok. rewrite dict_get_twin. intros [-> | [l ->]]; simpl.
  - now left.
  - right. destruct (l <? n)%nat; eauto.
Qed.

Lemma wp_setitem_assembling (h0 h : heap) (P : Prop) (out : loc) (k : string) (v : value)
    self tr stk files polls (Q : state -> result unit -> Prop) :
  assembling h0 P h out ->
  (forall l, v = VRef l -> length h0 <= l) ->
  (P -> k <> "labels") ->
  (forall h', assembling h0 P h' out -> Q (mkState h' self tr stk files polls) (Ok tt)) ->
  wp (setitem out k v) (mkState h self tr stk files polls) Q.
Proof.
  intros [Hown Hlab] Hv Hk HQ. unfold setitem. wp_run. apply HQ. split.
  - now apply owned_setitem.
  - intros HP. rewrite heap_get_insert_eq by apply Hown.
    apply labels_ok_set; auto.
Qed.

Lemma get_dataflow_pipeline_options_spec (w : World) (po : loc) (name : string)
    (key : option string) (h : heap) self tr stk files polls :
  wp (BeamDataflowMixin.__get_dataflow_pipeline_options w po name key)
    (mkState h self tr stk files polls)
    (fun s' r =>
       exists h', s' = mkState h' self tr stk files polls /\
         extends h h' /\ (heap_wf h -> heap_wf h') /\
         (r = Raise AttributeError \/
          exists out, r = Ok out /\ length h <= out /\ out < length h') /\
         (key <> Some "labels" -> labels_ok (heap_get h po) -> exists out, r = Ok out)).
Proof.
  set (P := key <> Some "labels" /\ labels_ok (heap_get h po)).
  unfold BeamDataflowMixin.__get_dataflow_pipeline_options.
  apply wp_bind, wp_deepcopy. intros h1 out Hown Hget.
  assert (Hs : assembling h P h1 out).
  { split; [exact Hown|]. intros [_ Hl]. rewrite Hget.
    destruct (po <? length h)%nat; [now apply labels_ok_twin | now left]. }
  clear Hown Hget. revert h1 Hs.
  assert (Hstr : forall s l, VStr s = VRef l -> length h <= l) by discriminate.
  assert (Hopt : forall o l, opt_value o = VRef l -> length h <= l)
    by (intros [?|] ?; discriminate).
  intros h1 Hs. apply wp_bind.
  assert (Hkey :
    forall Q : state -> result unit -> Prop,
      (forall h', assembling h P h' out -> Q (mkState h' self tr stk files polls) (Ok tt)) ->
      wp match key with
         | Some key0 => setitem out key0 (VStr name)
         | None => ret ()
         end (mkState h1 self tr stk files polls) Q).
  { intros Q HQ. destruct key as [key0|].
    - eapply wp_setitem_assembling; [exact Hs | apply Hstr | | exact HQ].
      intros [Hne _] ->. now apply Hne.
    - wp_run. now apply HQ. }
  apply Hkey. clear Hkey h1 Hs. intros h1 Hs. simpl.
  wp_run.
  (* serviceAccount *)
  assert (Hsa :
    forall Q : state -> result unit -> Prop,
      (forall h', assembling h P h' out -> Q (mkState h' self tr stk files polls) (Ok tt)) ->
      wp (if truthy (service_account (dataflow_config self))
          then setitem out "serviceAccount" (opt_value (service_account (dataflow_config self)))
          else ret ()) (mkState h1 self tr stk files polls) Q).
  { intros Q HQ. destruct (truthy _).
    - eapply wp_setitem_assembling; [exact Hs | apply Hopt | discriminate | exact HQ].
    - wp_run. now apply HQ. }
  apply Hsa. clear Hsa h1 Hs. intros h1 Hs. simpl.
  (* impersonateServiceAccount *)
  apply wp_bind.
  assert (Him :
    forall Q : state -> result unit -> Prop,
      (forall h', assembling h P h' out -> Q (mkState h' self tr stk files polls) (Ok tt)) ->
      wp (if dataflow_support_impersonation self
             && truthy_chain (impersonation_chain (dataflow_config self))
          then
            match impersonation_chain (dataflow_config self) with
            | Some (ChainStr chain) => setitem out "impersonateServiceAccount" (VStr chain)
            | Some (ChainList chain) =>
                setitem out "impersonateServiceAccount" (VStr (join "," chain))
            | None => ret ()
            end
          else ret ()) (mkState h1 self tr stk files polls) Q).
  { intros Q HQ. destruct (_ && _).
    - destruct (impersonation_chain _) as [[chain|chain]|].
      + eapply wp_setitem_assembling; [exact Hs | apply Hstr | discriminate | exact HQ].
      + eapply wp_setitem_assembling; [exact Hs | apply Hstr | discriminate | exact HQ].
      + wp_run. now apply HQ.
    - wp_run. now apply HQ. }
  apply Him. clear Him h1 Hs. intros h1 Hs. simpl.
  (* project, region *)
  apply wp_bind. eapply wp_setitem_assembling; [exact Hs | apply Hopt | discriminate |].
  clear h1 Hs. intros h1 Hs. simpl.
  apply wp_bind. eapply wp_setitem_assembling; [exact Hs | apply Hopt | discriminate |].
  clear h1 Hs. intros h1 [Hown Hlab]. simpl.
  (* labels *)
  wp_run.
  assert (Hown2 : owned h (h1 ++ [[]]) out) by (apply owned_alloc; [exact Hown | constructor]).
  rewrite heap_get_app_l by apply Hown.
  destruct (dict_get "labels" (heap_get h1 out)) as [v|] eqn:El.
  - wp_run. destruct v as [| | | |l]; simpl.
    1-4: wp_run; eexists; repeat split;
      [ apply extends_app, Hown2
      | intros H0; apply heap_wf_app; [now apply Hown2 | repeat constructor; simpl; tauto]
      | now left
      | intros Hk Hok; destruct (Hlab (conj Hk Hok)) as [H|[l H]]; congruence ].
    wp_run. rewrite heap_get_app_new.
    eexists. repeat split.
    + apply extends_insert; [apply extends_app, Hown2|].
      apply (owned_refs _ _ _ Hown _ _ El).
    + intros H0. apply heap_wf_insert.
      * apply heap_wf_app; [now apply Hown2 | repeat constructor; simpl; tauto].
      * apply dict_update_NoDup, heap_get_wf.
        apply heap_wf_app; [now apply Hown2 | repeat constructor; simpl; tauto].
    + right. exists out. repeat split; [apply Hown|].
      pose proof (owned_valid _ _ _ Hown). heap_length.
    + eauto.
  - wp_run. rewrite heap_get_app_new.
    eexists. repeat split.
    + apply extends_insert; [apply extends_app, extends_insert; [apply Hown2 | apply Hown]|].
      pose proof (extends_length _ _ (owned_extends _ _ _ Hown)). heap_length.
    + intros H0. apply heap_wf_insert.
      * apply heap_wf_app; [|repeat constructor; simpl; tauto].
        apply heap_wf_insert; [now apply Hown2|].
        apply dict_set_NoDup, heap_get_wf. now apply Hown.
      * apply dict_update_NoDup, heap_get_wf.
        apply heap_wf_app; [|repeat constructor; simpl; tauto].
        apply heap_wf_insert; [now apply Hown2|].
        apply dict_set_NoDup, heap_get_wf. now apply Hown.
    + right. exists out. repeat split; [apply Hown|].
      pose proof (owned_valid _ _ _ Hown). heap_length.
    + eauto.
Qed.

(** ** Option assembly *)

Arguments is_dataflow_runner : simpl never.

Lemma set_dataflow_spec (w : World) (po : loc) (key : option string) (h : heap)
    self tr stk files polls :
  wp (BeamDataflowMixin._set_dataflow w po key)
    (mkState h self tr stk files polls)
    (fun s' r =>
       exists h', s' = mkState h' (dataflow_self w self) tr stk files polls /\
         extends h h' /\ (heap_wf h -> heap_wf h') /\
         (r = Raise AttributeError \/
          exists out,
            r = Ok (build_dataflow_job_name w (job_name (dataflow_config self))
                      (append_job_name (dataflow_config self)), out, true)
            /\ length h <= out /\ out < length h') /\
         (key <> Some "labels" -> labels_ok (heap_get h po) -> r <> Raise AttributeError)).
Proof.
  unfold BeamDataflowMixin._set_dataflow, BeamDataflowMixin.__set_dataflow_hook,
    BeamDataflowMixin.__get_dataflow_job_name, BeamDataflowMixin.__get_dataflow_process_callback.
  wp_run.
  eapply wp_mono; [apply get_dataflow_pipeline_options_spec|].
  intros s' r (h' & -> & Hext & Hwf & Hr & Hok).
  destruct Hr as [-> | (out & -> & Hout)].
  - exists h'.
    split; [reflexivity|]. split; [exact Hext|]. split; [exact Hwf|].
    split; [now left|].
    intros Hk Hl. destruct (Hok Hk Hl) as [out Hout]. discriminate.
  - wp_run. exists h'.
    split; [reflexivity|]. split; [exact Hext|]. split; [exact Hwf|].
    split; [right; exists out; auto | discriminate].
Qed.

Lemma dict_comprehension_NoDup (f : string -> string) (d : dict) :
  List.NoDup (dict_keys (dict_comprehension f d)).
Proof.
  unfold dict_comprehension.
  assert (H : forall keys acc,
            List.NoDup (dict_keys acc) ->
            List.NoDup
              (dict_keys
                 (fold_left
                    (fun acc key =>
                       match dict_get key d with
                       | Some v => dict_set (f key) v acc
                       | None => acc
                       end) keys acc))).
  { induction keys as [|k keys IH]; intros acc Hacc; simpl; [exact Hacc|].
    apply IH. destruct (dict_get k d); [now apply dict_set_NoDup | exact Hacc]. }
  apply H. constructor.
Qed.

(** The end of [_init_pipeline_options]: the user's options are applied to
    the dictionary [out] that the code owns, and the keys are normalized when
    asked. *)
Lemma init_tail (w : World) (format : bool) (h h2 : heap) (user out : loc)
    (is_dataflow : bool) (name : option string) (callback : bool)
    self tr stk files polls :
  extends h h2 -> (heap_wf h -> heap_wf h2) -> length h <= out -> out < length h2 ->
  pipeline_options self = user ->
  wp (let* self0 := get_self in
      update out (pipeline_options self0) ;;
      if format then
        let* merged := load out in
        let* snake_case_pipeline_options :=
          alloc (dict_comprehension (convert_camel_to_snake w) merged) in
        ret (is_dataflow, name, snake_case_pipeline_options, callback)
      else ret (is_dataflow, name, out, callback))
    (mkState h2 self tr stk files polls)
    (fun s' r =>
       exists h', s' = mkState h' self tr stk files polls /\
         extends h h' /\ (heap_wf h -> heap_wf h') /\
         exists out',
           r = Ok (is_dataflow, name, out', callback)
           /\ length h <= out' /\ out' < length h'
           /\ (user < length h ->
               heap_wf h ->
               exists merged,
                 (forall k v,
                    dict_get k (heap_get h user) = Some v -> dict_get k merged = Some v)
                 /\ List.NoDup (dict_keys merged)
                 /\ heap_get h' out' =
                      if format then dict_comprehension (convert_camel_to_snake w) merged
                      else merged)).
Proof.
  intros Hext Hwf Hout1 Hout2 <-.
  set (user := pipeline_options self).
  set (merged := dict_update (heap_get h2 out) (heap_get h2 user)).
  assert (Hmerged : user < length h -> heap_wf h ->
            (forall k v, dict_get k (heap_get h user) = Some v -> dict_get k merged = Some v)
            /\ List.NoDup (dict_keys merged)).
  { intros Hu H0. split.
    - intros k v Hk. unfold merged.
      rewrite dict_get_update by (apply heap_get_wf; auto).
      rewrite (extends_get h h2 user Hext Hu). now rewrite Hk.
    - apply dict_update_NoDup, heap_get_wf. auto. }
  wp_run. fold user. fold merged.
  destruct format; wp_run.
  - rewrite heap_get_insert_eq by assumption.
    eexists. split; [reflexivity|].
    split; [apply extends_app, extends_insert; assumption|].
    split.
    { intros H0. apply heap_wf_app.
      - apply heap_wf_insert; [auto|]. apply dict_update_NoDup, heap_get_wf. auto.
      - apply dict_comprehension_NoDup. }
    eexists. split; [reflexivity|].
    split; [heap_length|]. split; [heap_length|].
    intros Hu H0. exists merged.
    destruct (Hmerged Hu H0) as [H1 H2].
    split; [exact H1|]. split; [exact H2|].
    apply heap_get_app_new.
  - eexists. split; [reflexivity|].
    split; [apply extends_insert; assumption|].
    split.
    { intros H0. apply heap_wf_insert; [auto|].
      apply dict_update_NoDup, heap_get_wf. auto. }
    exists out. split; [reflexivity|].
    split; [exact Hout1|]. split; [heap_length|].
    intros Hu H0. exists merged.
    destruct (Hmerged Hu H0) as [H1 H2].
    split; [exact H1|]. split; [exact H2|].
    now apply heap_get_insert_eq.
Qed.

Lemma init_pipeline_options_spec (w : World) (format : bool) (key : option string)
    (h : heap) self tr stk files polls :
  wp (BeamBasePipelineOperator._init_pipeline_options w format key)
    (mkState h self tr stk files polls)
    (fun s' r =>
       exists h',
         s' = mkState h' (init_self w self)
                (match r with Ok _ => tr ++ init_trace self | _ => tr end) stk files polls
         /\ init_outcome w format key h self h' r).
Proof.
  unfold BeamBasePipelineOperator._init_pipeline_options.
  wp_run.
  fold (is_dataflow_runner (runner self)).
  unfold init_self, init_trace, init_job_name.
  destruct (is_dataflow_runner (runner self)) eqn:Edf.
  - apply wp_bind.
    eapply wp_mono; [apply set_dataflow_spec|].
    intros s' r (h1 & -> & Hext & Hwf & Hr & Hok).
    assert (Hext1 : extends h h1).
    { eapply extends_trans; [|exact Hext]. apply extends_app, extends_refl. }
    assert (Hwf1 : heap_wf h -> heap_wf h1).
    { intros H0. apply Hwf, heap_wf_app; [exact H0 | now apply heap_get_wf]. }
    destruct Hr as [-> | (out & -> & Hout1 & Hout2)].
    + exists h1. split; [reflexivity|].
      constructor; [exact Hext1 | exact Hwf1 | now left |].
      intros Hs. destruct (Hs Edf) as [Hk Hl]. exfalso.
      apply (Hok Hk); [|reflexivity]. now rewrite heap_get_app_new.
    + do 3 wp_step.
      eapply wp_mono.
      { eapply (init_tail w format h h1 (pipeline_options self) out); eauto.
        rewrite length_app in Hout1. lia. }
      intros s' r (h' & -> & He & Hw & out' & -> & Ho1 & Ho2 & Hc).
      exists h'. split; [reflexivity|].
      constructor; [exact He | exact Hw | | discriminate].
      right. exists out'. unfold init_job_name. rewrite Edf. auto.
  - wp_step.
    eapply wp_mono.
    { eapply (init_tail w format h _ (pipeline_options self) (length h)).
      - apply extends_app, extends_refl.
      - intros H0. apply heap_wf_app; [exact H0 | now apply heap_get_wf].
      - lia.
      - heap_length.
      - reflexivity. }
    intros s' r (h' & -> & He & Hw & out' & -> & Ho1 & Ho2 & Hc).
    exists h'. split; [now rewrite app_nil_r|].
    constructor; [exact He | exact Hw | | discriminate].
    right. exists out'. unfold init_job_name. rewrite Edf. auto.
Qed.

(** ** Collaborators *)

Lemma count_app (p : event -> bool) (t1 t2 : list event) :
  count p (t1 ++ t2) = count p t1 + count p t2.
Proof. unfold count. now rewrite List.filter_app, length_app. Qed.

Lemma wp_process_lines (ids : list string) h self tr stk files polls
    (Q : state -> result unit -> Prop) :
  Q (mkState h (fold_left (fun o id => set_dataflow_job_id (Some id) o) ids self)
       tr stk files polls) (Ok tt) ->
  wp (process_lines ids) (mkState h self tr stk files polls) Q.
Proof.
  revert self. induction ids as [|id ids IH]; intros self HQ; simpl.
  - wp_run. exact HQ.
  - wp_run. apply IH. exact HQ.
Qed.

Lemma wp_start_pipeline (w : World) (e : event) (callback : bool) h self tr stk files polls
    (Q : state -> result unit -> Prop) :
  Q (mkState h (process_self w callback self) (tr ++ [e]) stk files polls)
    (if launch_succeeds w then Ok tt
     else Raise (AirflowException "Apache Beam process failed")) ->
  wp (start_pipeline w e callback) (mkState h self tr stk files polls) Q.
Proof.
  intros HQ. unfold start_pipeline, process_self in *. wp_run.
  destruct callback.
  - apply wp_process_lines. destruct (launch_succeeds w); wp_run; exact HQ.
  - wp_run. destruct (launch_succeeds w); wp_run; exact HQ.
Qed.

Lemma wp_is_job_dataflow_running (w : World) (name : string) (options : loc)
    h self tr stk files polls (Q : state -> result bool -> Prop) :
  Q (mkState h self (tr ++ [IsJobDataflowRunning name (heap_get h options)]) stk files
       (S polls))
    (Ok (running_answers w polls)) ->
  wp (is_job_dataflow_running w name options) (mkState h self tr stk files polls) Q.
Proof. intros HQ. unfold is_job_dataflow_running. wp_run. exact HQ. Qed.

Lemma wait_for_run_unfold (w : World) (fuel : nat) (options : loc) (is_running : bool) :
  BeamRunJavaPipelineOperator.wait_for_run w fuel options is_running =
  (let* self := get_self in
   if is_running
      && CheckJobRunning_eqb (check_if_running (dataflow_config self)) WaitForRun
   then
     match fuel with
     | O => diverge
     | S fuel' =>
         let* is_running :=
           is_job_dataflow_running w (job_name (dataflow_config self)) options in
         BeamRunJavaPipelineOperator.wait_for_run w fuel' options is_running
     end
   else ret is_running).
Proof. destruct fuel; reflexivity. Qed.

Lemma wp_wait_for_run_exact (w : World) (fuel : nat) (options : loc) (name : string)
    h self tr stk files polls (Q : state -> result bool -> Prop) :
  check_if_running (dataflow_config self) = WaitForRun ->
  job_name (dataflow_config self) = name ->
  (forall n r,
     ((exists m, n = m /\ m <= fuel /\ r = Ok false
                 /\ running_answers w (polls + m) = false
                 /\ forall i, i < m -> running_answers w (polls + i) = true)
      \/ (n = fuel /\ r = Diverge
          /\ forall i, i <= fuel -> running_answers w (polls + i) = true)) ->
     Q (mkState h self
          (tr ++ repeat (IsJobDataflowRunning name (heap_get h options)) (S n))
          stk files (polls + S n)) r) ->
  wp (let* is_running := is_job_dataflow_running w name options in
      BeamRunJavaPipelineOperator.wait_for_run w fuel options is_running)
    (mkState h self tr stk files polls) Q.
Proof.
  intros Hpol Hname. revert tr polls Q.
  induction fuel as [|fuel IH]; intros tr polls Q HQ.
  - apply wp_bind, wp_is_job_dataflow_running. simpl.
    wp_run. rewrite Hpol.
    replace (S polls) with (polls + 1) by lia.
    destruct (running_answers w polls) eqn:E; simpl; wp_run.
    + apply (HQ 0 Diverge). right. repeat split.
      intros i Hi. replace i with 0 by lia. now rewrite Nat.add_0_r.
    + apply (HQ 0 (Ok false)). left. exists 0. rewrite Nat.add_0_r.
      repeat split; auto. intros i Hi. lia.
  - apply wp_bind, wp_is_job_dataflow_running. simpl.
    wp_run. rewrite Hpol, Hname.
    destruct (running_answers w polls) eqn:E; simpl.
    + apply IH. intros n r Hn.
      rewrite <- app_assoc. simpl.
      replace (S (polls + S n)) with (polls + S (S n)) by lia.
      apply (HQ (S n) r).
      destruct Hn as [(m & -> & Hm & -> & Hf & Ht) | (-> & -> & Ht)].
      * left. exists (S m). repeat split; [lia | |].
        -- now replace (polls + S m) with (S polls + m) by lia.
        -- intros i Hi. destruct i as [|i]; [now rewrite Nat.add_0_r|].
           replace (polls + S i) with (S polls + i) by lia. apply Ht. lia.
      * right. repeat split.
        intros i Hi. destruct i as [|i]; [now rewrite Nat.add_0_r|].
        replace (polls + S i) with (S polls + i) by lia. apply Ht. lia.
    + wp_run. replace (S polls) with (polls + 1) by lia.
      apply (HQ 0 (Ok false)). left. exists 0. rewrite Nat.add_0_r.
      repeat split; auto; [lia|]. intros i Hi. lia.
Qed.

Lemma wp_duplicate_check (w : World) (fuel : nat) (options : loc)
    (policy : CheckJobRunning) (name : string)
    h self tr stk files polls (Q : state -> result bool -> Prop) :
  check_if_running (dataflow_config self) = policy ->
  job_name (dataflow_config self) = name ->
  (forall n r,
     duplicate_check_outcome w policy fuel polls n r ->
     Q (mkState h self
          (tr ++ repeat (IsJobDataflowRunning name (heap_get h options)) n)
          stk files (polls + n)) r) ->
  wp (if negb (CheckJobRunning_eqb policy IgnoreJob)
      then
        let* is_running := is_job_dataflow_running w name options in
        BeamRunJavaPipelineOperator.wait_for_run w fuel options is_running
      else ret false)
    (mkState h self tr stk files polls) Q.
Proof.
  intros Hpol Hname HQ. unfold duplicate_check_outcome in HQ.
  destruct policy; simpl.
  - wp_run. specialize (HQ 0 (Ok false)). simpl in HQ.
    rewrite app_nil_r, Nat.add_0_r in HQ. now apply HQ.
  - apply wp_bind, wp_is_job_dataflow_running. simpl.
    rewrite wait_for_run_unfold. wp_run. rewrite Hpol.
    rewrite andb_false_r. wp_run.
    replace (S polls) with (polls + 1) by lia.
    now apply (HQ 1 (Ok (running_answers w polls))).
  - apply wp_wait_for_run_exact; [exact Hpol | exact Hname |].
    intros n r Hn. apply HQ.
    destruct Hn as [(m & -> & Hm & -> & Hf & Ht) | (-> & -> & Ht)].
    + left. exists m. auto.
    + right. auto.
Qed.

Lemma wp_fun {A} (f : state -> state * result A) (s : state)
    (Q : state -> result A -> Prop) :
  Q (fst (f s)) (snd (f s)) -> wp f s Q.
Proof. exact (fun H => H). Qed.

Lemma wp_exit_stack_close h self tr stk files polls (Q : state -> result unit -> Prop) :
  wp (close_contexts stk) (mkState h self tr [] files polls) Q ->
  wp exit_stack_close (mkState h self tr stk files polls) Q.
Proof. exact (fun H => H). Qed.

Lemma prefix_append (d y : string) : String.prefix d (d ++ y) = true.
Proof.
  induction d as [|c d IH]; simpl; [now destruct y|].
  destruct (Ascii.ascii_dec c c); [exact IH | congruence].
Qed.

Lemma append_assoc (a b c : string) : ((a ++ b) ++ c = a ++ (b ++ c))%string.
Proof. induction a as [|x a IH]; simpl; [reflexivity | now rewrite IH]. Qed.

Lemma startswith_directory (d x : string) :
  startswith (d ++ "/") (d ++ String "/" x) = true.
Proof.
  unfold startswith. change (String "/" x) with ("/" ++ x)%string.
  rewrite <- append_assoc. apply prefix_append.
Qed.

(** A file of a directory is gone once the directory is removed. *)
Lemma removed_with_directory (d x : string) (files : list string) :
  existsb (String.eqb (d ++ String "/" x))
    (List.filter (fun f => negb (String.eqb f d || startswith (d ++ "/") f)) files)
  = false.
Proof.
  induction files as [|f files IH]; simpl; [reflexivity|].
  destruct (String.eqb f d || startswith (d ++ "/") f) eqn:E; simpl; [exact IH|].
  rewrite IH, orb_false_r.
  destruct (String.eqb_spec (d ++ String "/" x) f) as [<-|]; [|reflexivity].
  now rewrite startswith_directory, orb_true_r in E.
Qed.

Ltac files_step :=
  rewrite ?String.eqb_refl, ?startswith_directory, ?orb_true_r,
    ?removed_with_directory; simpl.

Ltac wp_call :=
  lazymatch goal with
  | |- wp (with_exit_stack _) _ _ => unfold with_exit_stack
  | |- wp exit_stack_close _ _ => apply wp_exit_stack_close; simpl
  | |- wp (enter_context_provide_file _ _ _) _ _ =>
      unfold enter_context_provide_file, provide_file_enter
  | |- wp (provide_file_exit _) _ _ => unfold provide_file_exit
  | |- wp (provide_authorized_gcloud _) _ _ => unfold provide_authorized_gcloud
  | |- wp (with_temporary_directory _ _) _ _ => unfold with_temporary_directory
  | |- wp (wait_for_done _ _ _ _ _ _) _ _ => unfold wait_for_done
  | |- wp (persist _ _ _) _ _ => unfold persist
  | |- wp (cancel_job _ _) _ _ => unfold cancel_job
  | |- wp (start_pipeline _ _ _) _ _ => apply wp_start_pipeline
  | |- wp (fun _ => _) _ _ => apply wp_fun; simpl; files_step
  end.

Ltac wp_branch :=
  lazymatch goal with
  | |- wp (if ?c then _ else _) _ _ => destruct c eqn:?; simpl
  | |- wp (match ?x with _ => _ end) _ _ => destruct x eqn:?; simpl
  | |- match (if ?c then _ else _) with _ => _ end => destruct c eqn:?; simpl
  end.

Ltac wp_go := repeat (wp_step || wp_call).
Ltac wp_all := repeat (wp_step || wp_call || wp_branch).

Lemma process_self_job_id (w : World) (callback : bool) (self : operator) :
  dataflow_job_id (process_self w callback self)
  = if callback then discovered_job_id w (dataflow_job_id self) else dataflow_job_id self.
Proof.
  unfold process_self, discovered_job_id. destruct callback; [|reflexivity].
  revert self.
  induction (launch_job_ids w) as [|id ids IH]; intros self; simpl; [reflexivity|].
  now rewrite IH.
Qed.

Lemma process_self_config (w : World) (callback : bool) (self : operator) :
  dataflow_config (process_self w callback self) = dataflow_config self.
Proof.
  unfold process_self. destruct callback; [|reflexivity].
  revert self.
  induction (launch_job_ids w) as [|id ids IH]; intros self; simpl; [reflexivity|].
  now rewrite IH.
Qed.

Arguments process_self : simpl never.

Arguments is_gcs : simpl never.

Ltac rewrite_conditions :=
  repeat match goal with
         | H : ?c = true |- context [?c] => rewrite H
         | H : ?c = false |- context [?c] => rewrite H
         end.

Ltac trace_eq :=
  simpl; rewrite_conditions; simpl; rewrite <- ?app_assoc; simpl;
  rewrite ?process_self_job_id, ?app_nil_r; simpl; try reflexivity.

Ltac heap_kept :=
  simpl; first [assumption | apply extends_insert; assumption].

Ltac java_leaf h out n check :=
  lazymatch goal with |- ?P _ _ => unfold P end;
  split; [heap_kept|]; right;
  exists h, out, n, check;
  split; [assumption|]; split; [assumption|];
  unfold java_dataflow_events, java_dataflow_result, awaited, java_multiple_jobs;
  split; [trace_eq | split; [reflexivity | trace_eq]].

Lemma java_execute_dataflow (w : World) (fuel : nat) h self tr stk files polls :
  is_dataflow_runner (runner self) = true ->
  wp (BeamRunJavaPipelineOperator.execute w fuel) (mkState h self tr stk files polls)
    (fun s' r =>
       extends h (st_heap s') /\
       ((~ labels_ok (heap_get h (default_pipeline_options self))
         /\ st_trace s' = tr /\ st_polls s' = polls /\ r = Raise AttributeError) \/
       exists h' out n check,
         (pipeline_options self < length h -> heap_wf h ->
          overrides_applied h self (heap_get h' out))
         /\ duplicate_check_outcome w (check_if_running (dataflow_config self)) fuel polls
              n check
         /\ st_trace s' =
              tr ++ Log "pipeline_options" :: download_events w (jar self)
                 ++ java_dataflow_events w self (heap_get h' out)
                      (local_file w (jar self) None) n check
                 ++ match check with
                    | Diverge => []
                    | _ => cleanup_events w (jar self)
                    end
         /\ st_polls s' = polls + n
         /\ r = java_dataflow_result w self check)).
Proof.
  intros Hdf. unfold BeamRunJavaPipelineOperator.execute.
  apply wp_bind. eapply wp_mono; [apply init_pipeline_options_spec|].
  intros s' r (h' & -> & Hout).
  pose proof (init_extends _ _ _ _ _ _ _ Hout) as Hext.
  destruct (init_result _ _ _ _ _ _ _ Hout) as [-> | (out & -> & Hb1 & Hb2 & Hc)].
  { split; [exact Hext|]. left. split; [|auto].
    intros Hlab. apply (init_succeeds _ _ _ _ _ _ _ Hout); [|reflexivity].
    intros _. split; [discriminate | exact Hlab]. }
  assert (Hov : pipeline_options self < length h -> heap_wf h ->
                overrides_applied h self (heap_get h' out)).
  { intros H1 H2. destruct (Hc H1 H2) as (merged & Hm1 & Hm2 & ->). now split. }
  clear Hc Hout.
  unfold init_trace, init_self, init_job_name. rewrite Hdf. simpl.
  unfold download_events, cleanup_events, local_file, is_gcs.
  assert (Hcheck : forall n e,
            ~ duplicate_check_outcome w (check_if_running (dataflow_config self)) fuel polls
                n (Raise e)).
  { intros n e. unfold duplicate_check_outcome.
    destruct (check_if_running (dataflow_config self));
      [intros [_ H] | intros [_ H] | intros [(m & _ & _ & H & _) | (_ & H & _)]];
      discriminate. }
  match goal with |- wp _ _ ?Q => set (Post := Q) end.
  wp_go. wp_branch.
  - wp_go. apply wp_duplicate_check; [reflexivity | reflexivity |].
    intros n check Hn. simpl.
    destruct check as [[|]|e|]; simpl.
    + wp_all. java_leaf h' out n (Ok true : result bool).
    + wp_go. rewrite heap_get_insert_eq by assumption.
      wp_all; java_leaf h' out n (Ok false : result bool).
    + destruct (Hcheck _ _ Hn).
    + java_leaf h' out n (Diverge : result bool).
  - wp_go. apply wp_duplicate_check; [reflexivity | reflexivity |].
    intros n check Hn. simpl.
    destruct check as [[|]|e|]; simpl.
    + wp_all. java_leaf h' out n (Ok true : result bool).
    + wp_go. rewrite heap_get_insert_eq by assumption.
      wp_all; java_leaf h' out n (Ok false : result bool).
    + destruct (Hcheck _ _ Hn).
    + java_leaf h' out n (Diverge : result bool).
Qed.

Ltac wp_launch :=
  repeat (wp_step || wp_call
          || (progress (rewrite ?process_self_config, ?process_self_job_id; simpl))
          || wp_branch).

Ltac launch_leaf h out :=
  lazymatch goal with |- ?P _ _ => unfold P end;
  split; [heap_kept|]; right;
  exists h, out;
  split; [assumption|];
  unfold launch_events, launch_result, after_launch_events, awaited;
  split; [trace_eq | split; [reflexivity | trace_eq]].

Lemma python_execute_spec (w : World) h self tr stk files polls :
  wp (BeamRunPythonPipelineOperator.execute w) (mkState h self tr stk files polls)
    (fun s' r =>
       extends h (st_heap s') /\
       ((is_dataflow_runner (runner self) = true
         /\ ~ labels_ok (heap_get h (default_pipeline_options self))
         /\ st_trace s' = tr /\ st_polls s' = polls /\ r = Raise AttributeError) \/
       exists h' out,
         (pipeline_options self < length h -> heap_wf h ->
          normalized_overrides w h self (heap_get h' out))
         /\ st_trace s' =
              tr ++ init_trace self ++ download_events w (py_file self)
                 ++ launch_events w self
                      (StartPythonPipeline (heap_get h' out)
                         (local_file w (py_file self) None) (py_options self)
                         (py_interpreter self) (py_requirements self)
                         (py_system_site_packages self))
                 ++ cleanup_events w (py_file self)
         /\ st_polls s' = polls
         /\ r = launch_result w self)).
Proof.
  unfold BeamRunPythonPipelineOperator.execute.
  apply wp_bind. eapply wp_mono; [apply init_pipeline_options_spec|].
  intros s' r (h' & -> & Hout).
  pose proof (init_extends _ _ _ _ _ _ _ Hout) as Hext.
  destruct (init_result _ _ _ _ _ _ _ Hout) as [-> | (out & -> & Hb1 & Hb2 & Hc)].
  { split; [exact Hext|]. left.
    destruct (is_dataflow_runner (runner self)) eqn:Hdf.
    - split; [reflexivity|]. split; [|auto].
      intros Hlab. apply (init_succeeds _ _ _ _ _ _ _ Hout); [|reflexivity].
      intros _. split; [discriminate | exact Hlab].
    - exfalso. apply (init_succeeds _ _ _ _ _ _ _ Hout); [|reflexivity].
      intros Hdf'. congruence. }
  assert (Hov : pipeline_options self < length h -> heap_wf h ->
                normalized_overrides w h self (heap_get h' out)).
  { intros H1 H2. destruct (Hc H1 H2) as (merged & Hm1 & Hm2 & ->).
    exists merged. split; [now split | reflexivity]. }
  clear Hc Hout.
  unfold init_trace, init_self, init_job_name.
  unfold download_events, cleanup_events, local_file, is_gcs.
  match goal with |- wp _ _ ?Q => set (Post := Q) end.
  destruct (is_dataflow_runner (runner self)) eqn:Hdf; simpl.
  - wp_go. wp_branch; wp_launch; launch_leaf h' out.
  - wp_go. wp_branch; wp_launch; launch_leaf h' out.
Qed.

Lemma go_execute_spec (w : World) h self tr stk files polls :
  wp (BeamRunGoPipelineOperator.execute w) (mkState h self tr stk files polls)
    (fun s' r =>
       extends h (st_heap s') /\
       ((is_dataflow_runner (runner self) = true
         /\ ~ labels_ok (heap_get h (default_pipeline_options self))
         /\ st_trace s' = tr /\ st_polls s' = polls /\ r = Raise AttributeError) \/
       exists h' out,
         (pipeline_options self < length h -> heap_wf h ->
          normalized_overrides w h self (heap_get h' out))
         /\ st_trace s' =
              tr ++ init_trace self ++ go_download_events w (go_file self)
                 ++ launch_events w self
                      (fun callback =>
                         StartGoPipeline (heap_get h' out)
                           (local_file w (go_file self) (Some (temporary_directory w)))
                           callback
                           (if is_gcs (go_file self) then true
                            else should_init_go_module self))
                 ++ go_cleanup_events w (go_file self)
         /\ st_polls s' = polls
         /\ r = if is_gcs (go_file self) then Raise FileNotFoundError
                else launch_result w self)).
Proof.
  unfold BeamRunGoPipelineOperator.execute.
  apply wp_bind. eapply wp_mono; [apply init_pipeline_options_spec|].
  intros s' r (h' & -> & Hout).
  pose proof (init_extends _ _ _ _ _ _ _ Hout) as Hext.
  destruct (init_result _ _ _ _ _ _ _ Hout) as [-> | (out & -> & Hb1 & Hb2 & Hc)].
  { split; [exact Hext|]. left.
    destruct (is_dataflow_runner (runner self)) eqn:Hdf.
    - split; [reflexivity|]. split; [|auto].
      intros Hlab. apply (init_succeeds _ _ _ _ _ _ _ Hout); [|reflexivity].
      intros _. split; [discriminate | exact Hlab].
    - exfalso. apply (init_succeeds _ _ _ _ _ _ _ Hout); [|reflexivity].
      intros Hdf'. congruence. }
  assert (Hov : pipeline_options self < length h -> heap_wf h ->
                normalized_overrides w h self (heap_get h' out)).
  { intros H1 H2. destruct (Hc H1 H2) as (merged & Hm1 & Hm2 & ->).
    exists merged. split; [now split | reflexivity]. }
  clear Hc Hout.
  unfold init_trace, init_self, init_job_name.
  unfold go_download_events, go_cleanup_events, local_file, is_gcs.
  match goal with |- wp _ _ ?Q => set (Post := Q) end.
  destruct (is_dataflow_runner (runner self)) eqn:Hdf; simpl.
  - wp_go. wp_branch; wp_launch; launch_leaf h' out.
  - wp_go. wp_branch; wp_launch; launch_leaf h' out.
Qed.

Lemma java_execute_local (w : World) (fuel : nat) h self tr stk files polls :
  is_dataflow_runner (runner self) = false ->
  wp (BeamRunJavaPipelineOperator.execute w fuel) (mkState h self tr stk files polls)
    (fun s' r =>
       extends h (st_heap s') /\
       exists h' out,
         (pipeline_options self < length h -> heap_wf h ->
          overrides_applied h self (heap_get h' out))
         /\ st_trace s' =
              tr ++ download_events w (jar self)
                 ++ [StartJavaPipeline (heap_get h' out) (local_file w (jar self) None)
                       (job_class self) false]
                 ++ cleanup_events w (jar self)
         /\ st_polls s' = polls
         /\ r = if launch_succeeds w then Ok Nothing
                else Raise (AirflowException "Apache Beam process failed")).
Proof.
  intros Hdf. unfold BeamRunJavaPipelineOperator.execute.
  apply wp_bind. eapply wp_mono; [apply init_pipeline_options_spec|].
  intros s' r (h' & -> & Hout).
  pose proof (init_extends _ _ _ _ _ _ _ Hout) as Hext.
  destruct (init_result _ _ _ _ _ _ _ Hout) as [-> | (out & -> & Hb1 & Hb2 & Hc)].
  { exfalso. apply (init_succeeds _ _ _ _ _ _ _ Hout); [|reflexivity].
    intros Hdf'. congruence. }
  assert (Hov : pipeline_options self < length h -> heap_wf h ->
                overrides_applied h self (heap_get h' out)).
  { intros H1 H2. destruct (Hc H1 H2) as (merged & Hm1 & Hm2 & ->). now split. }
  clear Hc Hout.
  unfold init_trace, init_self, init_job_name. rewrite Hdf. simpl.
  unfold download_events, cleanup_events, local_file, is_gcs.
  match goal with |- wp _ _ ?Q => set (Post := Q) end.
  wp_go. wp_branch; wp_launch;
    (lazymatch goal with |- ?P _ _ => unfold P end;
     split; [heap_kept|];
     exists h', out; split; [assumption|];
     split; [trace_eq | split; [reflexivity | trace_eq]]).
Qed.

(** ** Construction *)

Lemma airflow_version_label_get (w : World) :
  dict_get "airflow-version" (airflow_version_label w) = Some (version_label w).
Proof. reflexivity. Qed.

Lemma airflow_version_label_NoDup (w : World) :
  List.NoDup (dict_keys (airflow_version_label w)).
Proof. repeat constructor. simpl. tauto. Qed.

Lemma dict_get_update_label (w : World) (d : dict) :
  dict_get "airflow-version" (dict_update d (airflow_version_label w))
  = Some (version_label w).
Proof.
  rewrite dict_get_update by apply airflow_version_label_NoDup.
  now rewrite airflow_version_label_get.
Qed.

Lemma dict_get_update_label_other (w : World) (k : string) (d : dict) :
  k <> "airflow-version" ->
  dict_get k (dict_update d (airflow_version_label w)) = dict_get k d.
Proof.
  intros Hk. rewrite dict_get_update by apply airflow_version_label_NoDup.
  unfold airflow_version_label, dict_get.
  destruct (String.eqb_spec "airflow-version" k) as [E|E]; [congruence | reflexivity].
Qed.

(** [x or {}] returns [x] itself when it is a dictionary that is not empty,
    and a new dictionary otherwise. *)
Lemma wp_or_empty_dict (x : option loc) h self tr stk files polls
    (Q : state -> result loc -> Prop) :
  (forall h1 l,
     (h1 = h /\ x = Some l /\ heap_get h l <> [])
     \/ (h1 = h ++ [[]] /\ l = length h
         /\ (x = None \/ exists p, x = Some p /\ heap_get h p = [])) ->
     Q (mkState h1 self tr stk files polls) (Ok l)) ->
  wp (or_empty_dict x) (mkState h self tr stk files polls) Q.
Proof.
  intros HQ. unfold or_empty_dict. destruct x as [p|].
  - wp_go. destruct (heap_get h p) eqn:E; wp_go.
    + apply HQ. right. repeat split. right. exists p. auto.
    + apply HQ. left. repeat split. rewrite E. discriminate.
  - wp_go. apply HQ. right. repeat split. now left.
Qed.

(** The last statement of the constructors of the Python and Go operators,
    on a dictionary [p] that the caller owns. *)
Lemma wp_label_options (w : World) (p : loc) h self tr stk files polls :
  p < length h ->
  wp (let* empty := alloc [] in
      let* labels := setdefault p "labels" (VRef empty) in
      let* label := alloc (airflow_version_label w) in
      value_update labels label)
    (mkState h self tr stk files polls)
    (fun s' r =>
       st_self s' = self /\
       ((dict_get "labels" (heap_get h p) = None
         \/ exists l, dict_get "labels" (heap_get h p) = Some (VRef l) /\ l < length h) ->
        r = Ok tt
        /\ exists l,
             dict_get "labels" (heap_get (st_heap s') p) = Some (VRef l)
             /\ dict_get "airflow-version" (heap_get (st_heap s') l)
                = Some (version_label w))).
Proof.
  intros Hp. wp_go. rewrite heap_get_app_l by assumption.
  destruct (dict_get "labels" (heap_get h p)) as [[| | | |l]|] eqn:Hl; wp_go.
  1-4: unfold value_update; wp_go; split; [reflexivity|];
    intros [H | (l & H & _)]; discriminate.
  - unfold value_update, update. wp_go. split; [reflexivity|].
    intros [H | (l' & [= <-] & Hlt)]; [discriminate|].
    rewrite heap_get_app_new.
    split; [reflexivity|]. exists l. split.
    + destruct (Nat.eq_dec l p) as [->|Hne].
      * rewrite heap_get_insert_eq by heap_length.
        rewrite dict_get_update_label_other by discriminate.
        rewrite !heap_get_app_l by heap_length. exact Hl.
      * rewrite heap_get_insert_ne by assumption.
        rewrite !heap_get_app_l by heap_length. exact Hl.
    + rewrite heap_get_insert_eq by heap_length.
      apply dict_get_update_label.
  - unfold value_update, update. wp_go. split; [reflexivity|]. intros _.
    rewrite heap_get_app_new.
    split; [reflexivity|]. exists (length h). split.
    + rewrite heap_get_insert_ne by lia.
      rewrite heap_get_app_l by heap_length.
      rewrite heap_get_insert_eq by heap_length.
      apply dict_get_set_eq.
    + rewrite heap_get_insert_eq by heap_length.
      apply dict_get_update_label.
Qed.

(** The same statement on a dictionary that the constructor has just made:
    nothing that existed before is touched. *)
Lemma wp_label_fresh_options (w : World) (h0 : heap) (p : loc) h self tr stk files polls :
  extends h0 h -> length h0 <= p -> p < length h -> heap_get h p = [] ->
  wp (let* empty := alloc [] in
      let* labels := setdefault p "labels" (VRef empty) in
      let* label := alloc (airflow_version_label w) in
      value_update labels label)
    (mkState h self tr stk files polls)
    (fun s' r =>
       r = Ok tt /\ st_self s' = self /\ st_trace s' = tr /\ extends h0 (st_heap s')).
Proof.
  intros Hext Hp1 Hp2 Hempty. wp_go.
  rewrite heap_get_app_l by assumption. rewrite Hempty.
  unfold dict_get at 1. wp_go.
  unfold value_update, update. wp_go.
  repeat split.
  pose proof (extends_length _ _ Hext).
  apply extends_insert; [|lia].
  apply extends_app, extends_insert; [|lia].
  now apply extends_app.
Qed.

Lemma heap_get_nonempty_valid (h : heap) (p : loc) : heap_get h p <> [] -> p < length h.
Proof.
  unfold heap_get. intros Hne.
  destruct (h !! p) as [d|] eqn:E; [|congruence].
  now apply lookup_lt_Some in E.
Qed.

Lemma base_init_spec (w : World) (runner : string) (cd cp : option loc) (gcp : string)
    (del : option string) (cfg : option DataflowConfiguration) h self tr stk files polls :
  wp (BeamBasePipelineOperator.__init__ w runner cd cp gcp del cfg)
    (mkState h self tr stk files polls)
    (fun s' r =>
       r = Ok tt /\
       exists h1 defaults options tr1,
         s' = mkState h1 (base_operator w runner defaults options gcp del cfg) tr1
                stk files polls
         /\ extends h h1
         /\ options_taken h h1 cp options).
Proof.
  unfold BeamBasePipelineOperator.__init__.
  apply wp_bind, wp_or_empty_dict. intros h1 defaults H1.
  assert (Hext1 : extends h h1).
  { destruct H1 as [(-> & _) | (-> & _)]; [apply extends_refl | apply extends_app, extends_refl]. }
  apply wp_bind, wp_or_empty_dict. intros h2 options H2.
  assert (Htaken : extends h h2 /\ options_taken h h2 cp options).
  { pose proof (extends_length _ _ Hext1) as Hlen.
    destruct H2 as [(-> & -> & Hne) | (-> & -> & Hcp)].
    - split; [exact Hext1|]. left. split; [reflexivity|].
      destruct (Nat.lt_ge_cases options (length h)) as [Hlt|Hge].
      + now rewrite <- (extends_get h h1 options Hext1 Hlt).
      + exfalso. apply Hne.
        destruct H1 as [(-> & _) | (-> & _)].
        * unfold heap_get. now rewrite lookup_ge_None_2.
        * destruct (Nat.eq_dec options (length h)) as [->|Hn].
          -- apply heap_get_app_new.
          -- unfold heap_get. rewrite lookup_ge_None_2; [reflexivity|].
             rewrite length_app. simpl. lia.
    - split; [now apply extends_app|]. right.
      split; [|split; [exact Hlen | split; [heap_length | apply heap_get_app_new]]].
      destruct Hcp as [-> | (p & -> & Hp)]; [now left | right].
      exists p. split; [reflexivity|].
      destruct (Nat.lt_ge_cases p (length h)) as [Hlt|Hge].
      + now rewrite <- (extends_get h h1 p Hext1 Hlt).
      + unfold heap_get. now rewrite lookup_ge_None_2. }
  destruct Htaken as [Hext2 Htaken].
  wp_go. wp_branch; wp_go; (split; [reflexivity|]);
    eexists h2, defaults, options, _; (split; [reflexivity|]); auto.
Qed.

Ltac constructor_labels w h h1 options Hext Htaken :=
  pose proof (extends_length _ _ Hext) as Hlen;
  destruct Htaken as [(-> & Hne) | (Hcp & Ho1 & Ho2 & Hempty)];
  [ pose proof (heap_get_nonempty_valid _ _ Hne) as Hvalid;
    eapply wp_mono; [apply (wp_label_options w options h1); lia|];
    intros s' r [Hself Hpost]; split;
    [ intros p [= <-] _ Hlab;
      rewrite (extends_get h h1 options Hext Hvalid) in Hpost;
      destruct Hpost as (-> & l & Hl1 & Hl2);
      [ destruct Hlab as [Hlab | (l & Hlab & Hlt)]; [now left | right; exists l; split; [exact Hlab | lia]]
      | split; [reflexivity|]; split; [now rewrite Hself|]; exists l; auto ]
    | intros [Hc | (p & [= <-] & Hc)]; [discriminate | contradiction] ]
  | eapply wp_mono; [apply (wp_label_fresh_options w h options h1); assumption|];
    intros s' r (-> & Hself & _ & Hext'); split;
    [ intros p -> Hne; exfalso;
      destruct Hcp as [Hc | (p' & [= <-] & Hc)]; [discriminate | contradiction]
    | intros _; split; [reflexivity|]; split; [exact Hext'|]; now rewrite Hself ] ].

Lemma python_init_spec (w : World) (py_file runner : string) (cd cp : option loc)
    (interp : string) (opts reqs : option (list string)) (ssp : bool) (gcp : string)
    (del : option string) (cfg : option DataflowConfiguration) h self tr stk files polls :
  wp (BeamRunPythonPipelineOperator.__init__ w py_file runner cd cp interp opts reqs ssp
        gcp del cfg)
    (mkState h self tr stk files polls)
    (labelled_in_place w h cp).
Proof.
  unfold BeamRunPythonPipelineOperator.__init__.
  apply wp_bind. eapply wp_mono; [apply base_init_spec|].
  intros s' r (-> & h1 & defaults & options & tr1 & -> & Hext & Htaken).
  do 6 wp_step. simpl.
  constructor_labels w h h1 options Hext Htaken.
Qed.

Lemma go_init_spec (w : World) (go_file runner : string) (cd cp : option loc)
    (gcp : string) (del : option string) (cfg : option DataflowConfiguration)
    h self tr stk files polls :
  wp (BeamRunGoPipelineOperator.__init__ w go_file runner cd cp gcp del cfg)
    (mkState h self tr stk files polls)
    (labelled_in_place w h cp).
Proof.
  unfold BeamRunGoPipelineOperator.__init__.
  apply wp_bind. eapply wp_mono; [apply base_init_spec|].
  intros s' r (-> & h1 & defaults & options & tr1 & -> & Hext & Htaken).
  do 3 wp_step. wp_branch; do 9 wp_step; simpl;
    constructor_labels w h h1 options Hext Htaken.
Qed.

(** ** Dictionaries with distinct keys, by computation *)

Lemma distinct_NoDup (l : list string) : distinct l = true -> List.NoDup l.
Proof.
  induction l as [|x l IH]; simpl; intros H; [constructor|].
  apply andb_prop in H. destruct H as [H1 H2].
  constructor; [|now apply IH].
  intros Hin. apply negb_true_iff in H1.
  assert (existsb (String.eqb x) l = true); [|congruence].
  apply existsb_exists. exists x. split; [exact Hin | apply String.eqb_refl].
Qed.

Lemma distinct_heap_wf (h : heap) :
  forallb (fun d => distinct (dict_keys d)) h = true -> heap_wf h.
Proof.
  intros H. unfold heap_wf. apply Forall_forall. intros d Hd.
  apply distinct_NoDup.
  rewrite forallb_forall in H. apply H. now apply list_elem_of_In.
Qed.

(** ** The state that [execute] leaves *)

Ltac after_init w fmt key h self tr stk files polls :=
  apply wp_bind; unfold wp at 1;
  let H := fresh "H" in
  pose proof (init_pipeline_options_spec w fmt key h self tr stk files polls) as H;
  unfold wp in H;
  destruct (BeamBasePipelineOperator._init_pipeline_options w fmt key
              (mkState h self tr stk files polls)) as [s1 r1];
  simpl in H |- *;
  let h' := fresh "h'" in
  let Hout := fresh "Hout" in
  destruct H as (h' & -> & Hout).

Ltac state_eqs :=
  unfold go_launch_result, launch_events, launch_result, after_launch_events,
    java_dataflow_events, java_dataflow_result, java_multiple_jobs, awaited,
    without_file, without_directory, is_gcs;
  simpl; rewrite_conditions; simpl;
  rewrite ?String.eqb_refl; simpl;
  rewrite <- ?app_assoc; simpl;
  rewrite ?process_self_job_id, ?app_nil_r; simpl;
  repeat split; try reflexivity.

Ltac state_leaf :=
  lazymatch goal with |- ?P _ _ => unfold P end; state_eqs.

Lemma python_execute_state (w : World) h self tr stk files polls :
  let s := mkState h self tr stk files polls in
  let i := BeamBasePipelineOperator._init_pipeline_options w true (Some "job_name") s in
  wp (BeamRunPythonPipelineOperator.execute w) s
    (fun s' r =>
       match snd i with
       | Ok (_, _, out, _) =>
           let file := local_file w (py_file self) None in
           st_heap s' = st_heap (fst i)
           /\ st_self s'
              = process_self w (is_dataflow_runner (runner self))
                  (fetched w (py_file self) None set_py_file (init_self w self))
           /\ st_trace s'
              = tr ++ init_trace self ++ download_events w (py_file self)
                   ++ launch_events w self
                        (StartPythonPipeline (heap_get (st_heap (fst i)) out) file
                           (py_options self) (py_interpreter self) (py_requirements self)
                           (py_system_site_packages self))
                   ++ cleanup_events w (py_file self)
           /\ st_exit_stack s' = []
           /\ st_files s'
              = (if is_gcs (py_file self) then without_file file files else files)
           /\ st_polls s' = polls
           /\ r = launch_result w self
       | Raise e => s' = fst i /\ r = Raise e
       | Diverge => False
       end).
Proof.
  intros s i. subst s i. unfold BeamRunPythonPipelineOperator.execute.
  after_init w true (Some "job_name") h self tr stk files polls.
  destruct (init_result _ _ _ _ _ _ _ Hout) as [-> | (out & -> & Hb1 & Hb2 & _)];
    [split; reflexivity|].
  clear Hout.
  unfold init_trace, init_self, init_job_name.
  unfold download_events, cleanup_events, fetched, local_file, is_gcs.
  match goal with |- wp _ _ ?Q => set (Post := Q) end.
  destruct (is_dataflow_runner (runner self)) eqn:Hdf; simpl.
  - wp_go. wp_branch; wp_launch; state_leaf.
  - wp_go. wp_branch; wp_launch; state_leaf.
Qed.

Lemma go_execute_state (w : World) h self tr stk files polls :
  let s := mkState h self tr stk files polls in
  let i := BeamBasePipelineOperator._init_pipeline_options w true (Some "job_name") s in
  wp (BeamRunGoPipelineOperator.execute w) s
    (fun s' r =>
       match snd i with
       | Ok (_, _, out, _) =>
           let dir := temporary_directory w in
           let file := local_file w (go_file self) (Some dir) in
           st_heap s' = st_heap (fst i)
           /\ st_self s'
              = process_self w (is_dataflow_runner (runner self))
                  (fetched w (go_file self) (Some dir) (fun f => set_go_file f true)
                     (init_self w self))
           /\ st_trace s'
              = tr ++ init_trace self ++ go_download_events w (go_file self)
                   ++ launch_events w self
                        (fun callback =>
                           StartGoPipeline (heap_get (st_heap (fst i)) out) file callback
                             (if is_gcs (go_file self) then true
                              else should_init_go_module self))
                   ++ go_cleanup_events w (go_file self)
           /\ st_exit_stack s' = []
           /\ st_files s'
              = (if is_gcs (go_file self) then without_directory dir files else files)
           /\ st_polls s' = polls
           /\ r = go_launch_result w self
       | Raise e => s' = fst i /\ r = Raise e
       | Diverge => False
       end).
Proof.
  intros s i. subst s i. unfold BeamRunGoPipelineOperator.execute.
  after_init w true (Some "job_name") h self tr stk files polls.
  destruct (init_result _ _ _ _ _ _ _ Hout) as [-> | (out & -> & Hb1 & Hb2 & _)];
    [split; reflexivity|].
  clear Hout.
  unfold init_trace, init_self, init_job_name.
  unfold go_download_events, go_cleanup_events, fetched, local_file, is_gcs.
  match goal with |- wp _ _ ?Q => set (Post := Q) end.
  destruct (is_dataflow_runner (runner self)) eqn:Hdf; simpl.
  - wp_go. wp_branch; wp_launch; state_leaf.
  - wp_go. wp_branch; wp_launch; state_leaf.
Qed.

(** ** The key normalization *)

Lemma ascii_lower_not_upper (c : ascii) : is_upper (ascii_lower c) = false.
Proof. destruct c as [[] [] [] [] [] [] [] []]; reflexivity. Qed.

Lemma ascii_lower_fixed (c : ascii) : is_upper c = false -> ascii_lower c = c.
Proof. destruct c as [[] [] [] [] [] [] [] []]; (reflexivity || discriminate). Qed.

Lemma camel_to_snake_from_capital (first in_run : bool) (s : string) :
  has_capital (camel_to_snake_from first in_run s) = false.
Proof.
  revert first in_run.
  induction s as [|c s IH]; intros first in_run; [reflexivity|].
  unfold has_capital in *. simpl.
  destruct (is_upper c && negb first && negb in_run); simpl;
    now rewrite ascii_lower_not_upper, IH.
Qed.

Lemma camel_to_snake_from_fixed (first in_run : bool) (s : string) :
  has_capital s = false -> camel_to_snake_from first in_run s = s.
Proof.
  revert first in_run.
  induction s as [|c s IH]; intros first in_run; [reflexivity|].
  unfold has_capital in *. simpl. intros H.
  apply orb_false_iff in H. destruct H as [Hc Hs].
  rewrite Hc. simpl. now rewrite ascii_lower_fixed, IH.
Qed.

(** The dictionary comprehension of the normalization, for a dictionary
    with distinct keys. *)
Lemma normalization_spec (f : string -> string) (merged : dict) :
  List.NoDup (dict_keys merged) ->
  let snake := dict_comprehension f merged in
  (forall k', In k' (dict_keys snake) <-> exists k, In k (dict_keys merged) /\ k' = f k)
  /\ (forall k' v, dict_get k' snake = Some v -> exists k, In (k, v) merged /\ f k = k')
  /\ (forall k', dict_get k' snake = last_writer f k' merged)
  /\ (forall k v,
        dict_get k merged = Some v ->
        (forall k2, In k2 (dict_keys merged) -> f k2 = f k -> k2 = k) ->
        dict_get (f k) snake = Some v).
Proof.
  intros Hnd snake. unfold snake. rewrite (dict_comprehension_items _ _ Hnd).
  assert (Hget : forall k',
            dict_get k'
              (fold_left (fun acc kv => dict_set (f (fst kv)) (snd kv) acc) merged [])
            = last_writer f k' merged).
  { intros k'. rewrite fold_set_get. now destruct (last_writer _ k' merged). }
  split; [|split; [|split]].
  - intros k'. rewrite fold_set_keys. simpl. tauto.
  - intros k' v. rewrite Hget. apply last_writer_In.
  - exact Hget.
  - intros k v Hk Hinj. rewrite Hget. now apply last_writer_alone.
Qed.

Lemma init_formatted (w : World) (key : option string) (s : state) :
  let plain := BeamBasePipelineOperator._init_pipeline_options w false key s in
  BeamBasePipelineOperator._init_pipeline_options w true key s
  = match snd plain with
    | Ok (is_dataflow, name, out, callback) =>
        (set_heap
           (st_heap (fst plain)
            ++ [dict_comprehension (convert_camel_to_snake w)
                  (heap_get (st_heap (fst plain)) out)])
           (fst plain),
         Ok (is_dataflow, name, length (st_heap (fst plain)), callback))
    | Raise e => (fst plain, Raise e)
    | Diverge => (fst plain, Diverge)
    end.
Proof.
  destruct s as [h self tr stk files polls].
  unfold BeamBasePipelineOperator._init_pipeline_options.
  unfold bind, get_self, put_self, dict_copy, load, alloc, update, store, ret, emit.
  simpl.
  destruct (String.eqb (lower (runner self)) (lower DataflowRunner)).
  - destruct (BeamDataflowMixin._set_dataflow w (length h) key _) as [s1 [[[n o] c]|e|]];
      simpl; reflexivity.
  - simpl. reflexivity.
Qed.

(** The two ways of assembling the options, when they can be assembled. *)
Lemma init_plain_formatted (w : World) (key : option string) h self tr stk files polls :
  (is_dataflow_runner (runner self) = true ->
   key <> Some "labels" /\ labels_ok (heap_get h (default_pipeline_options self))) ->
  exists h' out,
    BeamBasePipelineOperator._init_pipeline_options w false key
      (mkState h self tr stk files polls)
    = (mkState h' (init_self w self) (tr ++ init_trace self) stk files polls,
       Ok (is_dataflow_runner (runner self), init_job_name w self, out,
           is_dataflow_runner (runner self)))
    /\ BeamBasePipelineOperator._init_pipeline_options w true key
         (mkState h self tr stk files polls)
       = (mkState (h' ++ [dict_comprehension (convert_camel_to_snake w) (heap_get h' out)])
            (init_self w self) (tr ++ init_trace self) stk files polls,
          Ok (is_dataflow_runner (runner self), init_job_name w self, length h',
              is_dataflow_runner (runner self)))
    /\ extends h h' /\ length h <= out /\ out < length h'
    /\ (heap_wf h -> heap_wf h')
    /\ (pipeline_options self < length h ->
        heap_wf h ->
        forall k v,
          dict_get k (heap_get h (pipeline_options self)) = Some v ->
          dict_get k (heap_get h' out) = Some v).
Proof.
  intros Hlab.
  pose proof (init_formatted w key (mkState h self tr stk files polls)) as Hf.
  pose proof (init_pipeline_options_spec w false key h self tr stk files polls) as H.
  unfold wp in H. cbv zeta in Hf.
  destruct (BeamBasePipelineOperator._init_pipeline_options w false key
              (mkState h self tr stk files polls)) as [s1 r1].
  simpl in H, Hf. destruct H as (h' & -> & Hout).
  destruct (init_result _ _ _ _ _ _ _ Hout) as [-> | (out & -> & Hb1 & Hb2 & Hm)].
  { exfalso. now apply (init_succeeds _ _ _ _ _ _ _ Hout). }
  exists h', out. rewrite Hf. simpl.
  repeat split; auto.
  - apply (init_extends _ _ _ _ _ _ _ Hout).
  - apply (init_wf _ _ _ _ _ _ _ Hout).
  - intros Hu Hwf k v Hk. destruct (Hm Hu Hwf) as (merged & Hget & _ & ->). auto.
Qed.

(** ** The claims *)

Lemma launched_app (t1 t2 : list event) : launched (t1 ++ t2) = launched t1 ++ launched t2.
Proof. apply flat_map_app. Qed.

Lemma launched_cons (e : event) (t : list event) :
  launched (e :: t) = launch_variables e ++ launched t.
Proof. reflexivity. Qed.

Lemma launched_repeat_query (name : string) (variables : dict) (n : nat) :
  launched (repeat (IsJobDataflowRunning name variables) n) = [].
Proof. induction n as [|n IH]; [reflexivity | exact IH]. Qed.

Ltac launched_events :=
  unfold init_trace, download_events, cleanup_events, go_download_events, go_cleanup_events,
    java_dataflow_events, launch_events, after_launch_events;
  repeat match goal with
         | |- context [if ?c then _ else _] => destruct c eqn:?
         end;
  repeat (rewrite launched_app || rewrite launched_cons || rewrite launched_repeat_query);
  simpl.

(** From [H : wp m s Q] to [Q s' r] with [(s', r)] the outcome of [m s]. *)
Ltac run_of H :=
  unfold wp in H;
  match type of H with
  | context [fst ?x] => destruct x as [? ?]
  end;
  simpl in H |- *.

(** The launches of the Python and Go operators are given the dictionary
    that [_init_pipeline_options] returns. *)
Lemma python_execute_launched (w : World) h self tr stk files polls :
  let s := mkState h self tr stk files polls in
  let i := BeamBasePipelineOperator._init_pipeline_options w true (Some "job_name") s in
  launched (st_trace (fst (BeamRunPythonPipelineOperator.execute w s)))
  = launched tr
    ++ match snd i with
       | Ok (_, _, out, _) => [heap_get (st_heap (fst i)) out]
       | _ => []
       end.
Proof.
  intros s i. subst s i.
  pose proof (python_execute_state w h self tr stk files polls) as H.
  pose proof (init_pipeline_options_spec w true (Some "job_name") h self tr stk files polls)
    as Hi.
  cbv zeta in H. unfold wp in H, Hi.
  destruct (BeamBasePipelineOperator._init_pipeline_options w true (Some "job_name")
              (mkState h self tr stk files polls)) as [s1 [[[[df name] out] cb]|e|]];
    simpl in H, Hi |- *; [| |contradiction].
  - destruct H as (_ & _ & -> & _). rewrite launched_app. f_equal.
    launched_events; reflexivity.
  - destruct H as [-> _]. destruct Hi as (h' & -> & _). simpl. now rewrite app_nil_r.
Qed.

Lemma go_execute_launched (w : World) h self tr stk files polls :
  let s := mkState h self tr stk files polls in
  let i := BeamBasePipelineOperator._init_pipeline_options w true (Some "job_name") s in
  launched (st_trace (fst (BeamRunGoPipelineOperator.execute w s)))
  = launched tr
    ++ match snd i with
       | Ok (_, _, out, _) => [heap_get (st_heap (fst i)) out]
       | _ => []
       end.
Proof.
  intros s i. subst s i.
  pose proof (go_execute_state w h self tr stk files polls) as H.
  pose proof (init_pipeline_options_spec w true (Some "job_name") h self tr stk files polls)
    as Hi.
  cbv zeta in H. unfold wp in H, Hi.
  destruct (BeamBasePipelineOperator._init_pipeline_options w true (Some "job_name")
              (mkState h self tr stk files polls)) as [s1 [[[[df name] out] cb]|e|]];
    simpl in H, Hi |- *; [| |contradiction].
  - destruct H as (_ & _ & -> & _). rewrite launched_app. f_equal.
    launched_events; reflexivity.
  - destruct H as [-> _]. destruct Hi as (h' & -> & _). simpl. now rewrite app_nil_r.
Qed.

(** C7.  The key normalization.  [_init_pipeline_options] asked to format
    the options, as the Python and Go operators ask it, returns a new
    dictionary, and the launch of the Python and of the Go operator is given
    that dictionary.  Its keys are the converted keys of the merged options,
    which are the options [_init_pipeline_options] returns when it is asked
    not to format, and are still there, unchanged; each key is bound to a
    value of the merged options, unchanged, under a key it converts from;
    where several keys have the same converted form, to the value of the
    last of them in iteration order; and a key that collides with no other
    keeps its value.  With [convert_camel_to_snake] as the spec describes
    it, no key of the result has a capital letter and a key without one
    stays as it is. *)
Theorem key_normalization_last_writer_wins (w : World) (s : state) :
  heap_wf (st_heap s) ->
  (is_dataflow_runner (runner (st_self s)) = true ->
   labels_ok (heap_get (st_heap s) (default_pipeline_options (st_self s)))) ->
  let convert := convert_camel_to_snake w in
  let plain := BeamBasePipelineOperator._init_pipeline_options w false (Some "job_name") s in
  let formatted :=
    BeamBasePipelineOperator._init_pipeline_options w true (Some "job_name") s in
  exists is_dataflow name out out',
    snd plain = Ok (is_dataflow, name, out, is_dataflow)
    /\ snd formatted = Ok (is_dataflow, name, out', is_dataflow)
    /\ let merged := heap_get (st_heap (fst plain)) out in
       let snake := heap_get (st_heap (fst formatted)) out' in
       heap_get (st_heap (fst formatted)) out = merged
       /\ (forall k',
             In k' (dict_keys snake)
             <-> exists k, In k (dict_keys merged) /\ k' = convert k)
       /\ (forall k' v,
             dict_get k' snake = Some v -> exists k, In (k, v) merged /\ convert k = k')
       /\ (forall k', dict_get k' snake = last_writer convert k' merged)
       /\ (forall k v,
             dict_get k merged = Some v ->
             (forall k2, In k2 (dict_keys merged) -> convert k2 = convert k -> k2 = k) ->
             dict_get (convert k) snake = Some v)
       /\ ((forall k, convert k = camel_to_snake k) ->
           (forall k', In k' (dict_keys snake) -> has_capital k' = false)
           /\ (forall k,
                 In k (dict_keys merged) -> has_capital k = false ->
                 In k (dict_keys snake)))
       /\ launched (st_trace (fst (BeamRunPythonPipelineOperator.execute w s)))
          = launched (st_trace s) ++ [snake]
       /\ launched (st_trace (fst (BeamRunGoPipelineOperator.execute w s)))
          = launched (st_trace s) ++ [snake].
Proof.
  destruct s as [h self tr stk files polls]. simpl. intros Hwf Hlab.
  destruct (init_plain_formatted w (Some "job_name") h self tr stk files polls)
    as (h' & out & Hplain & Hformatted & Hext & Hb1 & Hb2 & Hwf' & _).
  { intros Hdf. split; [discriminate | auto]. }
  pose proof (python_execute_launched w h self tr stk files polls) as Hpy.
  pose proof (go_execute_launched w h self tr stk files polls) as Hgo.
  cbv zeta in Hpy, Hgo. rewrite Hpy, Hgo, Hplain, Hformatted. simpl.
  exists (is_dataflow_runner (runner self)), (init_job_name w self), out, (length h').
  split; [reflexivity|]. split; [reflexivity|].
  rewrite heap_get_app_new, heap_get_app_l by exact Hb2.
  destruct (normalization_spec (convert_camel_to_snake w) (heap_get h' out))
    as (Hkeys & Hvalues & Hlast & Halone).
  { apply heap_get_wf. auto. }
  split; [reflexivity|].
  split; [exact Hkeys|]. split; [exact Hvalues|]. split; [exact Hlast|].
  split; [exact Halone|].
  split; [|split; reflexivity].
  intros Hconvert. split.
  - intros k' Hk'. apply Hkeys in Hk'. destruct Hk' as (k & _ & ->).
    rewrite Hconvert. apply camel_to_snake_from_capital.
  - intros k Hk Hcap. apply Hkeys. exists k. split; [exact Hk|].
    rewrite Hconvert. symmetry. now apply camel_to_snake_from_fixed.
Qed.

Lemma key_normalization_last_writer_wins_witness :
  launched (st_trace (fst (BeamRunPythonPipelineOperator.execute (example_world 0)
                             example_colliding_operator)))
  = [[("job_name", VStr "from-defaults-2"); ("max_num_workers", VStr "5");
      ("labels", VRef 2)]]
  /\ last_writer camel_to_snake "job_name"
       [("job_name", VStr "from-defaults-1"); ("jobName", VStr "from-defaults-2");
        ("maxNumWorkers", VStr "5"); ("labels", VRef 2)]
     = Some (VStr "from-defaults-2").
Proof.
  assert (Hwf : heap_wf (st_heap example_colliding_operator))
    by (apply distinct_heap_wf; reflexivity).
  destruct (key_normalization_last_writer_wins (example_world 0)
              example_colliding_operator Hwf)
    as (df & name & out & out' & Hplain & Hformatted & _ & _ & _ & Hlast & _ & _ & Hpy & _).
  { discriminate. }
  vm_compute in Hplain, Hformatted.
  injection Hplain as _ _ <-. injection Hformatted as _ _ <-.
  split.
  - rewrite Hpy. reflexivity.
  - etransitivity; [symmetry; exact (Hlast "job_name") | reflexivity].
Defined.

(** C8.  [on_kill] of each operator, called when no Dataflow hook was made or
    no job id is known, changes nothing and raises nothing; a call of
    [cancel_job] that it makes is for the job id the operator holds, with the
    hook present. *)
Theorem on_kill_cancels_only_a_known_job (s : state) (on_kill : M unit) :
  In on_kill
    [BeamRunPythonPipelineOperator.on_kill; BeamRunJavaPipelineOperator.on_kill;
     BeamRunGoPipelineOperator.on_kill] ->
  ((dataflow_hook (st_self s) = None \/ dataflow_job_id (st_self s) = None) ->
   on_kill s = (s, Ok tt))
  /\ (forall id project,
        In (CancelJob id project) (st_trace (fst (on_kill s))) ->
        ~ In (CancelJob id project) (st_trace s) ->
        dataflow_hook (st_self s) <> None /\ dataflow_job_id (st_self s) = Some id).
Proof.
  intros Hin.
  assert (Hbody : on_kill = BeamRunPythonPipelineOperator.on_kill).
  { simpl in Hin. destruct Hin as [<- | [<- | [<- | []]]]; reflexivity. }
  subst on_kill. clear Hin.
  destruct s as [h self tr stk files polls].
  unfold BeamRunPythonPipelineOperator.on_kill, bind, get_self, emit, cancel_job, ret.
  simpl.
  destruct (dataflow_hook self) as [hook|] eqn:Hhook.
  - destruct (dataflow_job_id self) as [id|] eqn:Hid.
    + unfold truthy. destruct (negb (String.eqb id "")); simpl.
      * split; [intros [H|H]; discriminate|].
        intros id' project Hin Hnot. split; [discriminate|].
        rewrite <- app_assoc in Hin. apply in_app_or in Hin.
        destruct Hin as [Hin | [Hin | [Hin | []]]]; [contradiction | discriminate |].
        now injection Hin as -> _.
      * split; [reflexivity|]. intros id' project Hin Hnot. contradiction.
    + split; [reflexivity|]. intros id' project Hin Hnot. contradiction.
  - split; [reflexivity|]. intros id' project Hin Hnot. contradiction.
Qed.

Lemma on_kill_cancels_only_a_known_job_witness :
  BeamRunGoPipelineOperator.on_kill (caller_state example_heap)
  = (caller_state example_heap, Ok tt).
Proof.
  apply (on_kill_cancels_only_a_known_job (caller_state example_heap)
           BeamRunGoPipelineOperator.on_kill).
  - simpl. tauto.
  - left. reflexivity.
Defined.

(** C9.  Assembling the options leaves every dictionary that existed before
    as it was: [_init_pipeline_options], and [execute] of each of the three
    operators, on Dataflow or not, only extend the heap they start from.  The
    caller's [default_pipeline_options] and the dictionaries nested in it are
    among the objects kept. *)
Theorem option_assembly_keeps_the_caller_s_dictionaries (w : World) (s : state) :
  (forall format key,
     extends (st_heap s)
       (st_heap (fst (BeamBasePipelineOperator._init_pipeline_options w format key s))))
  /\ extends (st_heap s) (st_heap (fst (BeamRunPythonPipelineOperator.execute w s)))
  /\ (forall fuel,
        extends (st_heap s) (st_heap (fst (BeamRunJavaPipelineOperator.execute w fuel s))))
  /\ extends (st_heap s) (st_heap (fst (BeamRunGoPipelineOperator.execute w s))).
Proof.
  destruct s as [h self tr stk files polls]. simpl.
  split; [|split; [|split]].
  - intros format key.
    pose proof (init_pipeline_options_spec w format key h self tr stk files polls) as H.
    run_of H. destruct H as (h' & -> & Hout). apply (init_extends _ _ _ _ _ _ _ Hout).
  - pose proof (python_execute_spec w h self tr stk files polls) as H.
    run_of H. apply H.
  - intros fuel. destruct (is_dataflow_runner (runner self)) eqn:Hdf.
    + pose proof (java_execute_dataflow w fuel h self tr stk files polls Hdf) as H.
      run_of H. apply H.
    + pose proof (java_execute_local w fuel h self tr stk files polls Hdf) as H.
      run_of H. apply H.
  - pose proof (go_execute_spec w h self tr stk files polls) as H.
    run_of H. apply H.
Qed.

(** The defaults with a nested dictionary: on Dataflow the label goes to a
    copy, and the caller's two dictionaries are as before. *)
Example defaults_with_labels_kept :
  let h := [[("labels", VRef 1)]; [("team", VStr "data")]; []] in
  let s := mkState h
             (mkOperator "DataflowRunner" 0 2 "google_cloud_default" None
                (example_config IgnoreJob) None None None true
                "" [] "" None false "app.jar" None "" false) [] [] [] 0 in
  let s' := fst (BeamRunJavaPipelineOperator.execute (example_world 0) 0 s) in
  firstn 3 (st_heap s') = h
  /\ In [("team", VStr "data"); ("airflow-version", VStr "v2-3-0")] (st_heap s').
Proof. vm_compute. split; [reflexivity|]. tauto. Qed.

(** C10, as amended.  The constructors of the Python and Go operators, for
    every runner: a [pipeline_options] dictionary of the caller that is not
    empty, and whose "labels" entry, if any, is a dictionary, is kept by the
    operator and changed in place, so that it has a "labels" entry holding
    the airflow-version label; a [pipeline_options] that is [None] or empty
    is replaced by a new dictionary, and nothing the caller has is changed. *)
Theorem constructors_label_the_caller_s_options (w : World) (file runner : string)
    (caller_defaults caller_options : option loc) (interpreter : string)
    (options requirements : option (list string)) (site_packages : bool)
    (gcp_conn_id : string) (delegate_to : option string)
    (config : option DataflowConfiguration) (s : state) :
  let python :=
    BeamRunPythonPipelineOperator.__init__ w file runner caller_defaults caller_options
      interpreter options requirements site_packages gcp_conn_id delegate_to config s in
  let go :=
    BeamRunGoPipelineOperator.__init__ w file runner caller_defaults caller_options
      gcp_conn_id delegate_to config s in
  labelled_in_place w (st_heap s) caller_options (fst python) (snd python)
  /\ labelled_in_place w (st_heap s) caller_options (fst go) (snd go).
Proof.
  destruct s as [h self tr stk files polls]. simpl. split.
  - apply python_init_spec.
  - apply go_init_spec.
Qed.

Lemma constructors_label_the_caller_s_options_witness :
  let s' :=
    fst (BeamRunPythonPipelineOperator.__init__ (example_world 0) "pipeline.py"
           "DirectRunner" (Some 0) (Some 1) "python3" None None false
           "google_cloud_default" None None (caller_state example_heap)) in
  pipeline_options (st_self s') = 1
  /\ exists l,
       dict_get "labels" (heap_get (st_heap s') 1) = Some (VRef l)
       /\ dict_get "airflow-version" (heap_get (st_heap s') l)
          = Some (version_label (example_world 0)).
Proof.
  apply (proj1 (proj1 (constructors_label_the_caller_s_options (example_world 0)
                         "pipeline.py" "DirectRunner" (Some 0) (Some 1) "python3" None None
                         false "google_cloud_default" None None
                         (caller_state example_heap))) 1).
  - reflexivity.
  - vm_compute. discriminate.
  - left. reflexivity.
Defined.

(** The caller passes an empty dictionary: it stays empty, and the operator
    holds another one. *)
Lemma empty_caller_options_stay_empty :
  let s' :=
    fst (BeamRunPythonPipelineOperator.__init__ (example_world 0) "pipeline.py"
           "DirectRunner" None (Some 0) "python3" None None false
           "google_cloud_default" None None (caller_state [[]])) in
  st_heap s' !! 0 = Some []
  /\ dict_get "labels" (heap_get (st_heap s') 0) = None
  /\ pipeline_options (st_self s') <> 0.
Proof. vm_compute. repeat split. discriminate. Qed.

(** ** Counting the calls of a run *)

Lemma count_nil (p : event -> bool) : count p [] = 0.
Proof. reflexivity. Qed.

Lemma count_cons (p : event -> bool) (e : event) (t : list event) :
  count p (e :: t) = (if p e then 1 else 0) + count p t.
Proof. unfold count. simpl. now destruct (p e). Qed.

Lemma count_repeat (p : event -> bool) (e : event) (n : nat) :
  count p (repeat e n) = if p e then n else 0.
Proof.
  induction n as [|n IH]; simpl.
  - now destruct (p e).
  - rewrite count_cons, IH. destruct (p e); lia.
Qed.

Ltac count_events :=
  unfold download_events, cleanup_events, go_download_events, go_cleanup_events,
    java_dataflow_events, launch_events, after_launch_events;
  repeat match goal with
         | |- context [if ?c then _ else _] => destruct c eqn:?
         end;
  repeat (rewrite count_app || rewrite count_cons || rewrite count_nil
          || rewrite count_repeat);
  simpl; try lia.

(** C5.  The Java operator on Dataflow with the policy [IgnoreJob] never asks
    whether the job runs: [is_job_dataflow_running] is not called, and, the
    options once assembled, the pipeline is launched. *)
Theorem java_ignore_job_asks_nothing (w : World) (fuel : nat) (s : state) :
  is_dataflow_runner (runner (st_self s)) = true ->
  check_if_running (dataflow_config (st_self s)) = IgnoreJob ->
  let run := BeamRunJavaPipelineOperator.execute w fuel s in
  st_polls (fst run) = st_polls s
  /\ count is_query (st_trace (fst run)) = count is_query (st_trace s)
  /\ (labels_ok (heap_get (st_heap s) (default_pipeline_options (st_self s))) ->
      count is_launch (st_trace (fst run)) = S (count is_launch (st_trace s))).
Proof.
  destruct s as [h self tr stk files polls]. simpl. intros Hdf Hpolicy.
  pose proof (java_execute_dataflow w fuel h self tr stk files polls Hdf) as H.
  run_of H. destruct H as [_ [(Hnot & -> & -> & _) | H]].
  { repeat split. intros Hlab. contradiction. }
  destruct H as (h' & out & n & check & _ & Hcheck & -> & -> & _).
  rewrite Hpolicy in Hcheck. destruct Hcheck as [-> ->].
  split; [lia|]. split; [|intros _]; rewrite count_app; count_events.
Qed.

Lemma java_ignore_job_asks_nothing_witness :
  let s := mkState example_heap
             (mkOperator "DataflowRunner" 0 1 "google_cloud_default" None
                (example_config IgnoreJob) None None None true
                "" [] "" None false "app.jar" None "" false) [] [] [] 0 in
  count is_query (st_trace (fst (BeamRunJavaPipelineOperator.execute (example_world 3) 0 s)))
  = 0.
Proof.
  apply (java_ignore_job_asks_nothing (example_world 3) 0
           (mkState example_heap
              (mkOperator "DataflowRunner" 0 1 "google_cloud_default" None
                 (example_config IgnoreJob) None None None true
                 "" [] "" None false "app.jar" None "" false) [] [] [] 0));
    reflexivity.
Defined.

(** C3.  The Java operator on Dataflow with the policy [FinishIfRunning],
    when the job is found running: nothing is launched and nothing awaited,
    the job was looked for once, and [execute] returns, with no job id. *)
Theorem java_finish_if_running_skips_the_launch (w : World) (fuel : nat) (s : state) :
  is_dataflow_runner (runner (st_self s)) = true ->
  check_if_running (dataflow_config (st_self s)) = FinishIfRunning ->
  running_answers w (st_polls s) = true ->
  labels_ok (heap_get (st_heap s) (default_pipeline_options (st_self s))) ->
  dataflow_job_id (st_self s) = None ->
  let run := BeamRunJavaPipelineOperator.execute w fuel s in
  snd run = Ok (JobId None)
  /\ count is_launch (st_trace (fst run)) = count is_launch (st_trace s)
  /\ count is_wait (st_trace (fst run)) = count is_wait (st_trace s)
  /\ count is_query (st_trace (fst run)) = S (count is_query (st_trace s)).
Proof.
  destruct s as [h self tr stk files polls]. simpl.
  intros Hdf Hpolicy Hrunning Hlab Hid.
  pose proof (java_execute_dataflow w fuel h self tr stk files polls Hdf) as H.
  run_of H. destruct H as [_ [(Hnot & _) | H]]; [contradiction|].
  destruct H as (h' & out & n & check & _ & Hcheck & -> & _ & ->).
  rewrite Hpolicy in Hcheck. destruct Hcheck as [-> ->]. rewrite Hrunning.
  unfold java_dataflow_result. rewrite Hid.
  split; [reflexivity|].
  repeat split; rewrite count_app; count_events.
Qed.

Lemma java_finish_if_running_skips_the_launch_witness :
  let s := mkState example_heap
             (mkOperator "DataflowRunner" 0 1 "google_cloud_default" None
                (example_config FinishIfRunning) None None None true
                "" [] "" None false "gs://bucket/app.jar" None "" false) [] [] [] 0 in
  snd (BeamRunJavaPipelineOperator.execute (example_world 1) 0 s) = Ok (JobId None).
Proof.
  apply (java_finish_if_running_skips_the_launch (example_world 1) 0
           (mkState example_heap
              (mkOperator "DataflowRunner" 0 1 "google_cloud_default" None
                 (example_config FinishIfRunning) None None None true
                 "" [] "" None false "gs://bucket/app.jar" None "" false) [] [] [] 0));
    try reflexivity.
  left. reflexivity.
Defined.

(** C4.  The Java operator on Dataflow with the policy [WaitForRun].  When
    the job is found running [m] times and then not running, and the loop is
    given [m] turns, the job is looked for [m + 1] times in a row, the launch
    comes after the last of them, and is the only one ([m = 1]: one turn of
    the loop before the launch).  When the job is found running every time,
    the loop uses up whatever number of turns it is given and nothing is
    launched: the code has no timeout of its own. *)
Theorem java_wait_for_run_polls_until_not_running (w : World) (fuel : nat) (s : state) :
  is_dataflow_runner (runner (st_self s)) = true ->
  check_if_running (dataflow_config (st_self s)) = WaitForRun ->
  labels_ok (heap_get (st_heap s) (default_pipeline_options (st_self s))) ->
  let run := BeamRunJavaPipelineOperator.execute w fuel s in
  (forall m,
     (forall i, i < m -> running_answers w (st_polls s + i) = true) ->
     running_answers w (st_polls s + m) = false ->
     m <= fuel ->
     st_polls (fst run) = st_polls s + S m
     /\ exists before after variables,
          st_trace (fst run)
          = st_trace s ++ before
              ++ repeat (IsJobDataflowRunning (job_name (dataflow_config (st_self s)))
                           variables) (S m)
              ++ after
          /\ count is_query before = 0 /\ count is_launch before = 0
          /\ count is_query after = 0 /\ count is_launch after = 1)
  /\ ((forall i, running_answers w (st_polls s + i) = true) ->
      snd run = Diverge
      /\ st_polls (fst run) = st_polls s + S fuel
      /\ count is_launch (st_trace (fst run)) = count is_launch (st_trace s)).
Proof.
  destruct s as [h self tr stk files polls]. simpl.
  intros Hdf Hpolicy Hlab.
  pose proof (java_execute_dataflow w fuel h self tr stk files polls Hdf) as H.
  run_of H. destruct H as [_ [(Hnot & _) | H]]; [contradiction|].
  destruct H as (h' & out & n & check & _ & Hcheck & -> & -> & ->).
  rewrite Hpolicy in Hcheck.
  destruct Hcheck as [(m' & -> & Hm' & -> & Hfalse & Htrue) | (-> & -> & Htrue)].
  - split.
    + intros m Hrun Hstop Hm.
      assert (m' = m) as ->.
      { destruct (Nat.lt_trichotomy m' m) as [Hlt | [Heq | Hgt]]; [|exact Heq|].
        - rewrite (Hrun m' Hlt) in Hfalse. discriminate.
        - rewrite (Htrue m Hgt) in Hstop. discriminate. }
      split; [reflexivity|].
      exists (Log "pipeline_options" :: download_events w (jar self)).
      eexists. exists (heap_get h' out).
      split.
      { unfold java_dataflow_events. simpl. rewrite <- !app_assoc. simpl. reflexivity. }
      repeat split; count_events.
    + intros Hrun. rewrite Hrun in Hfalse. discriminate.
  - split.
    + intros m Hrun Hstop Hm. rewrite (Htrue m Hm) in Hstop. discriminate.
    + intros _. split; [reflexivity|]. split; [reflexivity|].
      rewrite count_app. count_events.
Qed.

(** The job runs once, then not: two calls, then the launch. *)
Lemma java_wait_for_run_polls_until_not_running_witness :
  let s := mkState example_heap
             (mkOperator "DataflowRunner" 0 1 "google_cloud_default" None
                (example_config WaitForRun) None None None true
                "" [] "" None false "app.jar" None "" false) [] [] [] 0 in
  st_polls (fst (BeamRunJavaPipelineOperator.execute (example_world 1) 1 s)) = 2.
Proof.
  refine (proj1 (proj1
    (java_wait_for_run_polls_until_not_running (example_world 1) 1
       (mkState example_heap
          (mkOperator "DataflowRunner" 0 1 "google_cloud_default" None
             (example_config WaitForRun) None None None true
             "" [] "" None false "app.jar" None "" false) [] [] [] 0)
       _ _ _) 1 _ _ _)).
  - reflexivity.
  - reflexivity.
  - left. reflexivity.
  - intros i Hi. assert (i = 0) as -> by lia. reflexivity.
  - reflexivity.
  - lia.
Defined.

Example java_wait_for_run_scenario :
  let s := mkState example_heap
             (mkOperator "DataflowRunner" 0 1 "google_cloud_default" None
                (example_config WaitForRun) None None None true
                "" [] "" None false "app.jar" None "" false) [] [] [] 0 in
  map (fun e => (is_query e, is_launch e))
    (st_trace (fst (BeamRunJavaPipelineOperator.execute (example_world 1) 1 s)))
  = [(false, false); (true, false); (true, false); (false, false); (false, true);
     (false, false); (false, false); (false, false)].
Proof. reflexivity. Qed.

Lemma not_found_running_outcome (w : World) (policy : CheckJobRunning) (fuel polls n : nat)
    (check : result bool) :
  not_found_running w policy fuel polls ->
  duplicate_check_outcome w policy fuel polls n check ->
  check = Ok false.
Proof.
  unfold not_found_running, duplicate_check_outcome. destruct policy.
  - now intros _ [_ ->].
  - now intros -> [_ ->].
  - intros (m & Hm & Hfalse & _) [(m' & _ & _ & -> & _) | (_ & _ & Htrue)]; [reflexivity|].
    rewrite (Htrue m Hm) in Hfalse. discriminate.
Qed.

(** C6.  On Dataflow, after a launch that succeeds.  [execute] of the Python
    and of the Go operator, and [execute] of the Java operator when its
    duplicate check ends with the job not found running, launch the pipeline
    once and then call [wait_for_done] once when the job name that was built
    and the location of the configuration are both set, and not at all when
    one of them is missing; in that case [execute] of the Python and of the
    Java operator returns the job id found in the output of the launch, the
    job left running.  So does [execute] of the Go operator for a source
    that is not on GCS; for a source on GCS it raises [FileNotFoundError]
    instead, when it leaves the exit stack, since the downloaded file went
    with the temporary directory before the launch. *)
Theorem dataflow_job_awaited_when_named_and_located (w : World) (s : state) :
  is_dataflow_runner (runner (st_self s)) = true ->
  labels_ok (heap_get (st_heap s) (default_pipeline_options (st_self s))) ->
  launch_succeeds w = true ->
  let self := st_self s in
  let config := dataflow_config self in
  let name := build_dataflow_job_name w (job_name config) (append_job_name config) in
  let launches_and_awaits (run : state * result returned) :=
    count is_launch (st_trace (fst run)) = S (count is_launch (st_trace s))
    /\ count is_wait (st_trace (fst run))
       = count is_wait (st_trace s) + (if awaited name config then 1 else 0) in
  let returns_job_id (run : state * result returned) :=
    awaited name config = false ->
    snd run = Ok (JobId (discovered_job_id w (dataflow_job_id self))) in
  (launches_and_awaits (BeamRunPythonPipelineOperator.execute w s)
   /\ returns_job_id (BeamRunPythonPipelineOperator.execute w s))
  /\ (launches_and_awaits (BeamRunGoPipelineOperator.execute w s)
      /\ if is_gcs (go_file self)
         then snd (BeamRunGoPipelineOperator.execute w s) = Raise FileNotFoundError
         else returns_job_id (BeamRunGoPipelineOperator.execute w s))
  /\ (forall fuel,
        not_found_running w (check_if_running config) fuel (st_polls s) ->
        launches_and_awaits (BeamRunJavaPipelineOperator.execute w fuel s)
        /\ returns_job_id (BeamRunJavaPipelineOperator.execute w fuel s)).
Proof.
  destruct s as [h self tr stk files polls]. simpl.
  intros Hdf Hlab Hlaunch.
  split; [|split].
  - pose proof (python_execute_spec w h self tr stk files polls) as H.
    run_of H. destruct H as [_ [(_ & Hnot & _) | H]]; [contradiction|].
    destruct H as (h' & out & _ & -> & _ & ->).
    unfold launch_result. rewrite Hdf, Hlaunch.
    split; [split|].
    + rewrite count_app. unfold init_trace, launch_events. rewrite Hdf.
      unfold after_launch_events. rewrite Hlaunch. count_events.
    + rewrite count_app. unfold init_trace, launch_events. rewrite Hdf.
      unfold after_launch_events. rewrite Hlaunch. count_events.
    + intros ->. reflexivity.
  - pose proof (go_execute_spec w h self tr stk files polls) as H.
    run_of H. destruct H as [_ [(_ & Hnot & _) | H]]; [contradiction|].
    destruct H as (h' & out & _ & -> & _ & ->).
    unfold launch_result. rewrite Hdf, Hlaunch.
    split; [split|].
    + rewrite count_app. unfold init_trace, launch_events. rewrite Hdf.
      unfold after_launch_events. rewrite Hlaunch. count_events.
    + rewrite count_app. unfold init_trace, launch_events. rewrite Hdf.
      unfold after_launch_events. rewrite Hlaunch. count_events.
    + destruct (is_gcs (go_file self)); [reflexivity|]. intros ->. reflexivity.
  - intros fuel Hcheck.
    pose proof (java_execute_dataflow w fuel h self tr stk files polls Hdf) as H.
    run_of H. destruct H as [_ [(Hnot & _) | H]]; [contradiction|].
    destruct H as (h' & out & n & check & _ & Hn & -> & _ & ->).
    rewrite (not_found_running_outcome _ _ _ _ _ _ Hcheck Hn).
    unfold java_dataflow_result, java_dataflow_events. rewrite Hlaunch.
    split; [split|].
    + rewrite count_app. simpl. count_events.
    + rewrite count_app. simpl. count_events.
    + intros ->. reflexivity.
Qed.

Lemma dataflow_job_awaited_when_named_and_located_witness :
  let s := mkState example_heap
             (mkOperator "DataflowRunner" 0 1 "google_cloud_default" None
                (example_config FinishIfRunning) None None None true
                "pipeline.py" [] "python3" None false "app.jar" None "main.go" false)
             [] [] [] 0 in
  count is_wait (st_trace (fst (BeamRunPythonPipelineOperator.execute (example_world 0) s)))
  = 1
  /\ count is_wait (st_trace (fst (BeamRunGoPipelineOperator.execute (example_world 0) s)))
     = 1
  /\ count is_launch
       (st_trace (fst (BeamRunJavaPipelineOperator.execute (example_world 0) 0 s)))
     = 1
  /\ count is_wait
       (st_trace (fst (BeamRunJavaPipelineOperator.execute (example_world 0) 0 s)))
     = 1.
Proof.
  destruct (dataflow_job_awaited_when_named_and_located (example_world 0)
              (mkState example_heap
                 (mkOperator "DataflowRunner" 0 1 "google_cloud_default" None
                    (example_config FinishIfRunning) None None None true
                    "pipeline.py" [] "python3" None false "app.jar" None "main.go" false)
                 [] [] [] 0))
    as ([[_ Hpython] _] & [[_ Hgo] _] & Hjava).
  - reflexivity.
  - left. reflexivity.
  - reflexivity.
  - destruct (Hjava 0) as [[Hlaunch Hwait] _]; [reflexivity|].
    repeat split; assumption.
Defined.

(** The options that the launch of the Python and of the Go operator is
    given, against the options that [_init_pipeline_options] merges. *)
Lemma formatted_options_normalized (w : World) h self tr stk files polls :
  heap_wf h ->
  pipeline_options self < length h ->
  let s := mkState h self tr stk files polls in
  let plain := BeamBasePipelineOperator._init_pipeline_options w false (Some "job_name") s in
  let i := BeamBasePipelineOperator._init_pipeline_options w true (Some "job_name") s in
  let user := heap_get h (pipeline_options self) in
  exists vs,
    match snd i with
    | Ok (_, _, out, _) => [heap_get (st_heap (fst i)) out]
    | _ => []
    end = vs
    /\ Forall
         (fun variables =>
            exists is_dataflow job out callback,
              snd plain = Ok (is_dataflow, job, out, callback)
              /\ (forall k v,
                    dict_get k user = Some v ->
                    dict_get k (heap_get (st_heap (fst plain)) out) = Some v)
              /\ variables
                 = dict_comprehension (convert_camel_to_snake w)
                     (heap_get (st_heap (fst plain)) out)
              /\ (forall k v,
                    dict_get k user = Some v ->
                    (forall k2,
                       In k2 (dict_keys (heap_get (st_heap (fst plain)) out)) ->
                       convert_camel_to_snake w k2 = convert_camel_to_snake w k -> k2 = k) ->
                    dict_get (convert_camel_to_snake w k) variables = Some v))
         vs
    /\ ((is_dataflow_runner (runner self) = true ->
         labels_ok (heap_get h (default_pipeline_options self))) ->
        length vs = 1).
Proof.
  intros Hwf Huser s plain i user. subst s plain i user.
  rewrite init_formatted. cbv zeta.
  pose proof (init_pipeline_options_spec w false (Some "job_name") h self tr stk files polls)
    as H.
  unfold wp in H.
  destruct (BeamBasePipelineOperator._init_pipeline_options w false (Some "job_name")
              (mkState h self tr stk files polls)) as [s1 r1].
  simpl in H |- *. destruct H as (h' & -> & Hout).
  destruct (init_result _ _ _ _ _ _ _ Hout) as [-> | (out & -> & Hb1 & Hb2 & Hm)].
  - exists []. split; [reflexivity|]. split; [constructor|].
    intros Hlab. exfalso. apply (init_succeeds _ _ _ _ _ _ _ Hout); [|reflexivity].
    intros Hdf. split; [discriminate | auto].
  - destruct (Hm Huser Hwf) as (merged & Hget & Hnd & Hmerged).
    simpl. rewrite heap_get_app_new.
    eexists. split; [reflexivity|]. split; [|reflexivity].
    constructor; [|constructor].
    exists (is_dataflow_runner (runner self)), (init_job_name w self), out,
      (is_dataflow_runner (runner self)).
    split; [reflexivity|]. rewrite Hmerged.
    split; [exact Hget|]. split; [reflexivity|].
    intros k v Hk Hinj.
    apply (normalization_spec (convert_camel_to_snake w) merged Hnd); auto.
Qed.

(** C1, as amended.  In each launch the options handed over carry the user's
    [pipeline_options]: on the Java path every key of [pipeline_options] has
    the user's value, except that on Dataflow "jobName" is set, after the
    merge, to the job name that was built; on the Python and Go paths the
    options handed over are the merged options, in which every key of
    [pipeline_options] has the user's value, with their keys normalized, so
    that the user's value is under the normalized key when no other key of
    the merged options has the same normalized form.  The merged options
    are the dictionary that [_init_pipeline_options] builds, which it
    returns as it is when it is asked not to format. *)
Theorem user_overrides_reach_the_launch (w : World) (s : state) :
  heap_wf (st_heap s) ->
  pipeline_options (st_self s) < length (st_heap s) ->
  let self := st_self s in
  let user := heap_get (st_heap s) (pipeline_options self) in
  let name :=
    build_dataflow_job_name w (job_name (dataflow_config self))
      (append_job_name (dataflow_config self)) in
  let java_overrides (variables : dict) :=
    (forall k v,
       dict_get k user = Some v ->
       (is_dataflow_runner (runner self) = true -> k <> "jobName") ->
       dict_get k variables = Some v)
    /\ (is_dataflow_runner (runner self) = true ->
        dict_get "jobName" variables = Some (VStr name)) in
  let plain := BeamBasePipelineOperator._init_pipeline_options w false (Some "job_name") s in
  let normalized (variables : dict) :=
    exists is_dataflow job out callback,
      snd plain = Ok (is_dataflow, job, out, callback)
      /\ let merged := heap_get (st_heap (fst plain)) out in
         (forall k v, dict_get k user = Some v -> dict_get k merged = Some v)
         /\ variables = dict_comprehension (convert_camel_to_snake w) merged
         /\ (forall k v,
               dict_get k user = Some v ->
               (forall k2,
                  In k2 (dict_keys merged) ->
                  convert_camel_to_snake w k2 = convert_camel_to_snake w k -> k2 = k) ->
               dict_get (convert_camel_to_snake w k) variables = Some v) in
  let assembled :=
    is_dataflow_runner (runner self) = true ->
    labels_ok (heap_get (st_heap s) (default_pipeline_options self)) in
  (forall fuel,
     exists vs,
       launched (st_trace (fst (BeamRunJavaPipelineOperator.execute w fuel s)))
       = launched (st_trace s) ++ vs
       /\ Forall java_overrides vs
       /\ (is_dataflow_runner (runner self) = false -> length vs = 1))
  /\ (exists vs,
        launched (st_trace (fst (BeamRunPythonPipelineOperator.execute w s)))
        = launched (st_trace s) ++ vs
        /\ Forall normalized vs
        /\ (assembled -> length vs = 1))
  /\ (exists vs,
        launched (st_trace (fst (BeamRunGoPipelineOperator.execute w s)))
        = launched (st_trace s) ++ vs
        /\ Forall normalized vs
        /\ (assembled -> length vs = 1)).
Proof.
  destruct s as [h self tr stk files polls]. simpl. intros Hwf Huser.
  split; [|split].
  - intros fuel. destruct (is_dataflow_runner (runner self)) eqn:Hdf.
    + pose proof (java_execute_dataflow w fuel h self tr stk files polls Hdf) as H.
      run_of H. destruct H as [_ [(_ & -> & _) | H]].
      { exists []. rewrite app_nil_r. repeat split; [constructor | discriminate]. }
      destruct H as (h' & out & n & check & Hov & _ & -> & _ & _).
      destruct (Hov Huser Hwf) as [Hm Hnd].
      rewrite launched_app. eexists. split; [reflexivity|].
      split; [|discriminate].
      destruct check as [[|]|e|]; launched_events; repeat constructor;
        first [ intros k v Hk Hne;
                rewrite dict_get_set_ne by (intros <-; now apply Hne); now apply Hm
              | intros _; apply dict_get_set_eq ].
    + pose proof (java_execute_local w fuel h self tr stk files polls Hdf) as H.
      run_of H. destruct H as [_ (h' & out & Hov & -> & _)].
      destruct (Hov Huser Hwf) as [Hm Hnd].
      rewrite launched_app. eexists. split; [reflexivity|].
      split; launched_events; repeat constructor; auto; discriminate.
  - pose proof (python_execute_launched w h self tr stk files polls) as H.
    cbv zeta in H. rewrite H.
    destruct (formatted_options_normalized w h self tr stk files polls Hwf Huser)
      as (vs & -> & Hvs & Hlen).
    exists vs. split; [reflexivity|]. split; [exact Hvs | exact Hlen].
  - pose proof (go_execute_launched w h self tr stk files polls) as H.
    cbv zeta in H. rewrite H.
    destruct (formatted_options_normalized w h self tr stk files polls Hwf Huser)
      as (vs & -> & Hvs & Hlen).
    exists vs. split; [reflexivity|]. split; [exact Hvs | exact Hlen].
Qed.

(** The user sets "jobName": the Python operator launches with the user's
    value under "job_name", no other key of the merged options having that
    snake-case form. *)
Lemma user_overrides_reach_the_launch_witness :
  exists variables,
    launched (st_trace (fst (BeamRunPythonPipelineOperator.execute (example_world 0)
                               example_python_operator)))
    = launched (st_trace example_python_operator) ++ [variables]
    /\ dict_get "job_name" variables = Some (VStr "mine").
Proof.
  assert (Hwf : heap_wf (st_heap example_python_operator))
    by (apply distinct_heap_wf; reflexivity).
  assert (Huser : pipeline_options (st_self example_python_operator)
                  < length (st_heap example_python_operator))
    by (vm_compute; lia).
  destruct (proj1 (proj2 (user_overrides_reach_the_launch (example_world 0)
                            example_python_operator Hwf Huser)))
    as (vs & Hvs & Hall & Hlen).
  assert (Hone : length vs = 1) by (apply Hlen; discriminate).
  destruct vs as [|variables [|? ?]]; [discriminate | | discriminate].
  exists variables. split; [exact Hvs|].
  destruct (Forall_inv Hall) as (df & job & out & cb & Hplain & _ & _ & Halone).
  vm_compute in Hplain. injection Hplain as _ _ <- _.
  apply (Halone "jobName" (VStr "mine") eq_refl).
  intros k2 Hk2 Hsame. vm_compute in Hk2.
  destruct Hk2 as [<- | [<- | [<- | []]]];
    [vm_compute in Hsame; discriminate | reflexivity | vm_compute in Hsame; discriminate].
Defined.

(** The user sets "jobName"; the Java operator on Dataflow launches with the
    job name it built. *)
Lemma user_job_name_replaced_on_java_dataflow :
  let user :=
    heap_get (st_heap example_java_operator)
      (pipeline_options (st_self example_java_operator)) in
  let run := BeamRunJavaPipelineOperator.execute (example_world 0) 0 example_java_operator in
  launched (st_trace (fst run))
  = [[("tempLocation", VStr "gs://bucket/tmp"); ("project", VStr "example-project");
      ("region", VStr "us-central1"); ("labels", VRef 6); ("jobName", VStr "etl-job")]]
  /\ ~ (forall k v,
          dict_get k user = Some v ->
          Forall (fun variables => dict_get k variables = Some v)
            (launched (st_trace (fst run)))).
Proof.
  split; [reflexivity|].
  intros H. specialize (H "jobName" (VStr "mine") eq_refl).
  vm_compute in H. inversion H as [|? ? Hhead _]. discriminate.
Qed.

(** On the Python path a key of the defaults that comes later in the merged
    options and has the same snake-case form takes the place of the user's. *)
Example user_option_lost_to_a_collision :
  let h := [[("job_name", VStr "from-defaults-1"); ("jobName", VStr "from-defaults-2")];
            [("job_name", VStr "mine"); ("labels", VRef 2)]; []] in
  let s := mkState h
             (mkOperator "DirectRunner" 0 1 "google_cloud_default" None
                (example_config IgnoreJob) None None None true
                "pipeline.py" [] "python3" None false "" None "" false) [] [] [] 0 in
  launched (st_trace (fst (BeamRunPythonPipelineOperator.execute (example_world 0) s)))
  = [[("job_name", VStr "from-defaults-2"); ("labels", VRef 2)]].
Proof. reflexivity. Qed.

(** The Go operator with its source on GCS: the temporary directory is made,
    the source is downloaded into it, and the directory is left, and so
    removed with the file in it, before the pipeline is launched on that
    file. *)
Lemma go_temporary_directory_left_before_the_launch (w : World) (s : state) :
  is_gcs (go_file (st_self s)) = true ->
  (is_dataflow_runner (runner (st_self s)) = true ->
   labels_ok (heap_get (st_heap s) (default_pipeline_options (st_self s)))) ->
  exists before after variables callback,
    st_trace (fst (BeamRunGoPipelineOperator.execute w s))
    = before ++ TemporaryDirectoryExit (temporary_directory w) :: after
    /\ In (StartGoPipeline variables
             (temporary_directory w ++ "/"
              ++ temporary_file w (go_file (st_self s)) (Some (temporary_directory w)))%string
             callback true)
         after.
Proof.
  destruct s as [h self tr stk files polls]. simpl. intros Hgcs Hlab.
  pose proof (go_execute_spec w h self tr stk files polls) as H.
  run_of H. destruct H as [_ [(Hdf & Hnot & _) | H]]; [exfalso; auto|].
  destruct H as (h' & out & _ & -> & _).
  unfold go_download_events, go_cleanup_events, local_file. rewrite Hgcs.
  exists (tr ++ init_trace self
            ++ [TemporaryDirectoryEnter (temporary_directory w);
                ProvideFileEnter (go_file self) (Some (temporary_directory w))
                  (temporary_directory w ++ "/"
                   ++ temporary_file w (go_file self) (Some (temporary_directory w)))%string]).
  eexists. exists (heap_get h' out), (is_dataflow_runner (runner self)).
  split.
  - rewrite <- !app_assoc. simpl. reflexivity.
  - unfold launch_events.
    destruct (is_dataflow_runner (runner self)); simpl; tauto.
Qed.

(** C2.  The claim is that a Go source downloaded from GCS is deleted, with
    its temporary directory, only after the launched process has ended.  The
    code does otherwise: in the run of [execute] for the source
    gs://bucket/main.go the temporary directory is left, and removed with the
    downloaded file, before [start_go_pipeline] is called on that file. *)
Theorem go_source_removed_before_the_launch :
  st_trace (fst (BeamRunGoPipelineOperator.execute (example_world 0) example_go_operator))
  = st_trace example_go_operator
    ++ [TemporaryDirectoryEnter "/tmp/apache-beam-go0";
        ProvideFileEnter "gs://bucket/main.go" (Some "/tmp/apache-beam-go0")
          "/tmp/apache-beam-go0/tmp-artifact";
        TemporaryDirectoryExit "/tmp/apache-beam-go0";
        StartGoPipeline [("temp_location", VStr "gs://bucket/tmp"); ("labels", VRef 3)]
          "/tmp/apache-beam-go0/tmp-artifact" false true;
        ProvideFileExit "/tmp/apache-beam-go0/tmp-artifact"].
Proof. reflexivity. Qed.

(** ** Further properties of the operators *)

Lemma java_execute_dataflow_state (w : World) (fuel : nat) h self tr stk files polls :
  is_dataflow_runner (runner self) = true ->
  let s := mkState h self tr stk files polls in
  let i := BeamBasePipelineOperator._init_pipeline_options w false None s in
  wp (BeamRunJavaPipelineOperator.execute w fuel) s
    (fun s' r =>
       match snd i with
       | Ok (_, _, out, _) =>
           let config := dataflow_config self in
           let name := build_dataflow_job_name w (job_name config) (append_job_name config) in
           let variables := heap_get (st_heap (fst i)) out in
           let file := local_file w (jar self) None in
           let fetched_self := fetched w (jar self) None set_jar (init_self w self) in
           exists n check,
             duplicate_check_outcome w (check_if_running config) fuel polls n check
             /\ st_heap s'
                = match check with
                  | Ok false => <[out := dict_set "jobName" (VStr name) variables]> (st_heap (fst i))
                  | _ => st_heap (fst i)
                  end
             /\ st_self s'
                = match check with
                  | Ok false => process_self w true fetched_self
                  | _ => fetched_self
                  end
             /\ st_trace s'
                = tr ++ Log "pipeline_options" :: download_events w (jar self)
                     ++ java_dataflow_events w self variables file n check
                     ++ match check with
                        | Diverge => []
                        | _ => cleanup_events w (jar self)
                        end
             /\ st_exit_stack s'
                = match check with
                  | Diverge => if is_gcs (jar self) then [file] else []
                  | _ => []
                  end
             /\ st_files s'
                = (if is_gcs (jar self)
                   then match check with
                        | Diverge => file :: files
                        | _ => without_file file files
                        end
                   else files)
             /\ st_polls s' = polls + n
             /\ r = java_dataflow_result w self check
       | Raise e => s' = fst i /\ r = Raise e
       | Diverge => False
       end).
Proof.
  intros Hdf s i. subst s i. unfold BeamRunJavaPipelineOperator.execute.
  after_init w false (@None string) h self tr stk files polls.
  destruct (init_result _ _ _ _ _ _ _ Hout) as [-> | (out & -> & Hb1 & Hb2 & _)];
    [split; reflexivity|].
  clear Hout.
  unfold init_trace, init_self, init_job_name. rewrite Hdf. simpl.
  unfold download_events, cleanup_events, fetched, local_file, is_gcs.
  assert (Hcheck : forall n e,
            ~ duplicate_check_outcome w (check_if_running (dataflow_config self)) fuel polls
                n (Raise e)).
  { intros n e. unfold duplicate_check_outcome.
    destruct (check_if_running (dataflow_config self));
      [intros [_ H] | intros [_ H] | intros [(m & _ & _ & H & _) | (_ & H & _)]];
      discriminate. }
  match goal with |- wp _ _ ?Q => set (Post := Q) end.
  wp_go. wp_branch.
  - wp_go. apply wp_duplicate_check; [reflexivity | reflexivity |].
    intros n check Hn. simpl.
    destruct check as [[|]|e|]; simpl.
    + wp_all; unfold Post; exists n, (Ok true : result bool); state_eqs; assumption.
    + wp_go. rewrite heap_get_insert_eq by assumption.
      wp_all; unfold Post; exists n, (Ok false : result bool); state_eqs; assumption.

    + destruct (Hcheck _ _ Hn).
    + unfold Post; exists n, (Diverge : result bool); state_eqs; assumption.
  - wp_go. apply wp_duplicate_check; [reflexivity | reflexivity |].
    intros n check Hn. simpl.
    destruct check as [[|]|e|]; simpl.
    + wp_all; unfold Post; exists n, (Ok true : result bool); state_eqs; assumption.
    + wp_go. rewrite heap_get_insert_eq by assumption.
      wp_all; unfold Post; exists n, (Ok false : result bool); state_eqs; assumption.
    + destruct (Hcheck _ _ Hn).
    + unfold Post; exists n, (Diverge : result bool); state_eqs; assumption.
Qed.

Lemma java_execute_local_state (w : World) (fuel : nat) h self tr stk files polls :
  is_dataflow_runner (runner self) = false ->
  let s := mkState h self tr stk files polls in
  let i := BeamBasePipelineOperator._init_pipeline_options w false None s in
  wp (BeamRunJavaPipelineOperator.execute w fuel) s
    (fun s' r =>
       match snd i with
       | Ok (_, _, out, _) =>
           let file := local_file w (jar self) None in
           st_heap s' = st_heap (fst i)
           /\ st_self s' = fetched w (jar self) None set_jar (init_self w self)
           /\ st_trace s'
              = tr ++ download_events w (jar self)
                   ++ [StartJavaPipeline (heap_get (st_heap (fst i)) out) file
                         (job_class self) false]
                   ++ cleanup_events w (jar self)
           /\ st_exit_stack s' = []
           /\ st_files s' = (if is_gcs (jar self) then without_file file files else files)
           /\ st_polls s' = polls
           /\ r = (if launch_succeeds w then Ok Nothing
                   else Raise (AirflowException "Apache Beam process failed"))
       | Raise e => s' = fst i /\ r = Raise e
       | Diverge => False
       end).
Proof.
  intros Hdf s i. subst s i. unfold BeamRunJavaPipelineOperator.execute.
  after_init w false (@None string) h self tr stk files polls.
  destruct (init_result _ _ _ _ _ _ _ Hout) as [-> | (out & -> & Hb1 & Hb2 & _)];
    [split; reflexivity|].
  clear Hout.
  unfold init_trace, init_self, init_job_name. rewrite Hdf. simpl.
  unfold download_events, cleanup_events, fetched, local_file, is_gcs.
  match goal with |- wp _ _ ?Q => set (Post := Q) end.
  wp_go. wp_branch; wp_launch; state_leaf.
Qed.

(** What [_init_pipeline_options] leaves when the options can be assembled. *)
Lemma init_run (w : World) (format : bool) (key : option string) h self tr stk files polls :
  (is_dataflow_runner (runner self) = true ->
   key <> Some "labels" /\ labels_ok (heap_get h (default_pipeline_options self))) ->
  exists h' out,
    BeamBasePipelineOperator._init_pipeline_options w format key
      (mkState h self tr stk files polls)
    = (mkState h' (init_self w self) (tr ++ init_trace self) stk files polls,
       Ok (is_dataflow_runner (runner self), init_job_name w self, out,
           is_dataflow_runner (runner self)))
    /\ extends h h' /\ length h <= out /\ out < length h'.
Proof.
  intros Hlab.
  pose proof (init_pipeline_options_spec w format key h self tr stk files polls) as H.
  unfold wp in H.
  destruct (BeamBasePipelineOperator._init_pipeline_options w format key
              (mkState h self tr stk files polls)) as [s1 r1].
  simpl in H. destruct H as (h' & -> & Hout).
  destruct (init_result _ _ _ _ _ _ _ Hout) as [-> | (out & -> & Hb1 & Hb2 & _)].
  - exfalso. now apply (init_succeeds _ _ _ _ _ _ _ Hout).
  - exists h', out. repeat split; auto. apply (init_extends _ _ _ _ _ _ _ Hout).
Qed.

Ltac run_with state_lemma Hinit :=
  let H := fresh "H" in
  pose proof state_lemma as H; cbv zeta in H; unfold wp in H;
  let h' := fresh "h'" in
  let out := fresh "out" in
  let Ei := fresh "Ei" in
  let Hext := fresh "Hext" in
  let Hb1 := fresh "Hb1" in
  let Hb2 := fresh "Hb2" in
  destruct Hinit as (h' & out & Ei & Hext & Hb1 & Hb2);
  rewrite Ei in H; simpl in H.

Lemma fetched_frame (w : World) (file : string) (dir : option string)
    (rebind : string -> operator -> operator) (o : operator) (A : Type)
    (field : operator -> A) :
  (forall f o', field (rebind f o') = field o') ->
  field (fetched w file dir rebind o) = field o.
Proof. intros Hf. unfold fetched. destruct (is_gcs file); auto. Qed.

Lemma local_init (w : World) (format : bool) (key : option string)
    h self tr stk files polls :
  is_dataflow_runner (runner self) = false ->
  exists h' out,
    BeamBasePipelineOperator._init_pipeline_options w format key
      (mkState h self tr stk files polls)
    = (mkState h' (init_self w self) (tr ++ init_trace self) stk files polls,
       Ok (is_dataflow_runner (runner self), init_job_name w self, out,
           is_dataflow_runner (runner self)))
    /\ extends h h' /\ length h <= out /\ out < length h'.
Proof. intros Hdf. apply init_run. intros H. congruence. Qed.

(** X1.  On a runner other than Dataflow, [execute] of each of the three
    operators launches the pipeline once and does nothing that concerns
    Dataflow: beside the launch its calls only fetch and remove the artifact;
    the job is never looked for, whatever the policy of the configuration;
    no Dataflow hook is made, the configuration and the job id are as
    before.  [execute] returns [None] when the launch succeeds and raises
    the error of the launch otherwise; the Go operator does so for a source
    that is not on GCS, and for a source on GCS raises [FileNotFoundError]
    when it leaves the exit stack. *)
Theorem local_runners_only_launch (w : World) (s : state) :
  is_dataflow_runner (runner (st_self s)) = false ->
  let local (run : state * result returned) :=
    (exists before launch after,
       st_trace (fst run) = st_trace s ++ before ++ launch :: after
       /\ is_launch launch = true
       /\ forallb is_artifact (before ++ after) = true)
    /\ st_polls (fst run) = st_polls s
    /\ dataflow_hook (st_self (fst run)) = dataflow_hook (st_self s)
    /\ dataflow_config (st_self (fst run)) = dataflow_config (st_self s)
    /\ dataflow_job_id (st_self (fst run)) = dataflow_job_id (st_self s) in
  let launched_only :=
    if launch_succeeds w then Ok Nothing
    else Raise (AirflowException "Apache Beam process failed") in
  (local (BeamRunPythonPipelineOperator.execute w s)
   /\ snd (BeamRunPythonPipelineOperator.execute w s) = launched_only)
  /\ (local (BeamRunGoPipelineOperator.execute w s)
      /\ snd (BeamRunGoPipelineOperator.execute w s)
         = if is_gcs (go_file (st_self s)) then Raise FileNotFoundError else launched_only)
  /\ (forall fuel,
        local (BeamRunJavaPipelineOperator.execute w fuel s)
        /\ snd (BeamRunJavaPipelineOperator.execute w fuel s) = launched_only).
Proof.
  destruct s as [h self tr stk files polls]. simpl. intros Hdf.
  assert (Hself : dataflow_hook (init_self w self) = dataflow_hook self
                  /\ dataflow_config (init_self w self) = dataflow_config self
                  /\ dataflow_job_id (init_self w self) = dataflow_job_id self).
  { unfold init_self. rewrite Hdf. repeat split. }
  destruct Hself as (Hs1 & Hs2 & Hs3).
  split; [|split].
  - run_with (python_execute_state w h self tr stk files polls)
      (local_init w true (Some "job_name") h self tr stk files polls Hdf).
    destruct H as (_ & Hself & Htrace & _ & _ & Hpolls & Hres).
    rewrite Hself, Htrace, Hpolls, Hres.
    unfold process_self, launch_result, launch_events, init_trace. rewrite Hdf.
    rewrite !fetched_frame by reflexivity.
    repeat split; auto.
    eexists (download_events w (py_file self)), _, (cleanup_events w (py_file self)).
    split; [reflexivity|]. split; [reflexivity|].
    unfold download_events, cleanup_events. destruct (is_gcs _); reflexivity.
  - run_with (go_execute_state w h self tr stk files polls)
      (local_init w true (Some "job_name") h self tr stk files polls Hdf).
    destruct H as (_ & Hself & Htrace & _ & _ & Hpolls & Hres).
    rewrite Hself, Htrace, Hpolls, Hres.
    unfold go_launch_result, process_self, launch_result, launch_events, init_trace.
    rewrite Hdf.
    rewrite !fetched_frame by reflexivity.
    repeat split; auto.
    eexists (go_download_events w (go_file self)), _, (go_cleanup_events w (go_file self)).
    split; [reflexivity|]. split; [reflexivity|].
    unfold go_download_events, go_cleanup_events. destruct (is_gcs _); reflexivity.
  - intros fuel.
    run_with (java_execute_local_state w fuel h self tr stk files polls Hdf)
      (local_init w false (@None string) h self tr stk files polls Hdf).
    destruct H as (_ & Hself & Htrace & _ & _ & Hpolls & Hres).
    rewrite Hself, Htrace, Hpolls, Hres.
    rewrite !fetched_frame by reflexivity.
    repeat split; auto.
    eexists (download_events w (jar self)), _, (cleanup_events w (jar self)).
    split; [reflexivity|]. split; [reflexivity|].
    unfold download_events, cleanup_events. destruct (is_gcs _); reflexivity.
Qed.

Lemma dataflow_init (w : World) (format : bool) (key : option string)
    h self tr stk files polls :
  key <> Some "labels" ->
  labels_ok (heap_get h (default_pipeline_options self)) ->
  exists h' out,
    BeamBasePipelineOperator._init_pipeline_options w format key
      (mkState h self tr stk files polls)
    = (mkState h' (init_self w self) (tr ++ init_trace self) stk files polls,
       Ok (is_dataflow_runner (runner self), init_job_name w self, out,
           is_dataflow_runner (runner self)))
    /\ extends h h' /\ length h <= out /\ out < length h'.
Proof. intros Hk Hlab. apply init_run. auto. Qed.

Ltac events :=
  unfold init_trace, download_events, cleanup_events, go_download_events, go_cleanup_events,
    java_dataflow_events, launch_events, after_launch_events;
  rewrite_conditions;
  repeat match goal with
         | |- context [if ?c then _ else _] => destruct c eqn:?
         end;
  simpl.

(** X2.  The Java operator on Dataflow with the policy [FinishIfRunning],
    when the job is not found running: the job is looked for once, under the
    name of the configuration, and the pipeline is then launched, once. *)
Theorem java_finish_if_running_launches_an_idle_job (w : World) (fuel : nat) (s : state) :
  is_dataflow_runner (runner (st_self s)) = true ->
  check_if_running (dataflow_config (st_self s)) = FinishIfRunning ->
  running_answers w (st_polls s) = false ->
  labels_ok (heap_get (st_heap s) (default_pipeline_options (st_self s))) ->
  let run := BeamRunJavaPipelineOperator.execute w fuel s in
  st_polls (fst run) = S (st_polls s)
  /\ exists before variables after,
       st_trace (fst run)
       = st_trace s ++ before
           ++ IsJobDataflowRunning (job_name (dataflow_config (st_self s))) variables :: after
       /\ count is_query before = 0 /\ count is_launch before = 0
       /\ count is_query after = 0 /\ count is_launch after = 1.
Proof.
  destruct s as [h self tr stk files polls]. simpl.
  intros Hdf Hpolicy Hidle Hlab.
  run_with (java_execute_dataflow_state w fuel h self tr stk files polls Hdf)
    (dataflow_init w false (@None string) h self tr stk files polls
       ltac:(discriminate) Hlab).
  destruct H as (n & check & Hcheck & _ & _ & Htrace & _ & _ & Hpolls & _).
  rewrite Hpolicy in Hcheck. destruct Hcheck as [-> ->]. rewrite Hidle in Htrace.
  rewrite Htrace, Hpolls. split; [lia|].
  exists (Log "pipeline_options" :: download_events w (jar self)), (heap_get h' out).
  eexists. split.
  { unfold java_dataflow_events. simpl. rewrite <- ?app_assoc. simpl. reflexivity. }
  repeat split; count_events.
Qed.

(** X3.  The Java operator on Dataflow looks for a running job under
    [dataflow_config.job_name], the name as configured and not the name built
    for the launch, and with the options that [_init_pipeline_options]
    returned, as they are before "jobName" is set; each call of
    [is_job_dataflow_running] of a run has these arguments, and a launch of
    the run is given the same options with "jobName" set to the built
    name. *)
Theorem java_duplicate_check_asks_for_the_configured_name (w : World) (fuel : nat)
    (s : state) :
  is_dataflow_runner (runner (st_self s)) = true ->
  labels_ok (heap_get (st_heap s) (default_pipeline_options (st_self s))) ->
  let config := dataflow_config (st_self s) in
  let name := build_dataflow_job_name w (job_name config) (append_job_name config) in
  let options := BeamBasePipelineOperator._init_pipeline_options w false None s in
  let run := BeamRunJavaPipelineOperator.execute w fuel s in
  exists is_dataflow job out callback new,
    snd options = Ok (is_dataflow, job, out, callback)
    /\ let variables := heap_get (st_heap (fst options)) out in
       st_trace (fst run) = st_trace s ++ new
       /\ List.filter is_query new
          = repeat (IsJobDataflowRunning (job_name config) variables)
              (st_polls (fst run) - st_polls s)
       /\ Forall
            (fun launched_with => launched_with = dict_set "jobName" (VStr name) variables)
            (launched new).
Proof.
  destruct s as [h self tr stk files polls]. simpl.
  intros Hdf Hlab.
  pose proof (java_execute_dataflow_state w fuel h self tr stk files polls Hdf) as H.
  cbv zeta in H. unfold wp in H.
  destruct (dataflow_init w false (@None string) h self tr stk files polls)
    as (h' & out & Ei & Hext & Hb1 & Hb2); [discriminate | exact Hlab |].
  rewrite Ei in H |- *. simpl in H |- *.
  destruct H as (n & check & _ & _ & _ & Htrace & _ & _ & Hpolls & _).
  rewrite Htrace, Hpolls.
  exists (is_dataflow_runner (runner self)), (init_job_name w self), out,
    (is_dataflow_runner (runner self)).
  eexists. split; [reflexivity|]. split; [reflexivity|].
  replace (polls + n - polls) with n by lia.
  assert (Hq : forall e k, List.filter is_query (repeat (IsJobDataflowRunning e (heap_get h' out)) k)
                           = repeat (IsJobDataflowRunning e (heap_get h' out)) k).
  { intros e k. induction k as [|k IH]; simpl; [reflexivity | now rewrite IH]. }
  split.
  - unfold java_dataflow_events. simpl.
    rewrite !List.filter_app, Hq.
    destruct check as [[|]|e|]; events; rewrite ?app_nil_r; reflexivity.
  - unfold java_dataflow_events.
    destruct check as [[|]|e|]; launched_events; repeat constructor.
Qed.


(** X5.  [DataflowJobLink.persist] on Dataflow.  The Python and Go
    operators persist the link once after a launch that succeeds, whether or
    not the job is then awaited, and not at all after a launch that fails;
    the Java operator persists it only when it also awaits the job.  The
    link holds the project of the configuration, or the hook's when the
    configuration has none, the location, and the job id found in the output
    of the launch. *)
Theorem dataflow_job_link_persisted (w : World) (s : state) :
  is_dataflow_runner (runner (st_self s)) = true ->
  labels_ok (heap_get (st_heap s) (default_pipeline_options (st_self s))) ->
  let config := dataflow_config (st_self s) in
  let link :=
    PersistLink (or_else (project_id config) (hook_project_id w)) (location config)
      (discovered_job_id w (dataflow_job_id (st_self s))) in
  let after_each_launch (run : state * result returned) :=
    exists new,
      st_trace (fst run) = st_trace s ++ new
      /\ List.filter is_persist new = if launch_succeeds w then [link] else [] in
  after_each_launch (BeamRunPythonPipelineOperator.execute w s)
  /\ after_each_launch (BeamRunGoPipelineOperator.execute w s)
  /\ (forall fuel,
        exists new,
          st_trace (fst (BeamRunJavaPipelineOperator.execute w fuel s)) = st_trace s ++ new
          /\ List.filter is_persist new = repeat link (count is_wait new)).
Proof.
  destruct s as [h self tr stk files polls]. simpl.
  intros Hdf Hlab.
  split; [|split].
  - run_with (python_execute_state w h self tr stk files polls)
      (dataflow_init w true (Some "job_name") h self tr stk files polls
         ltac:(discriminate) Hlab).
    destruct H as (_ & _ & Htrace & _).
    rewrite Htrace. eexists. split; [reflexivity|]. events; reflexivity.
  - run_with (go_execute_state w h self tr stk files polls)
      (dataflow_init w true (Some "job_name") h self tr stk files polls
         ltac:(discriminate) Hlab).
    destruct H as (_ & _ & Htrace & _).
    rewrite Htrace. eexists. split; [reflexivity|]. events; reflexivity.
  - intros fuel.
    run_with (java_execute_dataflow_state w fuel h self tr stk files polls Hdf)
      (dataflow_init w false (@None string) h self tr stk files polls
         ltac:(discriminate) Hlab).
    destruct H as (n & check & _ & _ & _ & Htrace & _).
    rewrite Htrace. eexists. split; [reflexivity|].
    assert (Hq : forall e v k,
              List.filter is_persist (repeat (IsJobDataflowRunning e v) k) = []).
    { intros e v k. induction k as [|k IH]; simpl; [reflexivity | exact IH]. }
    unfold java_dataflow_events. cbn [List.filter is_persist].
    rewrite count_cons, !List.filter_app, Hq, !count_app, count_repeat.
    cbn [is_wait Nat.add app].
    destruct check as [[|]|e|]; events; reflexivity.
Qed.

(** X6.  [wait_for_done] on Dataflow is called at most once, for the job
    name that was built, the location of the configuration, the job id found
    in the output of the launch, and the project of the configuration or of
    the hook.  The Python and Go operators pass [multiple_jobs=False]
    whatever the configuration says; the Java operator passes the
    configuration's [multiple_jobs], [None] counting as [False]. *)
Theorem dataflow_wait_is_for_the_launched_job (w : World) (s : state) :
  is_dataflow_runner (runner (st_self s)) = true ->
  labels_ok (heap_get (st_heap s) (default_pipeline_options (st_self s))) ->
  let config := dataflow_config (st_self s) in
  let wait (multiple : bool) :=
    WaitForDone (build_dataflow_job_name w (job_name config) (append_job_name config))
      (location config) (discovered_job_id w (dataflow_job_id (st_self s))) multiple
      (or_else (project_id config) (hook_project_id w)) in
  let awaits (multiple : bool) (run : state * result returned) :=
    exists new,
      st_trace (fst run) = st_trace s ++ new
      /\ List.filter is_wait new = repeat (wait multiple) (count is_wait new)
      /\ count is_wait new <= 1 in
  awaits false (BeamRunPythonPipelineOperator.execute w s)
  /\ awaits false (BeamRunGoPipelineOperator.execute w s)
  /\ (forall fuel,
        awaits match multiple_jobs config with
               | Some true => true
               | _ => false
               end
          (BeamRunJavaPipelineOperator.execute w fuel s)).
Proof.
  destruct s as [h self tr stk files polls]. simpl.
  intros Hdf Hlab.
  split; [|split].
  - run_with (python_execute_state w h self tr stk files polls)
      (dataflow_init w true (Some "job_name") h self tr stk files polls
         ltac:(discriminate) Hlab).
    destruct H as (_ & _ & Htrace & _).
    rewrite Htrace. eexists. split; [reflexivity|].
    events; split; (reflexivity || (cbv; lia)).
  - run_with (go_execute_state w h self tr stk files polls)
      (dataflow_init w true (Some "job_name") h self tr stk files polls
         ltac:(discriminate) Hlab).
    destruct H as (_ & _ & Htrace & _).
    rewrite Htrace. eexists. split; [reflexivity|].
    events; split; (reflexivity || (cbv; lia)).
  - intros fuel.
    run_with (java_execute_dataflow_state w fuel h self tr stk files polls Hdf)
      (dataflow_init w false (@None string) h self tr stk files polls
         ltac:(discriminate) Hlab).
    destruct H as (n & check & _ & _ & _ & Htrace & _).
    rewrite Htrace. eexists. split; [reflexivity|].
    assert (Hq : forall e v k,
              List.filter is_wait (repeat (IsJobDataflowRunning e v) k) = []).
    { intros e v k. induction k as [|k IH]; simpl; [reflexivity | exact IH]. }
    unfold java_dataflow_events, java_multiple_jobs. cbn [List.filter is_wait].
    rewrite count_cons, !List.filter_app, Hq, !count_app, count_repeat.
    cbn [is_wait Nat.add app].
    destruct check as [[|]|e|]; events; split; (reflexivity || (cbv; lia)).
Qed.

Lemma process_self_frame (w : World) (callback : bool) (o : operator) (A : Type)
    (field : operator -> A) :
  (forall j o', field (set_dataflow_job_id j o') = field o') ->
  field (process_self w callback o) = field o.
Proof.
  intros Hf. unfold process_self. destruct callback; [|reflexivity].
  revert o. induction (launch_job_ids w) as [|id ids IH]; intros o; simpl; [reflexivity|].
  now rewrite IH, Hf.
Qed.

Lemma init_self_frame (w : World) (o : operator) (A : Type) (field : operator -> A) :
  (forall b o', field (set_beam_hook b o') = field o') ->
  (forall k o', field (set_dataflow_hook k o') = field o') ->
  (forall c o', field (set_dataflow_config c o') = field o') ->
  field (init_self w o) = field o.
Proof.
  intros H1 H2 H3. unfold init_self, dataflow_self.
  destruct (is_dataflow_runner (runner o)); now rewrite ?H3, ?H2, ?H1.
Qed.

(** X7.  The Python file and the jar.  When the artifact is on GCS (its
    name starts with gs://, in any case of letters) it is downloaded to a
    temporary file before anything is launched, a launch is given the
    temporary file, and the file is removed as the last step of [execute],
    whether the launch and the wait succeeded or raised; [self.py_file]
    (or [self.jar]) is left bound to the name of the removed file.  When the
    artifact is local nothing is downloaded or removed and the launch is
    given the artifact itself.  In both cases no context is left on the exit
    stack.  (For the Java operator: when [execute] ends.) *)
Theorem downloaded_artifact_removed_after_the_launch (w : World) (s : state) :
  (is_dataflow_runner (runner (st_self s)) = true ->
   labels_ok (heap_get (st_heap s) (default_pipeline_options (st_self s)))) ->
  let lifecycle (file : string) (attribute : operator -> string)
      (run : state * result returned) :=
    let name := temporary_file w file None in
    (is_gcs file = true ->
     (exists before during,
        st_trace (fst run)
        = st_trace s ++ before ++ ProvideFileEnter file None name :: during
            ++ [ProvideFileExit name]
        /\ count is_launch before = 0
        /\ Forall (fun e => is_launch e = true -> launch_file e = Some name) during)
     /\ attribute (st_self (fst run)) = name
     /\ st_files (fst run) = without_file name (st_files s))
    /\ (is_gcs file = false ->
        (exists new,
           st_trace (fst run) = st_trace s ++ new
           /\ count is_artifact new = 0
           /\ Forall (fun e => is_launch e = true -> launch_file e = Some file) new)
        /\ attribute (st_self (fst run)) = file
        /\ st_files (fst run) = st_files s)
    /\ st_exit_stack (fst run) = [] in
  lifecycle (py_file (st_self s)) py_file (BeamRunPythonPipelineOperator.execute w s)
  /\ (forall fuel,
        snd (BeamRunJavaPipelineOperator.execute w fuel s) <> Diverge ->
        lifecycle (jar (st_self s)) jar (BeamRunJavaPipelineOperator.execute w fuel s)).
Proof.
  destruct s as [h self tr stk files polls]. simpl. intros Hlab.
  assert (Hinit : forall format key, key <> Some "labels" ->
            exists h' out,
              BeamBasePipelineOperator._init_pipeline_options w format key
                (mkState h self tr stk files polls)
              = (mkState h' (init_self w self) (tr ++ init_trace self) stk files polls,
                 Ok (is_dataflow_runner (runner self), init_job_name w self, out,
                     is_dataflow_runner (runner self)))
              /\ extends h h' /\ length h <= out /\ out < length h').
  { intros format key Hk. apply init_run. auto. }
  split.
  - run_with (python_execute_state w h self tr stk files polls)
      (Hinit true (Some "job_name") ltac:(discriminate)).
    destruct H as (_ & Hself & Htrace & Hstack & Hfiles & _).
    rewrite Hself, Htrace, Hstack, Hfiles.
    rewrite process_self_frame by reflexivity.
    unfold fetched, download_events, cleanup_events, local_file.
    split; [|split; [|reflexivity]]; intros Hgcs; rewrite Hgcs.
    + split; [|split; reflexivity].
      exists (init_trace self),
        (launch_events w self
           (StartPythonPipeline (heap_get h' out) (temporary_file w (py_file self) None)
              (py_options self) (py_interpreter self) (py_requirements self)
              (py_system_site_packages self))).
      split; [reflexivity|].
      split; [unfold init_trace; destruct (is_dataflow_runner _); reflexivity|].
      events; repeat constructor; intros; try discriminate; reflexivity.
    + split; [|split; [|reflexivity]].
      2: apply (init_self_frame w self string py_file); reflexivity.
      eexists. split; [reflexivity|].
      split; events; repeat constructor; intros; try discriminate; reflexivity.
  - intros fuel. destruct (is_dataflow_runner (runner self)) eqn:Hdf.
    + run_with (java_execute_dataflow_state w fuel h self tr stk files polls Hdf)
        (Hinit false (@None string) ltac:(discriminate)).
      destruct H as (n & check & _ & _ & Hself & Htrace & Hstack & Hfiles & _ & Hres).
      rewrite Hself, Htrace, Hstack, Hfiles, Hres.
      intros Hend.
      assert (Hcheck : check <> Diverge) by (intros ->; now apply Hend).
      clear Hend.
      assert (Hq : forall (file : string) e v k,
                Forall (fun e => is_launch e = true -> launch_file e = Some file)
                  (repeat (IsJobDataflowRunning e v) k)).
      { intros file e v k. induction k; constructor; auto. discriminate. }
      assert (Hattr : jar match check with
                          | Ok false =>
                              process_self w true
                                (fetched w (jar self) None set_jar (init_self w self))
                          | _ => fetched w (jar self) None set_jar (init_self w self)
                          end
                      = jar (fetched w (jar self) None set_jar (init_self w self))).
      { destruct check as [[|]|e|]; try reflexivity.
        apply (process_self_frame w true _ string jar). reflexivity. }
      rewrite Hattr. clear Hattr.
      unfold fetched, download_events, cleanup_events, local_file.
      split; [|split]; [intros Hgcs; rewrite Hgcs .. |].
      * split; [|split].
        -- exists [Log "pipeline_options"],
             (java_dataflow_events w self (heap_get h' out)
                (temporary_file w (jar self) None) n check).
           split; [|split; [reflexivity|]].
           { destruct check as [[|]|e|]; [| | |congruence]; reflexivity. }
           unfold java_dataflow_events.
           apply Forall_app. split; [apply Hq|].
           destruct check as [[|]|e|]; events; repeat constructor;
             intros; try discriminate; reflexivity.
        -- reflexivity.
        -- destruct check as [[|]|e|]; [| | |congruence]; reflexivity.
      * split; [|split].
        -- eexists. split; [reflexivity|].
           assert (Hq' : forall e v k, count is_artifact (repeat (IsJobDataflowRunning e v) k) = 0).
           { intros e v k. now rewrite count_repeat. }
           unfold java_dataflow_events.
           split.
           ++ rewrite count_cons, !count_app, Hq'. cbn [is_artifact].
              destruct check as [[|]|e|]; events; reflexivity.
           ++ constructor; [discriminate|]. simpl.
              rewrite ?Forall_app. repeat split; try apply Hq;
                destruct check as [[|]|e|]; events; repeat constructor;
                intros; try discriminate; reflexivity.
        -- apply (init_self_frame w self string jar); reflexivity.
        -- reflexivity.
      * destruct check as [[|]|e|]; [| | |congruence]; reflexivity.
    + run_with (java_execute_local_state w fuel h self tr stk files polls Hdf)
        (Hinit false (@None string) ltac:(discriminate)).
      destruct H as (_ & Hself & Htrace & Hstack & Hfiles & _).
      rewrite Hself, Htrace, Hstack, Hfiles. intros _.
      unfold fetched, download_events, cleanup_events, local_file.
      split; [|split; [|reflexivity]]; intros Hgcs; rewrite Hgcs.
      * split; [|split; reflexivity].
        exists [],
          [StartJavaPipeline (heap_get h' out) (temporary_file w (jar self) None)
             (job_class self) false].
        split; [reflexivity|].
        split; [reflexivity|].
        repeat constructor; intros; try discriminate; reflexivity.
      * split; [|split; [|reflexivity]].
        2: apply (init_self_frame w self string jar); reflexivity.
        eexists. split; [reflexivity|].
        split; [reflexivity|]. repeat constructor; intros; try discriminate; reflexivity.
Qed.

Lemma discovered_job_id_last (w : World) (ids : list string) (id : string)
    (before : option string) :
  launch_job_ids w = ids ++ [id] -> discovered_job_id w before = Some id.
Proof.
  intros E. unfold discovered_job_id. rewrite E, fold_left_app. reflexivity.
Qed.

Lemma discovered_job_id_none (w : World) (before : option string) :
  launch_job_ids w = [] -> discovered_job_id w before = before.
Proof. intros E. unfold discovered_job_id. now rewrite E. Qed.

Lemma truthy_nonempty (id : string) : id <> "" -> truthy (Some id) = true.
Proof.
  intros Hid. unfold truthy. apply negb_true_iff. now apply String.eqb_neq.
Qed.

Ltac on_kill_run Hhook Hid Hne :=
  unfold bind, get_self, emit, cancel_job; simpl;
  rewrite Hhook, Hid, (truthy_nonempty _ Hne); simpl;
  rewrite <- app_assoc; reflexivity.

Lemma on_kill_cancels (s : state) (hook : DataflowHook) (id : string) :
  dataflow_hook (st_self s) = Some hook ->
  dataflow_job_id (st_self s) = Some id ->
  id <> "" ->
  let cancelled (on_kill : M unit) :=
    st_trace (fst (on_kill s))
    = st_trace s ++ [Log "Dataflow job was requested to be cancelled.";
                     CancelJob id (project_id (dataflow_config (st_self s)))] in
  cancelled BeamRunPythonPipelineOperator.on_kill
  /\ cancelled BeamRunJavaPipelineOperator.on_kill
  /\ cancelled BeamRunGoPipelineOperator.on_kill.
Proof.
  intros Hhook Hid Hne. simpl. split; [|split].
  - unfold BeamRunPythonPipelineOperator.on_kill. on_kill_run Hhook Hid Hne.
  - unfold BeamRunJavaPipelineOperator.on_kill. on_kill_run Hhook Hid Hne.
  - unfold BeamRunGoPipelineOperator.on_kill. on_kill_run Hhook Hid Hne.
Qed.

Lemma dataflow_init_self (w : World) (self : operator) :
  is_dataflow_runner (runner self) = true ->
  dataflow_hook (init_self w self) <> None
  /\ project_id (dataflow_config (init_self w self))
     = or_else (project_id (dataflow_config self)) (hook_project_id w).
Proof. intros Hdf. unfold init_self. rewrite Hdf. split; [discriminate | reflexivity]. Qed.

(** X8.  [on_kill] after [execute] on Dataflow: when the output of the
    launch gave a job id, the last one [id] not empty, [on_kill] logs and
    calls [cancel_job] for [id] in the project that [execute] resolved (the
    configuration's, or the hook's), also when the launch or the wait
    raised.  For the Java operator this is so when the pipeline was
    launched: its duplicate check ended with the job not found running. *)
Theorem on_kill_after_execute_cancels_the_launched_job (w : World) (s : state)
    (ids : list string) (id : string) :
  is_dataflow_runner (runner (st_self s)) = true ->
  labels_ok (heap_get (st_heap s) (default_pipeline_options (st_self s))) ->
  launch_job_ids w = ids ++ [id] ->
  id <> "" ->
  let cancel :=
    [Log "Dataflow job was requested to be cancelled.";
     CancelJob id (or_else (project_id (dataflow_config (st_self s))) (hook_project_id w))] in
  let cancelled (run : state * result returned) (on_kill : M unit) :=
    st_trace (fst (on_kill (fst run))) = st_trace (fst run) ++ cancel in
  cancelled (BeamRunPythonPipelineOperator.execute w s) BeamRunPythonPipelineOperator.on_kill
  /\ cancelled (BeamRunGoPipelineOperator.execute w s) BeamRunGoPipelineOperator.on_kill
  /\ (forall fuel,
        not_found_running w (check_if_running (dataflow_config (st_self s))) fuel
          (st_polls s) ->
        cancelled (BeamRunJavaPipelineOperator.execute w fuel s)
          BeamRunJavaPipelineOperator.on_kill).
Proof.
  destruct s as [h self tr stk files polls]. simpl.
  intros Hdf Hlab Hids Hid.
  destruct (dataflow_init_self w self Hdf) as [Hhook Hproject].
  destruct (dataflow_hook (init_self w self)) as [hook|] eqn:Ehook; [|congruence].
  clear Hhook.
  assert (Hafter : forall (rebind : string -> operator -> operator) file dir s1,
            (forall f o, dataflow_hook (rebind f o) = dataflow_hook o) ->
            (forall f o, dataflow_config (rebind f o) = dataflow_config o) ->
            (forall f o, dataflow_job_id (rebind f o) = dataflow_job_id o) ->
            st_self s1 = process_self w true (fetched w file dir rebind (init_self w self)) ->
            dataflow_hook (st_self s1) = Some hook
            /\ dataflow_job_id (st_self s1) = Some id
            /\ project_id (dataflow_config (st_self s1))
               = or_else (project_id (dataflow_config self)) (hook_project_id w)).
  { intros rebind file dir s1 H1 H2 H3 ->.
    rewrite process_self_job_id, process_self_config.
    rewrite (process_self_frame w true _ _ dataflow_hook) by reflexivity.
    rewrite (fetched_frame w file dir rebind _ _ dataflow_hook) by assumption.
    rewrite (fetched_frame w file dir rebind _ _ dataflow_config) by assumption.
    rewrite (discovered_job_id_last w ids id _ Hids). auto. }
  split; [|split].
  - run_with (python_execute_state w h self tr stk files polls)
      (dataflow_init w true (Some "job_name") h self tr stk files polls
         ltac:(discriminate) Hlab).
    destruct H as (_ & Hself & _). rewrite Hdf in Hself.
    destruct (Hafter set_py_file _ _ _ ltac:(reflexivity) ltac:(reflexivity)
                ltac:(reflexivity) Hself) as (H1 & H2 & H3).
    rewrite <- H3. apply (on_kill_cancels _ hook id H1 H2 Hid).
  - run_with (go_execute_state w h self tr stk files polls)
      (dataflow_init w true (Some "job_name") h self tr stk files polls
         ltac:(discriminate) Hlab).
    destruct H as (_ & Hself & _). rewrite Hdf in Hself.
    destruct (Hafter (fun f => set_go_file f true) _ _ _ ltac:(reflexivity)
                ltac:(reflexivity) ltac:(reflexivity) Hself) as (H1 & H2 & H3).
    rewrite <- H3. apply (on_kill_cancels _ hook id H1 H2 Hid).
  - intros fuel Hlaunch.
    run_with (java_execute_dataflow_state w fuel h self tr stk files polls Hdf)
      (dataflow_init w false (@None string) h self tr stk files polls
         ltac:(discriminate) Hlab).
    destruct H as (n & check & Hcheck & _ & Hself & _).
    rewrite (not_found_running_outcome _ _ _ _ _ _ Hlaunch Hcheck) in Hself.
    destruct (Hafter set_jar _ _ _ ltac:(reflexivity) ltac:(reflexivity)
                ltac:(reflexivity) Hself) as (H1 & H2 & H3).
    rewrite <- H3. apply (on_kill_cancels _ hook id H1 H2 Hid).
Qed.

(** X9.  [_init_pipeline_options] always leaves a Beam hook for the
    operator's runner in [self.beam_hook], also when it raises; so the test
    [if not self.beam_hook] of the three [execute] methods never succeeds:
    ["Beam hook is not defined."] is never raised. *)
Theorem beam_hook_is_never_missing (w : World) (s : state) :
  (forall format key,
     beam_hook (st_self (fst (BeamBasePipelineOperator._init_pipeline_options w format key s)))
     = Some (mkBeamHook (runner (st_self s))))
  /\ (let defined (run : state * result returned) :=
        snd run <> Raise (AirflowException "Beam hook is not defined.") in
      defined (BeamRunPythonPipelineOperator.execute w s)
      /\ defined (BeamRunGoPipelineOperator.execute w s)
      /\ (forall fuel, defined (BeamRunJavaPipelineOperator.execute w fuel s))).
Proof.
  destruct s as [h self tr stk files polls]. simpl.
  assert (Hinit : forall format key,
            let i := BeamBasePipelineOperator._init_pipeline_options w format key
                       (mkState h self tr stk files polls) in
            st_self (fst i) = init_self w self
            /\ (snd i = Raise AttributeError \/ exists a, snd i = Ok a)).
  { intros format key.
    pose proof (init_pipeline_options_spec w format key h self tr stk files polls) as H.
    unfold wp in H. cbv zeta.
    destruct (BeamBasePipelineOperator._init_pipeline_options w format key _) as [s1 r1].
    simpl in *. destruct H as (h' & -> & Hout). split; [reflexivity|].
    destruct (init_result _ _ _ _ _ _ _ Hout) as [-> | (out & -> & _)]; eauto. }
  assert (Hlaunch : launch_result w self <> Raise (AirflowException "Beam hook is not defined.")).
  { unfold launch_result.
    repeat match goal with |- context [if ?c then _ else _] => destruct c end;
      discriminate. }
  assert (Hjava : forall check,
            java_dataflow_result w self check
            <> Raise (AirflowException "Beam hook is not defined.") \/
            exists e, check = Raise e).
  { intros check. unfold java_dataflow_result.
    destruct check as [[|]|e|]; [left | left | right; eauto | left]; try discriminate.
    repeat match goal with |- context [if ?c then _ else _] => destruct c end;
      discriminate. }
  split; [|split; [|split]].
  - intros format key. destruct (Hinit format key) as [-> _].
    unfold init_self, dataflow_self. now destruct (is_dataflow_runner (runner self)).
  - pose proof (python_execute_state w h self tr stk files polls) as H.
    cbv zeta in H. unfold wp in H.
    destruct (Hinit true (Some "job_name")) as [_ [Hr | [[[[df name] out] cb] Hr]]];
      rewrite Hr in H.
    + destruct H as [_ ->]. discriminate.
    + destruct H as (_ & _ & _ & _ & _ & _ & ->). exact Hlaunch.
  - pose proof (go_execute_state w h self tr stk files polls) as H.
    cbv zeta in H. unfold wp in H.
    destruct (Hinit true (Some "job_name")) as [_ [Hr | [[[[df name] out] cb] Hr]]];
      rewrite Hr in H.
    + destruct H as [_ ->]. discriminate.
    + destruct H as (_ & _ & _ & _ & _ & _ & ->). unfold go_launch_result.
      destruct (is_gcs (go_file self)); [discriminate | exact Hlaunch].
  - intros fuel. destruct (is_dataflow_runner (runner self)) eqn:Hdf.
    + pose proof (java_execute_dataflow_state w fuel h self tr stk files polls Hdf) as H.
      cbv zeta in H. unfold wp in H.
      destruct (Hinit false (@None string)) as [_ [Hr | [[[[df name] out] cb] Hr]]];
        rewrite Hr in H.
      * destruct H as [_ ->]. discriminate.
      * destruct H as (n & check & Hcheck & _ & _ & _ & _ & _ & _ & ->).
        destruct (Hjava check) as [Hok | [e ->]]; [exact Hok|].
        exfalso. unfold duplicate_check_outcome in Hcheck.
        destruct (check_if_running (dataflow_config self));
          [destruct Hcheck as [_ Hc] | destruct Hcheck as [_ Hc]
          | destruct Hcheck as [(m & _ & _ & Hc & _) | (_ & Hc & _)]];
          discriminate.
    + pose proof (java_execute_local_state w fuel h self tr stk files polls Hdf) as H.
      cbv zeta in H. unfold wp in H.
      destruct (Hinit false (@None string)) as [_ [Hr | [[[[df name] out] cb] Hr]]];
        rewrite Hr in H.
      * destruct H as [_ ->]. discriminate.
      * destruct H as (_ & _ & _ & _ & _ & _ & ->).
        destruct (launch_succeeds w); discriminate.
Qed.

Lemma local_runners_only_launch_witness :
  snd (BeamRunPythonPipelineOperator.execute (example_world 0) example_python_operator)
  = Ok Nothing.
Proof.
  exact (proj2 (proj1 (local_runners_only_launch (example_world 0) example_python_operator
                         eq_refl))).
Defined.

Lemma java_finish_if_running_launches_an_idle_job_witness :
  st_polls (fst (BeamRunJavaPipelineOperator.execute (example_world 0) 0
                   (example_dataflow_operator FinishIfRunning))) = 1.
Proof.
  apply (java_finish_if_running_launches_an_idle_job (example_world 0) 0
           (example_dataflow_operator FinishIfRunning));
    try reflexivity.
  left. reflexivity.
Defined.

Lemma java_duplicate_check_asks_for_the_configured_name_witness :
  List.filter is_query
    (st_trace (fst (BeamRunJavaPipelineOperator.execute (example_world 2) 5
                      (example_dataflow_operator WaitForRun))))
  = repeat
      (IsJobDataflowRunning "etl-job"
         [("tempLocation", VStr "gs://bucket/tmp"); ("project", VStr "example-project");
          ("region", VStr "us-central1"); ("labels", VRef 6); ("jobName", VStr "mine")])
      3.
Proof.
  destruct (java_duplicate_check_asks_for_the_configured_name (example_world 2) 5
              (example_dataflow_operator WaitForRun) eq_refl (or_introl eq_refl))
    as (df & job & out & cb & new & Hoptions & Htrace & Hqueries & _).
  vm_compute in Hoptions. injection Hoptions as _ _ <- _.
  rewrite Htrace. exact Hqueries.
Defined.


Lemma dataflow_job_link_persisted_witness :
  exists new,
    st_trace (fst (BeamRunGoPipelineOperator.execute (example_world 0)
                     (example_dataflow_operator IgnoreJob))) = new
    /\ List.filter is_persist new
       = [PersistLink (Some "example-project") (Some "us-central1")
            (Some "2024-01-01_00_00_00-123")].
Proof.
  destruct (proj1 (proj2 (dataflow_job_link_persisted (example_world 0)
                            (example_dataflow_operator IgnoreJob) eq_refl
                            (or_introl eq_refl))))
    as (new & H1 & H2).
  exists new. split; [exact H1 | exact H2].
Defined.

Lemma dataflow_wait_is_for_the_launched_job_witness :
  exists new,
    st_trace (fst (BeamRunJavaPipelineOperator.execute (example_world 0) 0
                     (example_dataflow_operator IgnoreJob))) = new
    /\ count is_wait new <= 1.
Proof.
  destruct (proj2 (proj2 (dataflow_wait_is_for_the_launched_job (example_world 0)
                            (example_dataflow_operator IgnoreJob) eq_refl
                            (or_introl eq_refl))) 0)
    as (new & H1 & _ & H3).
  exists new. split; [exact H1 | exact H3].
Defined.

Lemma downloaded_artifact_removed_after_the_launch_witness :
  st_files (fst (BeamRunPythonPipelineOperator.execute (example_world 0)
                   (example_dataflow_operator IgnoreJob))) = []
  /\ py_file (st_self (fst (BeamRunPythonPipelineOperator.execute (example_world 0)
                              (example_dataflow_operator IgnoreJob)))) = "tmp-artifact".
Proof.
  destruct (proj1 (proj1 (downloaded_artifact_removed_after_the_launch (example_world 0)
                            (example_dataflow_operator IgnoreJob)
                            (fun _ => or_introl eq_refl))) eq_refl)
    as (_ & H2 & H3).
  split; [exact H3 | exact H2].
Defined.

Lemma on_kill_after_execute_cancels_the_launched_job_witness :
  st_trace (fst (BeamRunPythonPipelineOperator.on_kill
                   (fst (BeamRunPythonPipelineOperator.execute (example_world 0)
                           (example_dataflow_operator IgnoreJob)))))
  = st_trace (fst (BeamRunPythonPipelineOperator.execute (example_world 0)
                     (example_dataflow_operator IgnoreJob)))
    ++ [Log "Dataflow job was requested to be cancelled.";
        CancelJob "2024-01-01_00_00_00-123" (Some "example-project")].
Proof.
  apply (proj1 (on_kill_after_execute_cancels_the_launched_job (example_world 0)
                  (example_dataflow_operator IgnoreJob) [] "2024-01-01_00_00_00-123"
                  eq_refl (or_introl eq_refl) eq_refl ltac:(discriminate))).
Defined.

(** X10.  The Go operator with its source on GCS, the options once
    assembled: [execute] launches the pipeline once and ends by raising
    [FileNotFoundError], whatever the launch and the wait did.  The last
    thing it does is to leave [provide_file] for the downloaded file, which
    went with the temporary directory before the launch; [self.go_file] is
    left bound to the name of that file, which is not there any more, and
    [self.should_init_go_module] is left set. *)
Theorem go_source_on_gcs_ends_in_file_not_found (w : World) (s : state) :
  is_gcs (go_file (st_self s)) = true ->
  (is_dataflow_runner (runner (st_self s)) = true ->
   labels_ok (heap_get (st_heap s) (default_pipeline_options (st_self s)))) ->
  let run := BeamRunGoPipelineOperator.execute w s in
  let name :=
    (temporary_directory w ++ "/"
     ++ temporary_file w (go_file (st_self s)) (Some (temporary_directory w)))%string in
  snd run = Raise FileNotFoundError
  /\ count is_launch (st_trace (fst run)) = S (count is_launch (st_trace s))
  /\ (exists before, st_trace (fst run) = before ++ [ProvideFileExit name])
  /\ go_file (st_self (fst run)) = name
  /\ should_init_go_module (st_self (fst run)) = true
  /\ st_files (fst run) = without_directory (temporary_directory w) (st_files s)
  /\ existsb (String.eqb name) (st_files (fst run)) = false.
Proof.
  destruct s as [h self tr stk files polls]. simpl. intros Hgcs Hlab.
  pose proof (go_execute_state w h self tr stk files polls) as H.
  cbv zeta in H. unfold wp in H.
  destruct (init_run w true (Some "job_name") h self tr stk files polls)
    as (h' & out & Ei & Hext & Hb1 & Hb2).
  { intros Hdf. split; [discriminate | auto]. }
  rewrite Ei in H. simpl in H.
  destruct H as (_ & Hself & Htrace & _ & Hfiles & _ & Hres).
  rewrite Hself, Htrace, Hfiles, Hres.
  unfold go_launch_result, fetched, go_download_events, go_cleanup_events, local_file.
  rewrite Hgcs.
  rewrite (process_self_frame w _ _ string go_file) by reflexivity.
  rewrite (process_self_frame w _ _ bool should_init_go_module) by reflexivity.
  split; [reflexivity|]. split; [|split; [|split; [|split; [|split]]]].
  - rewrite count_app. unfold init_trace, launch_events, after_launch_events.
    count_events.
  - cbv iota. match goal with
    | |- exists before, ?a ++ ?b ++ ?c ++ ?d ++ _ = _ => exists (a ++ b ++ c ++ d)
    end.
    now rewrite <- ?app_assoc.
  - reflexivity.
  - reflexivity.
  - reflexivity.
  - apply removed_with_directory.
Qed.

Lemma go_source_on_gcs_ends_in_file_not_found_witness :
  snd (BeamRunGoPipelineOperator.execute (example_world 0) example_go_operator)
  = Raise FileNotFoundError.
Proof.
  refine (proj1 (go_source_on_gcs_ends_in_file_not_found (example_world 0)
                   example_go_operator _ _)).
  - reflexivity.
  - discriminate.
Defined.

(** ** The options that the Dataflow mixin assembles *)

Lemma wp_setitem_at (h1 : heap) (out : loc) (d : dict) (k : string) (v : value)
    self tr stk files polls (Q : state -> result unit -> Prop) :
  out < length h1 ->
  Q (mkState (<[out := dict_set k v d]> h1) self tr stk files polls) (Ok tt) ->
  wp (setitem out k v) (mkState (<[out := d]> h1) self tr stk files polls) Q.
Proof.
  intros Hout HQ. unfold setitem. wp_run.
  rewrite heap_get_insert_eq by assumption.
  rewrite list_insert_insert_eq. exact HQ.
Qed.

Lemma deepcopy_loc_valid (h : heap) (po : loc) :
  length h <= deepcopy_loc h po /\ deepcopy_loc h po < length (deepcopy_heap h po).
Proof.
  unfold deepcopy_loc, deepcopy_heap, heap_deepcopy.
  destruct (po <? length h)%nat eqn:E.
  - apply Nat.ltb_lt in E. rewrite length_app, length_map. lia.
  - rewrite length_app. simpl. lia.
Qed.

Lemma heap_insert_get (h : heap) (l : loc) : l < length h -> <[l := heap_get h l]> h = h.
Proof.
  intros Hl. unfold heap_get.
  destruct (lookup_lt_is_Some_2 h l Hl) as [d Hd]. rewrite Hd.
  now apply list_insert_id.
Qed.

Lemma wp_deepcopy_exact (l : loc) (h : heap) self tr stk files polls
    (Q : state -> result loc -> Prop) :
  Q (mkState (deepcopy_heap h l) self tr stk files polls) (Ok (deepcopy_loc h l)) ->
  wp (deepcopy l) (mkState h self tr stk files polls) Q.
Proof.
  unfold wp, deepcopy, deepcopy_heap, deepcopy_loc. simpl.
  destruct (l <? length h)%nat; exact (fun H => H).
Qed.

Lemma heap_get_app_at (h : heap) (d : dict) (l : loc) :
  l = length h -> heap_get (h ++ [d]) l = d.
Proof. intros ->. apply heap_get_app_new. Qed.

Lemma get_dataflow_pipeline_options_contents (w : World) (po : loc) (name : string)
    (key : option string) (h : heap) self tr stk files polls :
  let h1 := deepcopy_heap h po in
  let out := deepcopy_loc h po in
  let d := injected name key self (heap_get h1 out) in
  let label := airflow_version_label w in
  wp (BeamDataflowMixin.__get_dataflow_pipeline_options w po name key)
    (mkState h self tr stk files polls)
    (fun s' r =>
       exists h', s' = mkState h' self tr stk files polls /\
         match dict_get "labels" d with
         | None =>
             r = Ok out
             /\ h' = <[length h1 := dict_update [] label]>
                       ((<[out := dict_set "labels" (VRef (length h1)) d]> h1 ++ [[]])
                        ++ [label])
         | Some (VRef l) =>
             r = Ok out
             /\ h' = <[l := dict_update
                              (heap_get ((<[out := d]> h1 ++ [[]]) ++ [label]) l) label]>
                       ((<[out := d]> h1 ++ [[]]) ++ [label])
         | Some _ => r = Raise AttributeError
         end).
Proof.
  intros h1 out d label.
  destruct (deepcopy_loc_valid h po) as [Hout1 Hout2]. fold out h1 in Hout1, Hout2.
  unfold BeamDataflowMixin.__get_dataflow_pipeline_options.
  apply wp_bind, wp_deepcopy_exact. fold h1 out.
  rewrite <- (heap_insert_get h1 out) at 1 by assumption.
  unfold d, injected. clear d.
  generalize (heap_get h1 out) as d. intros d.
  apply wp_bind.
  assert (Hkey :
    forall Q : state -> result unit -> Prop,
      Q (mkState (<[out := match key with
                           | Some k => dict_set k (VStr name) d
                           | None => d
                           end]> h1) self tr stk files polls) (Ok tt) ->
      wp match key with
         | Some key0 => setitem out key0 (VStr name)
         | None => ret ()
         end (mkState (<[out := d]> h1) self tr stk files polls) Q).
  { intros Q HQ. destruct key as [k|]; [now apply wp_setitem_at | wp_run; exact HQ]. }
  apply Hkey. clear Hkey. simpl.
  generalize (match key with
              | Some k => dict_set k (VStr name) d
              | None => d
              end) as d1. clear d. intros d.
  wp_run.
  assert (Hif :
    forall (c : bool) (k : string) (v : value) (d : dict) (Q : state -> result unit -> Prop),
      Q (mkState (<[out := if c then dict_set k v d else d]> h1) self tr stk files polls)
        (Ok tt) ->
      wp (if c then setitem out k v else ret ())
        (mkState (<[out := d]> h1) self tr stk files polls) Q).
  { intros c k v d0 Q HQ. destruct c; [now apply wp_setitem_at | wp_run; exact HQ]. }
  apply Hif. simpl.
  generalize (if truthy (service_account (dataflow_config self))
              then dict_set "serviceAccount"
                     (opt_value (service_account (dataflow_config self))) d
              else d) as d2. clear d. intros d.
  apply wp_bind.
  assert (Him :
    forall Q : state -> result unit -> Prop,
      Q (mkState
           (<[out := if dataflow_support_impersonation self
                        && truthy_chain (impersonation_chain (dataflow_config self))
                     then
                       match impersonation_chain (dataflow_config self) with
                       | Some (ChainList chain) =>
                           dict_set "impersonateServiceAccount" (VStr (join "," chain)) d
                       | Some (ChainStr chain) =>
                           dict_set "impersonateServiceAccount" (VStr chain) d
                       | None => d
                       end
                     else d]> h1) self tr stk files polls) (Ok tt) ->
      wp (if dataflow_support_impersonation self
             && truthy_chain (impersonation_chain (dataflow_config self))
          then
            match impersonation_chain (dataflow_config self) with
            | Some (ChainStr chain) => setitem out "impersonateServiceAccount" (VStr chain)
            | Some (ChainList chain) =>
                setitem out "impersonateServiceAccount" (VStr (join "," chain))
            | None => ret ()
            end
          else ret ()) (mkState (<[out := d]> h1) self tr stk files polls) Q).
  { intros Q HQ. destruct (_ && _).
    - destruct (impersonation_chain _) as [[chain|chain]|];
        [now apply wp_setitem_at | now apply wp_setitem_at | wp_run; exact HQ].
    - wp_run. exact HQ. }
  apply Him. clear Him Hif. simpl.
  match goal with
  | |- wp _ (mkState (<[out := ?x]> h1) _ _ _ _ _) _ => generalize x as d3
  end.
  clear d. intros d.
  apply wp_bind, wp_setitem_at; [assumption|]. simpl.
  apply wp_bind, wp_setitem_at; [assumption|]. simpl.
  match goal with
  | |- wp _ (mkState (<[out := ?x]> h1) _ _ _ _ _) _ => generalize x as d5
  end.
  clear d. intros d.
  wp_run.
  rewrite heap_get_app_l by (rewrite length_insert; assumption).
  rewrite heap_get_insert_eq by assumption.
  rewrite !length_insert.
  destruct (dict_get "labels" d) as [[| | | |l]|] eqn:El; simpl; wp_run.
  1-4: eexists; split; reflexivity.
  - eexists. split; [reflexivity|]. split; [reflexivity|].
    now rewrite heap_get_app_new.
  - eexists. split; [reflexivity|]. split; [reflexivity|].
    rewrite (insert_app_l _ _ out) by (rewrite length_insert; assumption).
    rewrite list_insert_insert_eq.
    rewrite heap_get_app_new.
    rewrite heap_get_app_l by (rewrite length_app, length_insert; simpl; lia).
    rewrite (heap_get_app_at _ [] (length h1)) by (now rewrite length_insert).
    reflexivity.
Qed.

Lemma dict_get_set (k k' : string) (v : value) (d : dict) :
  dict_get k' (dict_set k v d) = if String.eqb k k' then Some v else dict_get k' d.
Proof.
  destruct (String.eqb_spec k k') as [<-|Hne].
  - apply dict_get_set_eq.
  - now apply dict_get_set_ne.
Qed.

Lemma injected_get (name : string) (key : option string) (self : operator) (d : dict)
    (k : string) :
  dict_get k (injected name key self d)
  = match engine_option name key self k with
    | Some v => Some v
    | None => dict_get k d
    end.
Proof.
  unfold injected, engine_option.
  rewrite !dict_get_set. rewrite (String.eqb_sym "region"), (String.eqb_sym "project").
  destruct (String.eqb k "region"); [reflexivity|].
  destruct (String.eqb k "project"); [reflexivity|].
  rewrite (String.eqb_sym k "impersonateServiceAccount"), (String.eqb_sym k "serviceAccount").
  destruct (dataflow_support_impersonation self
            && truthy_chain (impersonation_chain (dataflow_config self)));
    destruct (impersonation_chain (dataflow_config self)) as [[chain|chain]|];
    destruct (truthy (service_account (dataflow_config self)));
    destruct key as [k0|];
    rewrite ?dict_get_set, ?andb_true_r, ?andb_false_r;
    repeat match goal with
           | |- context [String.eqb ?a ?b] => destruct (String.eqb a b)
           end;
    reflexivity.
Qed.

Lemma deepcopy_get (h : heap) (po : loc) :
  heap_get (deepcopy_heap h po) (deepcopy_loc h po)
  = if (po <? length h)%nat then twin_dict (length h) (heap_get h po) else [].
Proof.
  unfold deepcopy_heap, deepcopy_loc.
  destruct (po <? length h)%nat eqn:E.
  - apply Nat.ltb_lt in E. now apply heap_get_deepcopy.
  - apply heap_get_app_new.
Qed.










Lemma engine_option_labels (name : string) (key : option string) (self : operator) :
  key <> Some "labels" -> engine_option name key self "labels" = None.
Proof.
  intros Hkey. unfold engine_option. simpl.
  destruct key as [k0|]; [|reflexivity].
  destruct (String.eqb_spec k0 "labels") as [->|]; [congruence | reflexivity].
Qed.

(** When the "labels" of the defaults is not a dictionary, the options
    cannot be assembled for Dataflow. *)
Lemma init_pipeline_options_raises (w : World) (format : bool) (key : option string)
    (v : value) h self tr stk files polls :
  is_dataflow_runner (runner self) = true ->
  key <> Some "labels" ->
  dict_get "labels" (heap_get h (default_pipeline_options self)) = Some v ->
  (forall l, v <> VRef l) ->
  wp (BeamBasePipelineOperator._init_pipeline_options w format key)
    (mkState h self tr stk files polls)
    (fun s' r => r = Raise AttributeError /\ st_trace s' = tr).
Proof.
  intros Hdf Hkey Hv Hnot.
  unfold BeamBasePipelineOperator._init_pipeline_options.
  wp_run.
  fold (is_dataflow_runner (runner self)). rewrite Hdf.
  apply wp_bind.
  unfold BeamDataflowMixin._set_dataflow, BeamDataflowMixin.__set_dataflow_hook,
    BeamDataflowMixin.__get_dataflow_job_name, BeamDataflowMixin.__get_dataflow_process_callback.
  wp_run.
  eapply wp_mono; [apply get_dataflow_pipeline_options_contents|].
  cbv zeta. intros s' r (h' & -> & H).
  rewrite injected_get, engine_option_labels in H by exact Hkey.
  rewrite deepcopy_get, length_app in H. simpl in H.
  replace (length h <? length h + 1)%nat with true in H
    by (symmetry; apply Nat.ltb_lt; lia).
  rewrite dict_get_twin, heap_get_app_new, Hv in H. simpl in H.
  destruct v as [| | | |l]; simpl in H; try (subst r; wp_run; split; reflexivity).
  now destruct (Hnot l).
Qed.

(** X12.  On Dataflow, when [default_pipeline_options] has a "labels" entry
    that is not a dictionary (a string, a list, a boolean or [None]),
    [execute] of each of the three operators raises [AttributeError] while
    it assembles the options: nothing is logged, fetched, looked for or
    launched. *)
Theorem labels_of_the_defaults_must_be_a_dictionary (w : World) (s : state) (v : value) :
  is_dataflow_runner (runner (st_self s)) = true ->
  dict_get "labels" (heap_get (st_heap s) (default_pipeline_options (st_self s))) = Some v ->
  (forall l, v <> VRef l) ->
  let refused (run : state * result returned) :=
    snd run = Raise AttributeError
    /\ st_trace (fst run) = st_trace s
    /\ st_polls (fst run) = st_polls s
    /\ st_files (fst run) = st_files s in
  refused (BeamRunPythonPipelineOperator.execute w s)
  /\ refused (BeamRunGoPipelineOperator.execute w s)
  /\ (forall fuel, refused (BeamRunJavaPipelineOperator.execute w fuel s)).
Proof.
  destruct s as [h self tr stk files polls]. simpl. intros Hdf Hv Hnot.
  assert (Hinit : forall format key,
            key <> Some "labels" ->
            exists h',
              BeamBasePipelineOperator._init_pipeline_options w format key
                (mkState h self tr stk files polls)
              = (mkState h' (init_self w self) tr stk files polls, Raise AttributeError)).
  { intros format key Hkey.
    pose proof (init_pipeline_options_raises w format key v h self tr stk files polls
                  Hdf Hkey Hv Hnot) as H1.
    pose proof (init_pipeline_options_spec w format key h self tr stk files polls) as H2.
    unfold wp in H1, H2.
    destruct (BeamBasePipelineOperator._init_pipeline_options w format key _) as [s1 r1].
    simpl in H1, H2. destruct H1 as [-> _]. destruct H2 as (h' & -> & _).
    exists h'. reflexivity. }
  split; [|split].
  - pose proof (python_execute_state w h self tr stk files polls) as H.
    cbv zeta in H. unfold wp in H.
    destruct (Hinit true (Some "job_name")) as [h' Ei]; [discriminate|].
    rewrite Ei in H. simpl in H. destruct H as [-> ->]. repeat split.
  - pose proof (go_execute_state w h self tr stk files polls) as H.
    cbv zeta in H. unfold wp in H.
    destruct (Hinit true (Some "job_name")) as [h' Ei]; [discriminate|].
    rewrite Ei in H. simpl in H. destruct H as [-> ->]. repeat split.
  - intros fuel.
    pose proof (java_execute_dataflow_state w fuel h self tr stk files polls Hdf) as H.
    cbv zeta in H. unfold wp in H.
    destruct (Hinit false (@None string)) as [h' Ei]; [discriminate|].
    rewrite Ei in H. simpl in H. destruct H as [-> ->]. repeat split.
Qed.

Lemma labels_of_the_defaults_must_be_a_dictionary_witness :
  let s :=
    mkState [[("labels", VStr "team=data")]; []]
      (mkOperator "DataflowRunner" 0 1 "google_cloud_default" None (example_config IgnoreJob)
         None None None true "pipeline.py" [] "python3" None false "app.jar" None
         "main.go" false)
      [] [] [] 0 in
  snd (BeamRunPythonPipelineOperator.execute (example_world 0) s) = Raise AttributeError
  /\ snd (BeamRunJavaPipelineOperator.execute (example_world 0) 0 s) = Raise AttributeError.
Proof.
  destruct (labels_of_the_defaults_must_be_a_dictionary (example_world 0)
              (mkState [[("labels", VStr "team=data")]; []]
                 (mkOperator "DataflowRunner" 0 1 "google_cloud_default" None
                    (example_config IgnoreJob) None None None true "pipeline.py" []
                    "python3" None false "app.jar" None "main.go" false)
                 [] [] [] 0)
              (VStr "team=data") eq_refl eq_refl ltac:(discriminate))
    as ([Hpython _] & _ & Hjava).
  split; [exact Hpython | exact (proj1 (Hjava 0))].
Defined.
